(** * Vercel AI Gateway plugin: the client-side adapter, embedded in Rocq

    The development follows the TypeScript sources of the plugin family.

    - [JS]            the ECMAScript built-ins the sources call: string
                      methods, [parseInt], [JSON.parse], the values JSON
                      denotes;
    - [Config]        typescript/utils/config.ts: settings, the numeric
                      fields, [modelSupportsTemperature];
    - [Client]        typescript/providers/client.ts: [url], [streamText],
                      [generateObject];
    - [Embedding]     typescript/models/embedding.ts: truncation before
                      dispatch;
    - [TitlePattern]  the pattern both plugins use to find a title;
    - [GatewayClient] typescript/providers/client.ts: [request] and the calls
                      that go through it;
    - [Models]        typescript/models: the handlers of the Vercel plugin;
    - [Gateway]       the multi-provider plugin: [resolveProvider] and its
                      handlers;
    - [Resilient]     the AI Gateway plugin: utils/config.ts, utils/client.ts
                      and the handlers;
    - [Provider]      providers/gatewayProvider.ts: the cache of the list
                      of models;
    - [AISdk]         src/index.ts: the plugin built on the AI SDK.

    The properties come after the definitions, in the order: request URLs,
    the temperature predicate, provider resolution, numeric settings,
    truncation, the embedding handler that degrades, the streaming parser,
    fenced JSON; then settings, lines of a stream, requests and responses of
    the Vercel client, titles, images, the handlers of the AI Gateway plugin
    that throw, the cache of models, the multi-provider handlers, sizes.

    A JavaScript string is a sequence of UTF-16 code units.  It is modelled by
    [string], whose characters stand for the code units U+0000 to U+00FF; every
    literal of the sources lies in that range.  What the platform supplies
    and the sources only call ([fetch], the [TextDecoder], and, where a
    property does not depend on it, [JSON.parse]) is a parameter; so is what
    a module that is imported and not shown does (utils/http, the provider
    modules, the AI SDK). *)

From Stdlib Require Import String Ascii Strings.Byte List Bool Arith ZArith NArith Lia.
From Stdlib Require Import DecimalString DecimalN DecimalPos.
Import ListNotations.
Open Scope string_scope.
Open Scope bool_scope.

(** ** ECMAScript built-ins *)

Module JS.

Definition LF : ascii := "010"%char.
Definition CR : ascii := "013"%char.
Definition TAB : ascii := "009"%char.
Definition DQUOTE : ascii := "034"%char.

(** [code c] is the code unit of [c]. *)
Definition code (c : ascii) : N := N_of_ascii c.

(** [s.startsWith(p)] *)
Fixpoint startsWith (s p : string) {struct p} : bool :=
  match p with
  | EmptyString => true
  | String a p' =>
      match s with
      | EmptyString => false
      | String b s' => Ascii.eqb a b && startsWith s' p'
      end
  end.

(** [s.endsWith(p)]: some suffix of [s] is [p]. *)
Fixpoint endsWith (s p : string) : bool :=
  String.eqb s p ||
  match s with
  | EmptyString => false
  | String _ s' => endsWith s' p
  end.

(** [s.includes(p)]: [p] starts at some position of [s]. *)
Fixpoint includes (s p : string) : bool :=
  startsWith s p ||
  match s with
  | EmptyString => false
  | String _ s' => includes s' p
  end.

(** [s.slice(start, end)]; [None] for an omitted [end].  Negative indices
    count from the end, and both are clamped to the string. *)
Definition slice (s : string) (start : Z) (end_ : option Z) : string :=
  let len := Z.of_nat (String.length s) in
  let clamp i := if (i <? 0)%Z then Z.max (len + i) 0 else Z.min i len in
  let from := clamp start in
  let to := match end_ with None => len | Some e => clamp e end in
  substring (Z.to_nat from) (Z.to_nat (Z.max (to - from) 0)) s.

(** [s.split(sep)] for a separator of one code unit: the pieces between the
    separators, so a string with [n] separators has [n + 1] pieces. *)
Fixpoint split (s : string) (sep : ascii) : list string :=
  match s with
  | EmptyString => [EmptyString]
  | String c s' =>
      if Ascii.eqb c sep then EmptyString :: split s' sep
      else match split s' sep with
           | [] => [String c EmptyString]
           | piece :: pieces => String c piece :: pieces
           end
  end.

(** White space and line terminators of ECMAScript among U+0000..U+00FF:
    TAB, LF, VT, FF, CR, SP and NBSP.  [trim] and [parseInt] skip them. *)
Definition isWhiteSpace (c : ascii) : bool :=
  let n := code c in
  ((9 <=? n) && (n <=? 13) || (n =? 32) || (n =? 160))%N.

Fixpoint trimStart (s : string) : string :=
  match s with
  | EmptyString => EmptyString
  | String c s' => if isWhiteSpace c then trimStart s' else s
  end.

Fixpoint trimEnd (s : string) : string :=
  match s with
  | EmptyString => EmptyString
  | String c s' =>
      match trimEnd s' with
      | EmptyString => if isWhiteSpace c then EmptyString else String c EmptyString
      | r => String c r
      end
  end.

(** [s.trim()] *)
Definition trim (s : string) : string := trimEnd (trimStart s).

(** [s.toLowerCase()] on U+0000..U+00FF: A-Z and the capitals U+00C0..U+00DE
    (the multiplication sign U+00D7 excepted) move up by 32. *)
Definition lowerChar (c : ascii) : ascii :=
  let n := code c in
  if ((65 <=? n) && (n <=? 90) ||
      (192 <=? n) && (n <=? 222) && negb (n =? 215))%N
  then ascii_of_N (n + 32) else c.

Fixpoint toLowerCase (s : string) : string :=
  match s with
  | EmptyString => EmptyString
  | String c s' => String (lowerChar c) (toLowerCase s')
  end.

(** [s.replace(/\/$/, "")]: the pattern matches one slash standing at the very
    end of the string; that slash, if there is one, is removed. *)
Fixpoint replace_final_slash (s : string) : string :=
  match s with
  | EmptyString => EmptyString
  | String c EmptyString => if Ascii.eqb c "/" then EmptyString else s
  | String c s' => String c (replace_final_slash s')
  end.

(** Truthiness of a string: [""] is falsy. *)
Definition truthy_string (s : string) : bool := negb (String.eqb s "").

(** [a || b] on optional strings, [None] standing for [undefined]/[null]. *)
Definition or_else (a : option string) (b : option string) : option string :=
  match a with
  | Some v => if truthy_string v then a else b
  | None => b
  end.

(** [a ?? b]: only [undefined]/[null] gives way. *)
Definition nullish (a : option string) (b : option string) : option string :=
  match a with
  | Some _ => a
  | None => b
  end.

(** *** Numbers

    A Number is a double.  The sources never compute with one: they obtain it
    from a decimal numeral (a literal, a JSON number, the digits read by
    [parseInt]) and test it.  [Decimal neg c e] stands for the double nearest
    to (-1)^neg * c * 10^e, the value ECMAScript gives that numeral. *)
Inductive number :=
  | NaN
  | Decimal (negative : bool) (coefficient : N) (exponent : Z).

Definition int (z : Z) : number := Decimal (z <? 0)%Z (Z.abs_N z) 0.

(** A positive numeral c * 10^-k rounds to zero when it lies at or below
    2^-1075, half the least positive double (a tie goes to the even
    neighbour, which is 0). *)
Definition underflows (c : N) (negexp : Z) : bool :=
  (Z.of_N c * 2 ^ 1075 <=? 10 ^ negexp)%Z.

(** The double is [+0] or [-0]. *)
Definition number_is_zero (n : number) : bool :=
  match n with
  | NaN => false
  | Decimal _ c e => (c =? 0)%N || ((e <? 0)%Z && underflows c (- e))
  end.

(** [Number.isNaN(n)] *)
Definition isNaN (n : number) : bool :=
  match n with NaN => true | _ => false end.

(** [n > 0] *)
Definition positive_number (n : number) : bool :=
  match n with
  | NaN => false
  | Decimal neg _ _ => negb neg && negb (number_is_zero n)
  end.

Definition truthy_number (n : number) : bool :=
  negb (isNaN n) && negb (number_is_zero n).

(** [a || b] on numbers, [None] standing for [undefined]. *)
Definition or_number (a : option number) (b : number) : number :=
  match a with
  | Some v => if truthy_number v then v else b
  | None => b
  end.

(** [a ?? b] on numbers. *)
Definition nullish_number (a : option number) (b : number) : number :=
  match a with
  | Some v => v
  | None => b
  end.

(** [Number.isFinite(n)].  A numeral rounds to Infinity from 2^1024 - 2^970
    on, the midpoint between the largest double and 2^1024.  (Past twenty
    digits an engine may read a numeral with its later digits set to zero,
    which makes it no larger.) *)
Definition isFinite (n : number) : bool :=
  match n with
  | NaN => false
  | Decimal _ c e =>
      let limit := (2 ^ 1024 - 2 ^ 970)%Z in
      if (0 <=? e)%Z then (Z.of_N c * 10 ^ e <? limit)%Z
      else (Z.of_N c <? limit * 10 ^ (- e))%Z
  end.

(** *** [parseInt(s, 10)]

    Leading white space is skipped, one sign is read, then the longest run of
    decimal digits; with no digit the result is NaN. *)
Definition isDigit (c : ascii) : bool :=
  let n := code c in ((48 <=? n) && (n <=? 57))%N.

Definition digitValue (c : ascii) : N := (code c - 48)%N.

Fixpoint readDigits (acc : option N) (s : string) : option N :=
  match s with
  | EmptyString => acc
  | String c s' =>
      if isDigit c
      then readDigits
             (Some (match acc with None => 0 | Some a => a end * 10 + digitValue c)%N)
             s'
      else acc
  end.

Definition parseInt (s : string) : number :=
  let t := trimStart s in
  let '(neg, body) :=
    match t with
    | String "-" r => (true, r)
    | String "+" r => (false, r)
    | _ => (false, t)
    end in
  match readDigits None body with
  | None => NaN
  | Some v => Decimal neg v 0
  end.

(** *** JSON values *)
#[warnings="-register-all"]
Inductive JValue :=
  | JNull
  | JBool (b : bool)
  | JNum (n : number)
  | JStr (s : string)
  | JArr (elements : list JValue)
  | JObj (members : list (string * JValue)).

(** Truthiness of a value; [None] below stands for [undefined]. *)
Definition truthy (v : JValue) : bool :=
  match v with
  | JNull => false
  | JBool b => b
  | JNum n => truthy_number n
  | JStr s => truthy_string s
  | JArr _ | JObj _ => true
  end.

Definition truthy_opt (v : option JValue) : bool :=
  match v with None => false | Some x => truthy x end.

(** The own property [key] of an object read from JSON.  Members are kept in
    source order, and a repeated key takes its last value. *)
Fixpoint lookup (key : string) (members : list (string * JValue)) : option JValue :=
  match members with
  | [] => None
  | (k, v) :: rest =>
      match lookup key rest with
      | Some w => Some w
      | None => if String.eqb k key then Some v else None
      end
  end.

(** [v.name] for a value [v] other than [null], where [name] is one of the
    field names the sources read ([choices], [delta], [content], [data],
    [embedding], [usage], ...): no array, string, number or boolean has such a
    property, own or inherited. *)
Definition member (name : string) (v : JValue) : option JValue :=
  match v with
  | JObj ms => lookup name ms
  | _ => None
  end.

(** [v[0]] for a value [v] other than [null]: the first element of an array,
    the first code unit of a string, the property ["0"] of an object. *)
Definition index0 (v : JValue) : option JValue :=
  match v with
  | JArr (x :: _) => Some x
  | JStr (String c _) => Some (JStr (String c EmptyString))
  | JObj ms => lookup "0" ms
  | _ => None
  end.

(** Optional chaining [o?.f]: [undefined] when [o] is [undefined] or [null]. *)
Definition chain (o : option JValue) (f : JValue -> option JValue) : option JValue :=
  match o with
  | None | Some JNull => None
  | Some v => f v
  end.

(** *** [JSON.parse]

    The text is cut into tokens by a scanner that reads one code unit at a
    time, and the tokens drive a pushdown recogniser of the JSON grammar
    (ECMA-404).  [None] stands for the SyntaxError. *)
Inductive token :=
  | TLBrace | TRBrace | TLBracket | TRBracket | TColon | TComma
  | TString (s : string)
  | TNumber (n : number)
  | TTrue | TFalse | TNull.

(** Run of digits at the head of [s], and what follows it. *)
Fixpoint spanDigits (s : string) : string * string :=
  match s with
  | EmptyString => (EmptyString, EmptyString)
  | String c s' =>
      if isDigit c
      then let '(d, r) := spanDigits s' in (String c d, r)
      else (EmptyString, s)
  end.

Definition digitsValue (d : string) : N :=
  match readDigits None d with None => 0%N | Some v => v end.

(** A JSON number: an optional minus sign; the integer part, which is 0 or
    starts with a digit from 1 to 9; an optional fraction, a point and at least
    one digit; an optional exponent, e or E, an optional sign and at least one
    digit. *)
Definition numberOfLexeme (w : string) : option number :=
  let '(neg, w1) :=
    match w with String "-" r => (true, r) | _ => (false, w) end in
  let '(ip, w2) := spanDigits w1 in
  let int_ok :=
    match ip with
    | EmptyString => false
    | String "0" (String _ _) => false
    | _ => true
    end in
  let '(fp, frac_ok, w3) :=
    match w2 with
    | String "." r =>
        let '(f, r') := spanDigits r in
        (f, negb (String.eqb f ""), r')
    | _ => (EmptyString, true, w2)
    end in
  let '(ex, exp_ok, w4) :=
    match w3 with
    | String c r =>
        if Ascii.eqb c "e" || Ascii.eqb c "E" then
          let '(eneg, r1) :=
            match r with
            | String "-" r' => (true, r')
            | String "+" r' => (false, r')
            | _ => (false, r)
            end in
          let '(ed, r2) := spanDigits r1 in
          (if eneg then (- Z.of_N (digitsValue ed))%Z else Z.of_N (digitsValue ed),
           negb (String.eqb ed ""), r2)
        else (0%Z, true, w3)
    | EmptyString => (0%Z, true, w3)
    end in
  if int_ok && frac_ok && exp_ok && String.eqb w4 ""
  then Some (Decimal neg (digitsValue (ip ++ fp))
               (ex - Z.of_nat (String.length fp)))
  else None.

(** The token of a bare word: a literal name or a number. *)
Definition tokenOfWord (w : string) : option token :=
  if String.eqb w "true" then Some TTrue
  else if String.eqb w "false" then Some TFalse
  else if String.eqb w "null" then Some TNull
  else option_map TNumber (numberOfLexeme w).

(** Code units a number or a literal name may contain. *)
Definition isWordChar (c : ascii) : bool :=
  let n := code c in
  (isDigit c || (97 <=? n) && (n <=? 122) || (65 <=? n) && (n <=? 90)
   || (n =? 43) || (n =? 45) || (n =? 46))%N.

(** JSON white space: SP, TAB, LF, CR. *)
Definition isJSONSpace (c : ascii) : bool :=
  let n := code c in ((n =? 32) || (n =? 9) || (n =? 10) || (n =? 13))%N.

Definition hexValue (c : ascii) : option N :=
  let n := code c in
  if isDigit c then Some (n - 48)%N
  else if ((97 <=? n) && (n <=? 102))%N then Some (n - 87)%N
  else if ((65 <=? n) && (n <=? 70))%N then Some (n - 55)%N
  else None.

(** Scanner states; strings and words are gathered in reverse. *)
Inductive scan :=
  | Between
  | InWord (rev_word : list ascii)
  | InString (rev_chars : list ascii)
  | InEscape (rev_chars : list ascii)
  | InUnicode (rev_chars : list ascii) (seen : nat) (value : N).

Definition string_of_rev (l : list ascii) : string :=
  string_of_list_ascii (rev l).

Definition punctuation (c : ascii) : option token :=
  let n := code c in
  if (n =? 123)%N then Some TLBrace
  else if (n =? 125)%N then Some TRBrace
  else if (n =? 91)%N then Some TLBracket
  else if (n =? 93)%N then Some TRBracket
  else if (n =? 58)%N then Some TColon
  else if (n =? 44)%N then Some TComma
  else None.

(** One code unit read outside a string or word. *)
Definition scanBetween (c : ascii) : option (list token * scan) :=
  if isJSONSpace c then Some ([], Between)
  else if Ascii.eqb c DQUOTE then Some ([], InString [])
  else if isWordChar c then Some ([], InWord [c])
  else match punctuation c with
       | Some t => Some ([t], Between)
       | None => None
       end.

(** The character an escape letter denotes. *)
Definition escaped (c : ascii) : option ascii :=
  let n := code c in
  if (n =? 34)%N || (n =? 92)%N || (n =? 47)%N then Some c
  else if (n =? 98)%N then Some "008"%char
  else if (n =? 102)%N then Some "012"%char
  else if (n =? 110)%N then Some LF
  else if (n =? 114)%N then Some CR
  else if (n =? 116)%N then Some TAB
  else None.

(** One scanner step: the tokens completed by [c] and the next state.  An
    escape [\uXXXX] above U+00FF denotes a code unit outside the modelled
    alphabet; the scanner has no string for it and stops. *)
Definition scanStep (st : scan) (c : ascii) : option (list token * scan) :=
  match st with
  | Between => scanBetween c
  | InWord w =>
      if isWordChar c then Some ([], InWord (c :: w))
      else match tokenOfWord (string_of_rev w), scanBetween c with
           | Some t, Some (ts, st') => Some (t :: ts, st')
           | _, _ => None
           end
  | InString cs =>
      if Ascii.eqb c DQUOTE then Some ([TString (string_of_rev cs)], Between)
      else if Ascii.eqb c "\" then Some ([], InEscape cs)
      else if (code c <? 32)%N then None
      else Some ([], InString (c :: cs))
  | InEscape cs =>
      if Ascii.eqb c "u" then Some ([], InUnicode cs 0 0%N)
      else match escaped c with
           | Some x => Some ([], InString (x :: cs))
           | None => None
           end
  | InUnicode cs seen v =>
      match hexValue c with
      | None => None
      | Some h =>
          let v' := (v * 16 + h)%N in
          if Nat.eqb seen 3
          then if (v' <? 256)%N then Some ([], InString (ascii_of_N v' :: cs))
               else None
          else Some ([], InUnicode cs (S seen) v')
      end
  end.

Fixpoint scanFrom (st : scan) (s : string) : option (list token) :=
  match s with
  | EmptyString =>
      match st with
      | Between => Some []
      | InWord w => option_map (fun t => [t]) (tokenOfWord (string_of_rev w))
      | _ => None
      end
  | String c s' =>
      match scanStep st c with
      | None => None
      | Some (ts, st') => option_map (app ts) (scanFrom st' s')
      end
  end.

(** The container being filled, with the key awaiting its value. *)
Inductive frame :=
  | InArray (rev_elements : list JValue)
  | InObject (rev_members : list (string * JValue)) (key : string).

Inductive expect :=
  | WantValue                 (* a value *)
  | WantValueOrEnd            (* after [[]: a value or []] *)
  | WantKeyOrEnd (rev_members : list (string * JValue))   (* after [{] *)
  | WantKey (rev_members : list (string * JValue))        (* after [,] in an object *)
  | WantColon (rev_members : list (string * JValue)) (key : string)
  | AfterElement              (* [,] or []] *)
  | AfterMember               (* [,] or [}] *)
  | Finished (v : JValue).

(** A value is complete: it is the result, or it joins the open container. *)
Definition complete (v : JValue) (stack : list frame) : list frame * expect :=
  match stack with
  | [] => ([], Finished v)
  | InArray es :: rest => (InArray (v :: es) :: rest, AfterElement)
  | InObject ms k :: rest => (InObject ((k, v) :: ms) k :: rest, AfterMember)
  end.

Definition scalar (t : token) : option JValue :=
  match t with
  | TString s => Some (JStr s)
  | TNumber n => Some (JNum n)
  | TTrue => Some (JBool true)
  | TFalse => Some (JBool false)
  | TNull => Some JNull
  | _ => None
  end.

Definition startValue (t : token) (stack : list frame) : option (list frame * expect) :=
  match t with
  | TLBracket => Some (InArray [] :: stack, WantValueOrEnd)
  | TLBrace => Some (stack, WantKeyOrEnd [])
  | _ => option_map (fun v => complete v stack) (scalar t)
  end.

Definition parseStep (st : list frame * expect) (t : token) : option (list frame * expect) :=
  let '(stack, e) := st in
  match e with
  | WantValue => startValue t stack
  | WantValueOrEnd =>
      match t, stack with
      | TRBracket, InArray es :: rest => Some (complete (JArr (rev es)) rest)
      | _, _ => startValue t stack
      end
  | WantKeyOrEnd ms =>
      match t with
      | TRBrace => Some (complete (JObj (rev ms)) stack)
      | TString k => Some (stack, WantColon ms k)
      | _ => None
      end
  | WantKey ms =>
      match t with
      | TString k => Some (stack, WantColon ms k)
      | _ => None
      end
  | WantColon ms k =>
      match t with
      | TColon => Some (InObject ms k :: stack, WantValue)
      | _ => None
      end
  | AfterElement =>
      match t, stack with
      | TComma, InArray _ :: _ => Some (stack, WantValue)
      | TRBracket, InArray es :: rest => Some (complete (JArr (rev es)) rest)
      | _, _ => None
      end
  | AfterMember =>
      match t, stack with
      | TComma, InObject ms _ :: rest => Some (rest, WantKey ms)
      | TRBrace, InObject ms _ :: rest => Some (complete (JObj (rev ms)) rest)
      | _, _ => None
      end
  | Finished _ => None
  end.

Fixpoint parseTokens (st : list frame * expect) (ts : list token) : option JValue :=
  match ts with
  | [] => match st with
          | ([], Finished v) => Some v
          | _ => None
          end
  | t :: ts' =>
      match parseStep st t with
      | None => None
      | Some st' => parseTokens st' ts'
      end
  end.

(** [JSON.parse(text)] on the texts whose strings stay within the modelled
    alphabet: [Some] value, or [None] for the SyntaxError.  A text with an
    escape [\uXXXX] above U+00FF, which [JSON.parse] accepts, has a value
    that no [string] here stands for, and [JSON_parse] gives [None] for it
    too.  So the functions that call [JSON.parse] take the parser as an
    argument, of which [JSON_parse] is the instance they are run on, and a
    property stated for [JSON_parse] itself speaks of the texts within the
    alphabet. *)
Definition JSON_parse (text : string) : option JValue :=
  match scanFrom Between text with
  | None => None
  | Some ts => parseTokens ([], WantValue) ts
  end.

End JS.

(** ** What the host and the platform supply *)

(** Exceptions the sources raise. *)
Inductive Exception :=
  | Error (message : string)
  | GatewayError (message : string) (statusCode : option N).

(** How a call ends. *)
Inductive Completion (A : Type) :=
  | Returns (a : A)
  | Throws (e : Exception).
Arguments Returns {A} a.
Arguments Throws {A} e.

(** [runtime.getSetting(key)] of the host runtime, for settings that hold
    strings; [None] is [null]. *)
Definition IAgentRuntime := string -> option string.

(** [process.env[key]] *)
Definition ProcessEnv := string -> option string.

(** [`${n}`] for a non-negative integer. *)
Definition decimal (n : N) : string := NilZero.string_of_uint (N.to_uint n).

(** ** typescript/utils/config.ts and typescript/types *)

Module Config.

Record GatewayConfig := {
  apiKey : string;
  baseUrl : string;
  smallModel : string;
  largeModel : string;
  embeddingModel : string;
  embeddingDimensions : JS.number;
  imageModel : string;
  timeoutMs : JS.number
}.

(** [DEFAULT_CONFIG], which has every field but [apiKey]. *)
Module DEFAULT_CONFIG.
Definition baseUrl := "https://ai-gateway.vercel.sh/v1".
Definition smallModel := "gpt-5-mini".
Definition largeModel := "gpt-5".
Definition embeddingModel := "text-embedding-3-small".
Definition embeddingDimensions := JS.int 1536.
Definition imageModel := "dall-e-3".
Definition timeoutMs := JS.int 60000.
End DEFAULT_CONFIG.

(** [process] may be undefined (a browser build): [None]. *)
Definition getEnvValue (process : option ProcessEnv) (key : string) : option string :=
  match process with
  | None => None
  | Some env => env key
  end.

Definition getSetting (runtime : option IAgentRuntime) (process : option ProcessEnv)
    (key : string) : option string :=
  match runtime with
  | Some rt =>
      match rt key with
      | Some value =>
          if JS.truthy_string value then Some value else getEnvValue process key
      | None => getEnvValue process key
      end
  | None => getEnvValue process key
  end.

Definition getApiKeyOptional (runtime : option IAgentRuntime) (process : option ProcessEnv)
    : option string :=
  JS.or_else (getSetting runtime process "AI_GATEWAY_API_KEY")
    (JS.or_else (getSetting runtime process "AIGATEWAY_API_KEY")
       (getSetting runtime process "VERCEL_OIDC_TOKEN")).

Definition getApiKey (runtime : option IAgentRuntime) (process : option ProcessEnv)
    : Completion string :=
  match getApiKeyOptional runtime process with
  | Some k =>
      if JS.truthy_string k then Returns k
      else Throws (Error "AI_GATEWAY_API_KEY, AIGATEWAY_API_KEY, or VERCEL_OIDC_TOKEN is required")
  | None =>
      Throws (Error "AI_GATEWAY_API_KEY, AIGATEWAY_API_KEY, or VERCEL_OIDC_TOKEN is required")
  end.

(** [a || d] where [d] is a string. *)
Definition default_to (a : option string) (d : string) : string :=
  match JS.or_else a (Some d) with Some v => v | None => d end.

Definition getBaseUrl runtime process : string :=
  default_to (getSetting runtime process "AI_GATEWAY_BASE_URL") DEFAULT_CONFIG.baseUrl.

Definition getSmallModel runtime process : string :=
  default_to (JS.or_else (getSetting runtime process "AI_GATEWAY_SMALL_MODEL")
                (getSetting runtime process "SMALL_MODEL"))
    DEFAULT_CONFIG.smallModel.

Definition getLargeModel runtime process : string :=
  default_to (JS.or_else (getSetting runtime process "AI_GATEWAY_LARGE_MODEL")
                (getSetting runtime process "LARGE_MODEL"))
    DEFAULT_CONFIG.largeModel.

Definition getEmbeddingModel runtime process : string :=
  default_to (getSetting runtime process "AI_GATEWAY_EMBEDDING_MODEL")
    DEFAULT_CONFIG.embeddingModel.

Definition getEmbeddingDimensions runtime process : JS.number :=
  let dims := getSetting runtime process "AI_GATEWAY_EMBEDDING_DIMENSIONS" in
  match dims with
  | Some text =>
      if JS.truthy_string text then
        let parsed := JS.parseInt text in
        if negb (JS.isNaN parsed) && JS.positive_number parsed then parsed
        else DEFAULT_CONFIG.embeddingDimensions
      else DEFAULT_CONFIG.embeddingDimensions
  | None => DEFAULT_CONFIG.embeddingDimensions
  end.

Definition getImageModel runtime process : string :=
  default_to (getSetting runtime process "AI_GATEWAY_IMAGE_MODEL")
    DEFAULT_CONFIG.imageModel.

Definition getTimeoutMs runtime process : JS.number :=
  let timeout := getSetting runtime process "AI_GATEWAY_TIMEOUT_MS" in
  match timeout with
  | Some text =>
      if JS.truthy_string text then
        let parsed := JS.parseInt text in
        if negb (JS.isNaN parsed) && JS.positive_number parsed then parsed
        else DEFAULT_CONFIG.timeoutMs
      else DEFAULT_CONFIG.timeoutMs
  | None => DEFAULT_CONFIG.timeoutMs
  end.

Definition buildConfig runtime process : Completion GatewayConfig :=
  match getApiKey runtime process with
  | Throws e => Throws e
  | Returns key =>
      Returns {| apiKey := key;
                 baseUrl := getBaseUrl runtime process;
                 smallModel := getSmallModel runtime process;
                 largeModel := getLargeModel runtime process;
                 embeddingModel := getEmbeddingModel runtime process;
                 embeddingDimensions := getEmbeddingDimensions runtime process;
                 imageModel := getImageModel runtime process;
                 timeoutMs := getTimeoutMs runtime process |}
  end.

(** The set, in insertion order. *)
Definition NO_TEMPERATURE_MODELS : list string :=
  ["o1"; "o1-preview"; "o1-mini"; "o3"; "o3-mini"; "gpt-5"; "gpt-5-mini"].

(** The [for ... of] loop: [false] at the first entry the model id contains. *)
Fixpoint noneIncluded (modelLower : string) (entries : list string) : bool :=
  match entries with
  | [] => true
  | noTempModel :: rest =>
      if JS.includes modelLower noTempModel then false
      else noneIncluded modelLower rest
  end.

Definition modelSupportsTemperature (model : string) : bool :=
  let modelLower := JS.toLowerCase model in
  noneIncluded modelLower NO_TEMPERATURE_MODELS.

End Config.

(** ** typescript/providers/client.ts *)

Module Client.

(** [GatewayClient.url] *)
Definition url (config : Config.GatewayConfig) (endpoint : string) : string :=
  let base := JS.replace_final_slash (Config.baseUrl config) in
  base ++ endpoint.

(** A [TextDecoder] used with [{ stream: true }]: it takes the bytes of a read
    one by one, holds back a sequence that is not yet complete, and gives the
    text completed so far. *)
Record TextDecoder := {
  pending : Type;
  fresh : pending;
  decode_byte : pending -> byte -> pending * string
}.

(** [decoder.decode(value, { stream: true })] *)
Fixpoint decode (d : TextDecoder) (st : pending d) (value : list byte)
    : pending d * string :=
  match value with
  | [] => (st, EmptyString)
  | b :: rest =>
      let '(st1, t1) := decode_byte d st b in
      let '(st2, t2) := decode d st1 rest in
      (st2, t1 ++ t2)
  end.

(** The UTF-8 decoder on streams of 7-bit bytes, where every byte is one code
    unit and nothing is ever held back.  Bytes from 0x80 up encode code points
    that are not dealt with here; this decoder passes over them. *)
Definition utf8_7bit : TextDecoder :=
  {| pending := unit;
     fresh := tt;
     decode_byte := fun st b =>
       let c := ascii_of_byte b in
       (st, if (JS.code c <? 128)%N then String c EmptyString else EmptyString) |}.

(** The response to the streamed POST, as [streamText] uses it: [body] is the
    sequence of values its reader delivers before it reports [done]. *)
Record Response := {
  ok : bool;
  status : N;
  statusText : string;
  body : option (list (list byte))
}.

(** What a consumer that drains the generator obtains: the values yielded, in
    order, and the reads the generator never asked for. *)
Record Generated := {
  yielded : list JS.JValue;
  unread : list (list byte)
}.

(** [lines.pop()]: the list without its last element, and that element. *)
Definition pop (lines : list string) : list string * option string :=
  match lines with
  | [] => ([], None)
  | _ => (removelast lines, Some (last lines EmptyString))
  end.

(** The outcome of one turn of the [for] loop. *)
Inductive Turn :=
  | Next (yield : option JS.JValue)
  | Return.

Section Parsing.

Variable JSON_parse : string -> option JS.JValue.

(** The body of [for (const line of lines)].  A SyntaxError of [JSON.parse]
    and the TypeError of reading [choices] from [null] are both caught by the
    empty [catch]. *)
Definition forBody (line : string) : Turn :=
  if negb (JS.startsWith line "data: ") then Next None
  else
    let data := JS.slice line 6 None in
    if String.eqb data "[DONE]" then Return
    else
      match JSON_parse data with
      | None => Next None
      | Some JS.JNull => Next None
      | Some chunk =>
          let content :=
            JS.chain (JS.chain (JS.chain (JS.member "choices" chunk) JS.index0)
                        (JS.member "delta"))
              (JS.member "content") in
          if JS.truthy_opt content then Next content else Next None
      end.

(** [for (const line of lines)]: the values yielded, and whether the loop was
    left by [return]. *)
Fixpoint forLines (lines : list string) : list JS.JValue * bool :=
  match lines with
  | [] => ([], false)
  | line :: rest =>
      match forBody line with
      | Return => ([], true)
      | Next y =>
          let '(ys, returned) := forLines rest in
          (match y with Some v => v :: ys | None => ys end, returned)
      end
  end.

Variable decoder : TextDecoder.

(** [while (true)]: one turn for each value read; the empty list is the read
    that reports [done]. *)
Fixpoint whileRead (st : pending decoder) (buffer : string)
    (reads : list (list byte)) : Generated :=
  match reads with
  | [] => {| yielded := []; unread := [] |}
  | value :: rest =>
      let '(st', text) := decode decoder st value in
      let buffer := buffer ++ text in
      let '(lines, popped) := pop (JS.split buffer JS.LF) in
      let buffer := match JS.or_else popped (Some EmptyString) with
                    | Some b => b
                    | None => EmptyString
                    end in
      let '(ys, returned) := forLines lines in
      if returned then {| yielded := ys; unread := rest |}
      else
        let g := whileRead st' buffer rest in
        {| yielded := ys ++ yielded g; unread := unread g |}
  end.

(** [streamText], from the response on.  The request, the abort timer and a
    read that rejects are left out. *)
Definition streamText (response : Response) : Completion Generated :=
  if negb (ok response) then
    Throws (GatewayError
              ("Gateway API error (" ++ decimal (status response) ++ "): "
               ++ statusText response)
              (Some (status response)))
  else
    match body response with
    | None => Throws (GatewayError "No response body" None)
    | Some reads => Returns (whileRead (fresh decoder) EmptyString reads)
    end.

(** [generateObject], given how the call of [generateText] ended. *)
Definition generateObject (generated : Completion string)
    : Completion JS.JValue :=
  match generated with
  | Throws e => Throws e
  | Returns response =>
      let cleaned := JS.trim response in
      let cleaned :=
        if JS.startsWith cleaned "```json" then JS.slice cleaned 7 None
        else cleaned in
      let cleaned :=
        if JS.startsWith cleaned "```" then JS.slice cleaned 3 None
        else cleaned in
      let cleaned :=
        if JS.endsWith cleaned "```" then JS.slice cleaned 0 (Some (-3)%Z)
        else cleaned in
      match JSON_parse (JS.trim cleaned) with
      | Some object => Returns object
      | None => Throws (GatewayError ("Failed to parse JSON response: " ++ cleaned) None)
      end
  end.

End Parsing.

(** A response that streams [reads]. *)
Definition streaming (reads : list (list byte)) : Response :=
  {| ok := true; status := 200; statusText := "OK"; body := Some reads |}.

(** The values a drained generator yielded; none if the call threw. *)
Definition fragments (c : Completion Generated) : list JS.JValue :=
  match c with
  | Returns g => yielded g
  | Throws _ => []
  end.

End Client.

(** ** typescript/models/embedding.ts *)

Module Embedding.

Inductive TextEmbeddingInput :=
  | null
  | text_of_string (s : string)
  | text_of_params (text : string).

(** The argument of [client.createEmbedding]. *)
Record EmbeddingParams := {
  text : string;
  model : string;
  dimensions : JS.number
}.

Section Handler.

(** [MAX_EMBEDDING_TOKENS] of @elizaos/core, a count of tokens. *)
Variable MAX_EMBEDDING_TOKENS : nat.

(** [handleTextEmbedding] up to its last statement, the call
    [client.createEmbedding({ text, model, dimensions })] whose result it
    returns: the value is the argument of that call. *)
Definition handleTextEmbedding (runtime : IAgentRuntime) (process : option ProcessEnv)
    (params : TextEmbeddingInput) : Completion EmbeddingParams :=
  match Config.buildConfig (Some runtime) process with
  | Throws e => Throws e
  | Returns config =>
      let text :=
        match params with
        | null => "test"
        | text_of_string s => s
        | text_of_params t => t
        end in
      let maxChars := MAX_EMBEDDING_TOKENS * 4 in
      let text :=
        if (maxChars <? String.length text)%nat
        then JS.slice text 0 (Some (Z.of_nat maxChars))
        else text in
      let model := Config.getEmbeddingModel (Some runtime) process in
      let dimensions := Config.getEmbeddingDimensions (Some runtime) process in
      Returns {| text := text; model := model; dimensions := dimensions |}
  end.

End Handler.

End Embedding.

(** ** The pattern [/title[:\s]+(.+?)(?:\n|$)/i]

    Both plugins look for a title in the text a vision model returns.  The
    pattern is matched as ECMAScript matches it: at the leftmost position
    where a match exists and, there, with the choices of a backtracking
    matcher, the longest run of colons and white space first and the
    shortest title first. *)

Module TitlePattern.

(** What [.] does not match among U+0000..U+00FF: the line terminators. *)
Definition isLineTerminator (c : ascii) : bool :=
  Ascii.eqb c JS.LF || Ascii.eqb c JS.CR.

(** The class [[:\s]]. *)
Definition inClass (c : ascii) : bool :=
  Ascii.eqb c ":" || JS.isWhiteSpace c.

(** [s] starts with the letters of [p], which is in lower case, in either
    case; the value is what follows them. *)
Fixpoint letters (p s : string) : option string :=
  match p with
  | EmptyString => Some s
  | String a p' =>
      match s with
      | EmptyString => None
      | String b s' => if Ascii.eqb (JS.lowerChar b) a then letters p' s' else None
      end
  end.

(** The group [(.+?)] once it holds a character, then [(?:\n|$)]: the group
    is closed as soon as a line feed or the end of the text follows; the
    value is the rest of the group and what follows the match. *)
Fixpoint lazyRest (s : string) : option (string * string) :=
  match s with
  | EmptyString => Some (EmptyString, EmptyString)
  | String c s' =>
      if Ascii.eqb c JS.LF then Some (EmptyString, s')
      else if isLineTerminator c then None
      else match lazyRest s' with
           | Some (group, after) => Some (String c group, after)
           | None => None
           end
  end.

(** [(.+?)(?:\n|$)] *)
Definition lazyGroup (s : string) : option (string * string) :=
  match s with
  | EmptyString => None
  | String c s' =>
      if isLineTerminator c then None
      else match lazyRest s' with
           | Some (group, after) => Some (String c group, after)
           | None => None
           end
  end.

(** [[:\s]*(.+?)(?:\n|$)]: one more character of the class is taken if the
    rest then matches, and given back if it does not. *)
Fixpoint classStar (s : string) : option (string * string) :=
  match s with
  | EmptyString => lazyGroup s
  | String c s' =>
      if inClass c
      then match classStar s' with
           | Some found => Some found
           | None => lazyGroup s
           end
      else lazyGroup s
  end.

(** The whole pattern, at the head of [s]: the group and what follows the
    match. *)
Definition matchHere (s : string) : option (string * string) :=
  match letters "title" s with
  | Some (String c s') => if inClass c then classStar s' else None
  | _ => None
  end.

(** [pattern.exec(s)]: what precedes the match, the group, what follows the
    match. *)
Fixpoint exec (s : string) : option (string * string * string) :=
  match matchHere s with
  | Some (group, after) => Some (EmptyString, group, after)
  | None =>
      match s with
      | EmptyString => None
      | String c s' =>
          match exec s' with
          | Some (before, group, after) => Some (String c before, group, after)
          | None => None
          end
      end
  end.

End TitlePattern.

(** ** typescript/providers/client.ts: the calls that go through [request] *)

Module GatewayClient.

(** The call [fetch(url, init)] of [request].  Every caller gives a method and
    a body and no headers; the body is kept as the value handed to
    [JSON.stringify].  The abort signal is not shown: when the timer fires,
    the promise is rejected with an AbortError. *)
Record Call := {
  call_url : string;
  call_method : string;
  call_headers : list (string * string);
  call_body : JS.JValue
}.

(** What a rejected promise carries: an Error whose name is AbortError,
    another Error with its message, or a value that is not an Error. *)
Inductive Thrown :=
  | AbortError
  | OtherError (message : string)
  | NotAnError.

(** A response; [json] is what [response.json()] settles to. *)
Record Response := {
  ok : bool;
  status : N;
  statusText : string;
  json : JS.JValue + Thrown
}.

Inductive Fetched :=
  | Rejected (error : Thrown)
  | Responded (response : Response).

Module TextGenerationParams.
Record t := {
  prompt : string;
  system : option string;
  model : option string;
  temperature : option JS.number;
  maxTokens : option JS.number;
  frequencyPenalty : option JS.number;
  presencePenalty : option JS.number;
  stopSequences : option (list string)
}.
End TextGenerationParams.

Module EmbeddingParams.
Record t := {
  text : string;
  model : option string;
  dimensions : option JS.number
}.
End EmbeddingParams.

Module ImageGenerationParams.
Record t := {
  prompt : string;
  model : option string;
  n : option JS.number;
  size : option string;
  quality : option string;
  style : option string
}.
End ImageGenerationParams.

Module ImageDescriptionParams.
Record t := {
  imageUrl : string;
  prompt : option string;
  model : option string;
  maxTokens : option JS.number
}.
End ImageDescriptionParams.

Module ObjectParams.
Record t := {
  prompt : string;
  model : option string;
  temperature : option JS.number
}.
End ObjectParams.

(** One element of what [generateImage] returns; a field the response did not
    have is [undefined]. *)
Record ImageGenerationResult := {
  url : option JS.JValue;
  revisedPrompt : option JS.JValue
}.

(** What [describeImage] returns.  The description is a string whenever the
    content of the response is one. *)
Record ImageDescriptionResult := {
  title : string;
  description : option JS.JValue
}.

(** [{ role, content }] *)
Definition message (role content : string) : JS.JValue :=
  JS.JObj [("role", JS.JStr role); ("content", JS.JStr content)].

(** The messages of a chat request: the system message, if [system] is a
    string that is not empty, then the user message. *)
Definition messagesOf (system : option string) (prompt : string) : list JS.JValue :=
  (match system with
   | Some s => if JS.truthy_string s then [message "system" s] else []
   | None => []
   end ++ [message "user" prompt])%list.

(** [if (value !== undefined) body.key = value] *)
Definition field (key : string) (value : option JS.number) : list (string * JS.JValue) :=
  match value with
  | Some v => [(key, JS.JNum v)]
  | None => []
  end.

Definition fieldText (key : string) (value : option string) : list (string * JS.JValue) :=
  match value with
  | Some v => [(key, JS.JStr v)]
  | None => []
  end.

(** The body [generateText] posts. *)
Definition generateTextBody (config : Config.GatewayConfig)
    (params : TextGenerationParams.t) : list (string * JS.JValue) :=
  let model :=
    Config.default_to (TextGenerationParams.model params) (Config.largeModel config) in
  let messages :=
    messagesOf (TextGenerationParams.system params) (TextGenerationParams.prompt params) in
  ([("model", JS.JStr model); ("messages", JS.JArr messages)]
   ++ (if Config.modelSupportsTemperature model then
         field "temperature" (TextGenerationParams.temperature params)
         ++ field "frequency_penalty" (TextGenerationParams.frequencyPenalty params)
         ++ field "presence_penalty" (TextGenerationParams.presencePenalty params)
         ++ match TextGenerationParams.stopSequences params with
            | Some stop => [("stop", JS.JArr (map JS.JStr stop))]
            | None => []
            end
         ++ field "max_tokens" (TextGenerationParams.maxTokens params)
       else
         field "max_completion_tokens" (TextGenerationParams.maxTokens params)))%list.

(** The body [streamText] posts. *)
Definition streamTextBody (config : Config.GatewayConfig)
    (params : TextGenerationParams.t) : list (string * JS.JValue) :=
  let model :=
    Config.default_to (TextGenerationParams.model params) (Config.largeModel config) in
  let messages :=
    messagesOf (TextGenerationParams.system params) (TextGenerationParams.prompt params) in
  ([("model", JS.JStr model); ("messages", JS.JArr messages);
    ("stream", JS.JBool true)]
   ++ (if Config.modelSupportsTemperature model then
         field "temperature" (TextGenerationParams.temperature params)
         ++ field "max_tokens" (TextGenerationParams.maxTokens params)
       else
         field "max_completion_tokens" (TextGenerationParams.maxTokens params)))%list.

(** [v.length === 0] for a truthy [v]. *)
Definition lengthIsZero (v : JS.JValue) : bool :=
  match v with
  | JS.JArr elements => match elements with [] => true | _ => false end
  | JS.JStr s => String.eqb s ""
  | JS.JObj members =>
      match JS.lookup "length" members with
      | Some (JS.JNum n) => JS.number_is_zero n
      | _ => false
      end
  | _ => false
  end.

Section Calls.

Variable fetch : Call -> Fetched.

(** [JSON.parse], for [generateObject]. *)
Variable JSON_parse : string -> option JS.JValue.

(** [`${v}`] for a value that is not a string.  The conversion of an object
    can raise a TypeError: [inr] holds its message. *)
Variable toText : JS.JValue -> string + string.

(** The message of the TypeError raised when the property [name] is read
    from [undefined] or [null], or is called and is not a function. *)
Variable typeErrorMessage : string -> string.

(** The [catch] of [request], for what is not a GatewayError. *)
Definition caught (error : Thrown) : Exception :=
  match error with
  | AbortError => GatewayError "Request timeout" None
  | OtherError message => GatewayError ("Network error: " ++ message) None
  | NotAnError => GatewayError "Network error: Unknown error" None
  end.

(** [GatewayClient.request] *)
Definition request (config : Config.GatewayConfig) (endpoint method : string)
    (body : JS.JValue) : Completion JS.JValue :=
  match fetch {| call_url := Client.url config endpoint;
                 call_method := method;
                 call_headers :=
                   [("Authorization", "Bearer " ++ Config.apiKey config);
                    ("Content-Type", "application/json")];
                 call_body := body |} with
  | Rejected error => Throws (caught error)
  | Responded response =>
      if negb (ok response) then
        let message : string + string :=
          match json response with
          | inl errorData =>
              match JS.chain (JS.chain (Some errorData) (JS.member "error"))
                      (JS.member "message") with
              | Some found =>
                  if JS.truthy found then
                    match found with
                    | JS.JStr s => inl s
                    | other => toText other
                    end
                  else inl (statusText response)
              | None => inl (statusText response)
              end
          | inr _ => inl (statusText response)
          end in
        match message with
        | inl text =>
            Throws (GatewayError
                      ("Gateway API error (" ++ decimal (status response) ++ "): " ++ text)
                      (Some (status response)))
        | inr raised => Throws (caught (OtherError raised))
        end
      else
        match json response with
        | inl data => Returns data
        | inr error => Throws (caught error)
        end
  end.

(** [o.name], which raises a TypeError when [o] is [undefined] or [null]. *)
Definition get {A : Type} (name : string) (o : option JS.JValue)
    (k : option JS.JValue -> Completion A) : Completion A :=
  match o with
  | None | Some JS.JNull => Throws (Error (typeErrorMessage name))
  | Some v => k (JS.member name v)
  end.

(** The content of the first choice, as [generateText] and [describeImage]
    read it, each with its own two messages. *)
Definition firstContent (noChoices emptyContent : string) (response : JS.JValue)
    : Completion (option JS.JValue) :=
  get "choices" (Some response) (fun choices =>
    match choices with
    | None => Throws (GatewayError noChoices None)
    | Some list =>
        if negb (JS.truthy list) || lengthIsZero list
        then Throws (GatewayError noChoices None)
        else
          get "message" (JS.index0 list) (fun message =>
            get "content" message (fun content =>
              match content with
              | Some JS.JNull => Throws (GatewayError emptyContent None)
              | _ => Returns content
              end))
    end).

(** [GatewayClient.generateText]; the value is [undefined] when the message
    has no content at all. *)
Definition generateText (config : Config.GatewayConfig)
    (params : TextGenerationParams.t) : Completion (option JS.JValue) :=
  match request config "/chat/completions" "POST"
          (JS.JObj (generateTextBody config params)) with
  | Throws e => Throws e
  | Returns response =>
      firstContent "API returned no choices" "API returned empty content" response
  end.

(** [GatewayClient.createEmbedding] *)
Definition createEmbedding (config : Config.GatewayConfig)
    (params : EmbeddingParams.t) : Completion (option JS.JValue) :=
  let model :=
    Config.default_to (EmbeddingParams.model params) (Config.embeddingModel config) in
  let dimensions :=
    JS.or_number (EmbeddingParams.dimensions params) (Config.embeddingDimensions config) in
  let body :=
    ([("model", JS.JStr model); ("input", JS.JStr (EmbeddingParams.text params))]
     ++ (if JS.truthy_number dimensions then [("dimensions", JS.JNum dimensions)]
         else []))%list in
  match request config "/embeddings" "POST" (JS.JObj body) with
  | Throws e => Throws e
  | Returns response =>
      get "data" (Some response) (fun data =>
        match data with
        | None => Throws (GatewayError "API returned empty embedding data" None)
        | Some list =>
            if negb (JS.truthy list) || lengthIsZero list
            then Throws (GatewayError "API returned empty embedding data" None)
            else get "embedding" (JS.index0 list) (fun embedding => Returns embedding)
        end)
  end.

(** [response.data.map(item => ...)], element by element. *)
Fixpoint mapItems (items : list JS.JValue) : Completion (list ImageGenerationResult) :=
  match items with
  | [] => Returns []
  | item :: rest =>
      get "url" (Some item) (fun url =>
        get "revised_prompt" (Some item) (fun revised =>
          match mapItems rest with
          | Throws e => Throws e
          | Returns results =>
              Returns ({| url := url; revisedPrompt := revised |} :: results)
          end))
  end.

(** [GatewayClient.generateImage] *)
Definition generateImage (config : Config.GatewayConfig)
    (params : ImageGenerationParams.t) : Completion (list ImageGenerationResult) :=
  let model :=
    Config.default_to (ImageGenerationParams.model params) (Config.imageModel config) in
  let body :=
    ([("model", JS.JStr model);
      ("prompt", JS.JStr (ImageGenerationParams.prompt params))]
     ++ field "n" (ImageGenerationParams.n params)
     ++ fieldText "size" (ImageGenerationParams.size params)
     ++ fieldText "quality" (ImageGenerationParams.quality params)
     ++ fieldText "style" (ImageGenerationParams.style params))%list in
  match request config "/images/generations" "POST" (JS.JObj body) with
  | Throws e => Throws e
  | Returns response =>
      get "data" (Some response) (fun data =>
        match data with
        | Some (JS.JArr items) => mapItems items
        | _ => Throws (Error (typeErrorMessage "map"))
        end)
  end.

(** The body [describeImage] posts. *)
Definition describeImageBody (params : ImageDescriptionParams.t)
    : list (string * JS.JValue) :=
  let model := Config.default_to (ImageDescriptionParams.model params) "gpt-5-mini" in
  let prompt :=
    Config.default_to (ImageDescriptionParams.prompt params)
      "Please analyze this image and provide a title and detailed description." in
  let maxTokens := JS.or_number (ImageDescriptionParams.maxTokens params) (JS.int 8192) in
  [("model", JS.JStr model);
   ("messages",
    JS.JArr
      [JS.JObj
         [("role", JS.JStr "user");
          ("content",
           JS.JArr
             [JS.JObj [("type", JS.JStr "text"); ("text", JS.JStr prompt)];
              JS.JObj
                [("type", JS.JStr "image_url");
                 ("image_url",
                  JS.JObj [("url", JS.JStr (ImageDescriptionParams.imageUrl params))])]])]]);
   ("max_tokens", JS.JNum maxTokens)].

(** The title and the description read from a content that is a string. *)
Definition titled (content : string) : ImageDescriptionResult :=
  match TitlePattern.exec content with
  | Some (before, group, after) =>
      {| title := JS.trim group;
         description := Some (JS.JStr (JS.trim (before ++ after))) |}
  | None =>
      {| title := "Image Analysis"; description := Some (JS.JStr content) |}
  end.

(** [GatewayClient.describeImage].  [exec] converts a content that is not a
    string to one; should the pattern match that text, [content.replace] is
    then not a function. *)
Definition describeImage (config : Config.GatewayConfig)
    (params : ImageDescriptionParams.t) : Completion ImageDescriptionResult :=
  match request config "/chat/completions" "POST"
          (JS.JObj (describeImageBody params)) with
  | Throws e => Throws e
  | Returns response =>
      match firstContent "API returned no choices for image description"
              "API returned empty image description" response with
      | Throws e => Throws e
      | Returns (Some (JS.JStr content)) => Returns (titled content)
      | Returns None =>
          Returns {| title := "Image Analysis"; description := None |}
      | Returns (Some other) =>
          match toText other with
          | inr raised => Throws (Error raised)
          | inl text =>
              match TitlePattern.exec text with
              | Some _ => Throws (Error (typeErrorMessage "replace"))
              | None =>
                  Returns {| title := "Image Analysis"; description := Some other |}
              end
          end
      end
  end.

(** [GatewayClient.generateObject]: the call of [generateText], then
    [Client.generateObject] on the text it gave.  A content that is not a
    string has no [trim]. *)
Definition generateObject (config : Config.GatewayConfig) (params : ObjectParams.t)
    : Completion JS.JValue :=
  let model :=
    Config.default_to (ObjectParams.model params) (Config.smallModel config) in
  let prompt := "Respond with only valid JSON. " ++ ObjectParams.prompt params in
  match generateText config
          {| TextGenerationParams.prompt := prompt;
             TextGenerationParams.system := None;
             TextGenerationParams.model := Some model;
             TextGenerationParams.temperature := ObjectParams.temperature params;
             TextGenerationParams.maxTokens := None;
             TextGenerationParams.frequencyPenalty := None;
             TextGenerationParams.presencePenalty := None;
             TextGenerationParams.stopSequences := None |} with
  | Throws e => Throws e
  | Returns (Some (JS.JStr response)) =>
      Client.generateObject JSON_parse (Returns response)
  | Returns _ => Throws (Error (typeErrorMessage "trim"))
  end.

End Calls.

End GatewayClient.

(** ** typescript/models: the handlers the plugin registers *)

Module Models.

(** [GenerateTextParams] of @elizaos/core, as the handlers read it;
    [onStreamChunk] tells whether a callback was given. *)
Record GenerateTextParams := {
  prompt : string;
  maxTokens : option JS.number;
  temperature : option JS.number;
  frequencyPenalty : option JS.number;
  presencePenalty : option JS.number;
  stopSequences : option (list string);
  stream : bool;
  onStreamChunk : bool
}.

(** The call a text handler ends in, on a client built from [config]. *)
Inductive TextCall :=
  | StreamText (config : Config.GatewayConfig)
      (params : GatewayClient.TextGenerationParams.t)
  | GenerateText (config : Config.GatewayConfig)
      (params : GatewayClient.TextGenerationParams.t).

(** [handleTextSmall] and [handleTextLarge], which differ in the model they
    read; [system] is [runtime.character?.system]. *)
Definition handleText (getModel : option IAgentRuntime -> option ProcessEnv -> string)
    (runtime : IAgentRuntime) (process : option ProcessEnv) (system : option string)
    (params : GenerateTextParams) : Completion TextCall :=
  match Config.buildConfig (Some runtime) process with
  | Throws e => Throws e
  | Returns config =>
      let model := getModel (Some runtime) process in
      if stream params && onStreamChunk params then
        Returns
          (StreamText config
             {| GatewayClient.TextGenerationParams.prompt := prompt params;
                GatewayClient.TextGenerationParams.system := system;
                GatewayClient.TextGenerationParams.model := Some model;
                GatewayClient.TextGenerationParams.temperature := temperature params;
                GatewayClient.TextGenerationParams.maxTokens := maxTokens params;
                GatewayClient.TextGenerationParams.frequencyPenalty := None;
                GatewayClient.TextGenerationParams.presencePenalty := None;
                GatewayClient.TextGenerationParams.stopSequences :=
                  stopSequences params |})
      else
        Returns
          (GenerateText config
             {| GatewayClient.TextGenerationParams.prompt := prompt params;
                GatewayClient.TextGenerationParams.system := system;
                GatewayClient.TextGenerationParams.model := Some model;
                GatewayClient.TextGenerationParams.temperature := temperature params;
                GatewayClient.TextGenerationParams.maxTokens := maxTokens params;
                GatewayClient.TextGenerationParams.frequencyPenalty :=
                  frequencyPenalty params;
                GatewayClient.TextGenerationParams.presencePenalty :=
                  presencePenalty params;
                GatewayClient.TextGenerationParams.stopSequences :=
                  stopSequences params |})
  end.

Definition handleTextSmall := handleText Config.getSmallModel.

Definition handleTextLarge := handleText Config.getLargeModel.

(** The body of the request a text call posts. *)
Definition bodyOf (call : TextCall) : list (string * JS.JValue) :=
  match call with
  | StreamText config params => GatewayClient.streamTextBody config params
  | GenerateText config params => GatewayClient.generateTextBody config params
  end.

Inductive ImageDescriptionInput :=
  | url_of_string (imageUrl : string)
  | url_of_params (imageUrl : string) (prompt : option string).

Section Handlers.

Variable fetch : GatewayClient.Call -> GatewayClient.Fetched.
Variable JSON_parse : string -> option JS.JValue.
Variable toText : JS.JValue -> string + string.
Variable typeErrorMessage : string -> string.
Variable MAX_EMBEDDING_TOKENS : nat.

(** [handleObjectSmall] and [handleObjectLarge] *)
Definition handleObject (getModel : option IAgentRuntime -> option ProcessEnv -> string)
    (runtime : IAgentRuntime) (process : option ProcessEnv)
    (prompt : string) (temperature : option JS.number) : Completion JS.JValue :=
  match Config.buildConfig (Some runtime) process with
  | Throws e => Throws e
  | Returns config =>
      let model := getModel (Some runtime) process in
      GatewayClient.generateObject fetch JSON_parse toText typeErrorMessage config
        {| GatewayClient.ObjectParams.prompt := prompt;
           GatewayClient.ObjectParams.model := Some model;
           GatewayClient.ObjectParams.temperature := temperature |}
  end.

Definition handleObjectSmall := handleObject Config.getSmallModel.

Definition handleObjectLarge := handleObject Config.getLargeModel.

(** models/embedding.ts, with the call it ends in. *)
Definition handleTextEmbedding (runtime : IAgentRuntime) (process : option ProcessEnv)
    (params : Embedding.TextEmbeddingInput) : Completion (option JS.JValue) :=
  match Config.buildConfig (Some runtime) process with
  | Throws e => Throws e
  | Returns config =>
      match Embedding.handleTextEmbedding MAX_EMBEDDING_TOKENS runtime process params with
      | Throws e => Throws e
      | Returns arguments =>
          GatewayClient.createEmbedding fetch toText typeErrorMessage config
            {| GatewayClient.EmbeddingParams.text := Embedding.text arguments;
               GatewayClient.EmbeddingParams.model := Some (Embedding.model arguments);
               GatewayClient.EmbeddingParams.dimensions :=
                 Some (Embedding.dimensions arguments) |}
      end
  end.

(** [handleImageGeneration]; [count], [size], [quality] and [style] are the
    optional fields of its parameter. *)
Definition handleImageGeneration (runtime : IAgentRuntime) (process : option ProcessEnv)
    (prompt : string) (count : option JS.number) (size quality style : option string)
    : Completion (list GatewayClient.ImageGenerationResult) :=
  match Config.buildConfig (Some runtime) process with
  | Throws e => Throws e
  | Returns config =>
      let model := Config.getImageModel (Some runtime) process in
      GatewayClient.generateImage fetch toText typeErrorMessage config
        {| GatewayClient.ImageGenerationParams.prompt := prompt;
           GatewayClient.ImageGenerationParams.model := Some model;
           GatewayClient.ImageGenerationParams.n := count;
           GatewayClient.ImageGenerationParams.size := size;
           GatewayClient.ImageGenerationParams.quality := quality;
           GatewayClient.ImageGenerationParams.style := style |}
  end.

(** [handleImageDescription] *)
Definition handleImageDescription (runtime : IAgentRuntime) (process : option ProcessEnv)
    (params : ImageDescriptionInput) : Completion GatewayClient.ImageDescriptionResult :=
  match Config.buildConfig (Some runtime) process with
  | Throws e => Throws e
  | Returns config =>
      let '(imageUrl, prompt) :=
        match params with
        | url_of_string s => (s, None)
        | url_of_params u p => (u, p)
        end in
      GatewayClient.describeImage fetch toText typeErrorMessage config
        {| GatewayClient.ImageDescriptionParams.imageUrl := imageUrl;
           GatewayClient.ImageDescriptionParams.prompt := prompt;
           GatewayClient.ImageDescriptionParams.model := None;
           GatewayClient.ImageDescriptionParams.maxTokens := None |}
  end.

End Handlers.

End Models.

(** ** The multi-provider gateway plugin: provider resolution *)

Module Gateway.

(** [ModelProviderName] is a union of string literals. *)
Definition ModelProviderName := string.

Section Resolution.

(** [ENV_KEYS] of ./types, which maps each provider name to the name of the
    setting that holds its key; the pairs are in the order of the object
    literal, which is the order of [Object.keys]. *)
Variable ENV_KEYS : list (ModelProviderName * string).

Variable runtime : IAgentRuntime.
Variable process : ProcessEnv.

Fixpoint assoc (name : string) (table : list (string * string)) : option string :=
  match table with
  | [] => None
  | (k, v) :: rest => if String.eqb k name then Some v else assoc name rest
  end.

(** [ENV_KEYS[provider]].  The type admits only the keys of the table; for any
    other string JavaScript gives [undefined], which as a property name reads
    ["undefined"]. *)
Definition envKeyOf (provider : ModelProviderName) : string :=
  match assoc provider ENV_KEYS with
  | Some key => key
  | None => "undefined"
  end.

(** [runtime.getSetting(key) || process.env[key]], as a condition. *)
Definition hasCredential (key : string) : bool :=
  match JS.or_else (runtime key) (process key) with
  | Some v => JS.truthy_string v
  | None => false
  end.

(** [for (const provider of Object.keys(ENV_KEYS))] *)
Fixpoint firstWithCredential (providers : list ModelProviderName)
    : option ModelProviderName :=
  match providers with
  | [] => None
  | provider :: rest =>
      let key := envKeyOf provider in
      if hasCredential key then Some provider else firstWithCredential rest
  end.

Definition resolveProvider (preferredProvider : ModelProviderName)
    : ModelProviderName :=
  let envKey := envKeyOf preferredProvider in
  let hasKey := hasCredential envKey in
  if hasKey then preferredProvider
  else if hasCredential "AI_GATEWAY_API_KEY" then "vercel-gateway"
  else if hasCredential "OPENROUTER_API_KEY" then "openrouter"
  else
    match firstWithCredential (map fst ENV_KEYS) with
    | Some provider => provider
    | None => preferredProvider
    end.

End Resolution.


(** *** The handlers of the multi-provider plugin

    What a handler ends in is a call of one of the provider modules, which
    the plugin imports; the value of a handler here is that call. *)

(** [config.models] *)
Record Models := {
  textLarge : option string;
  textSmall : option string;
  embedding : option string;
  image : option string
}.

Record GatewayConfig := {
  defaultTextProvider : ModelProviderName;
  defaultEmbeddingProvider : ModelProviderName;
  defaultImageProvider : ModelProviderName;
  models : Models
}.

(** [Partial<GatewayConfig>], the setting GATEWAY_CONFIG: a key the object
    does not have is [None]. *)
Record PartialGatewayConfig := {
  customTextProvider : option ModelProviderName;
  customEmbeddingProvider : option ModelProviderName;
  customImageProvider : option ModelProviderName;
  customModels : option Models
}.

Definition DEFAULT_CONFIG : GatewayConfig :=
  {| defaultTextProvider := "vercel-gateway";
     defaultEmbeddingProvider := "vercel-gateway";
     defaultImageProvider := "vercel-gateway";
     models :=
       {| textLarge := Some "openai/gpt-oss-120b";
          textSmall := Some "openai/gpt-oss-120b";
          embedding := Some "openai/text-embedding-3-small";
          image := Some "google/imagen-3.0-generate-001" |} |}.

(** [{ ...DEFAULT_CONFIG, ...customConfig }]; [None] is a setting that is
    not there. *)
Definition getGatewayConfig (customConfig : option PartialGatewayConfig) : GatewayConfig :=
  match customConfig with
  | None => DEFAULT_CONFIG
  | Some custom =>
      let pick {A : Type} (given : option A) (default : A) : A :=
        match given with Some v => v | None => default end in
      {| defaultTextProvider :=
           pick (customTextProvider custom) (defaultTextProvider DEFAULT_CONFIG);
         defaultEmbeddingProvider :=
           pick (customEmbeddingProvider custom) (defaultEmbeddingProvider DEFAULT_CONFIG);
         defaultImageProvider :=
           pick (customImageProvider custom) (defaultImageProvider DEFAULT_CONFIG);
         models := pick (customModels custom) (models DEFAULT_CONFIG) |}
  end.

(** The parameters a text handler takes. *)
Record TextInput := {
  prompt : string;
  system : option string;
  maxTokens : option JS.number;
  temperature : option JS.number;
  stopSequences : option (list string)
}.

(** [textParams] *)
Record TextParams := {
  params_prompt : string;
  params_system : option string;
  params_maxTokens : JS.number;
  params_temperature : JS.number;
  params_stopSequences : option (list string)
}.

Inductive TextCall :=
  | generateTextWithVercelGateway (model : string) (params : TextParams)
  | generateTextWithOpenRouter (model : string) (params : TextParams)
  | generateTextWithVercel (provider : ModelProviderName) (slot : string)
      (params : TextParams).

Inductive EmbeddingCall :=
  | generateEmbeddingWithVercelGateway (model : string) (text : string)
  | generateEmbeddingWithOpenRouter (model : string) (text : string)
  | generateEmbeddingWithVercel (provider : ModelProviderName) (text : string).

Record ImageOptions := {
  size : option string;
  quality : option string;
  n : option JS.number
}.

Inductive ImageCall :=
  | generateImageWithVercelGateway (model prompt : string) (options : ImageOptions)
  | generateImageWithOpenRouter (model prompt : string) (options : ImageOptions).

Section Handlers.

Variable ENV_KEYS : list (ModelProviderName * string).
Variable runtime : IAgentRuntime.
Variable process : ProcessEnv.

(** [runtime.getSetting("GATEWAY_CONFIG")] *)
Variable customConfig : option PartialGatewayConfig.

(** [handleTextLarge] and [handleTextSmall], which differ in the model, in
    the limit of tokens and in the slot they name. *)
Definition handleText (modelOf : Models -> option string) (fallbackModel : string)
    (limit : JS.number) (slot : string) (params : TextInput) : TextCall :=
  let config := getGatewayConfig customConfig in
  let provider := resolveProvider ENV_KEYS runtime process (defaultTextProvider config) in
  let model := Config.default_to (modelOf (models config)) fallbackModel in
  let textParams :=
    {| params_prompt := prompt params;
       params_system := system params;
       params_maxTokens := JS.or_number (maxTokens params) limit;
       params_temperature := JS.or_number (temperature params) (JS.Decimal false 7 (-1));
       params_stopSequences := stopSequences params |} in
  if String.eqb provider "vercel-gateway"
  then generateTextWithVercelGateway model textParams
  else if String.eqb provider "openrouter"
  then generateTextWithOpenRouter model textParams
  else generateTextWithVercel provider slot textParams.

Definition handleTextLarge :=
  handleText textLarge "claude-sonnet-4" (JS.int 8192) "textLarge".

Definition handleTextSmall :=
  handleText textSmall "gpt-4o-mini" (JS.int 4096) "textSmall".

(** [handleTextEmbedding]; [None] is the parameter [null]. *)
Definition handleTextEmbedding (params : option string) : EmbeddingCall :=
  let text := Config.default_to params "test" in
  let config := getGatewayConfig customConfig in
  let provider :=
    resolveProvider ENV_KEYS runtime process (defaultEmbeddingProvider config) in
  let model := Config.default_to (embedding (models config)) "text-embedding-3-small" in
  if String.eqb provider "vercel-gateway"
  then generateEmbeddingWithVercelGateway model text
  else if String.eqb provider "openrouter"
  then generateEmbeddingWithOpenRouter model text
  else generateEmbeddingWithVercel provider text.

(** [handleImage] *)
Definition handleImage (prompt : string) (options : ImageOptions) : ImageCall :=
  let config := getGatewayConfig customConfig in
  let provider := resolveProvider ENV_KEYS runtime process (defaultImageProvider config) in
  let model := Config.default_to (image (models config)) "imagen-3" in
  if String.eqb provider "vercel-gateway"
  then generateImageWithVercelGateway model prompt options
  else generateImageWithOpenRouter model prompt options.

End Handlers.

End Gateway.

(** ** The AI Gateway plugin: the embedding handler that does not throw *)

Module Resilient.

Record AIGatewayConfig := {
  apiKey : string;
  baseUrl : string;
  openaiCompatibleUrl : option string;
  accountId : option string;
  workspace : option string;
  smallModel : string;
  largeModel : string;
  embeddingModel : string;
  imageModel : string
}.

(** utils/config.ts: [runtime.getSetting(key) ?? process.env[key] ?? defaultValue] *)
Definition getSetting (runtime : IAgentRuntime) (process : ProcessEnv)
    (key : string) (defaultValue : option string) : option string :=
  JS.nullish (runtime key) (JS.nullish (process key) defaultValue).

(** [getSetting(runtime, key, d) as string] *)
Definition getSettingOr (runtime : IAgentRuntime) (process : ProcessEnv)
    (key : string) (d : string) : string :=
  match getSetting runtime process key (Some d) with
  | Some v => v
  | None => d
  end.

Definition getAIGatewayConfig (runtime : IAgentRuntime) (process : ProcessEnv)
    : Completion AIGatewayConfig :=
  let apiKey := getSetting runtime process "AI_GATEWAY_API_KEY" None in
  match apiKey with
  | None => Throws (Error "AI_GATEWAY_API_KEY is required")
  | Some key =>
      if negb (JS.truthy_string key)
      then Throws (Error "AI_GATEWAY_API_KEY is required")
      else
        Returns
          {| apiKey := key;
             baseUrl := getSettingOr runtime process "AI_GATEWAY_BASE_URL"
                          "https://gateway.ai.cloudflare.com/v1";
             openaiCompatibleUrl :=
               getSetting runtime process "AI_GATEWAY_OPENAI_COMPATIBLE_URL" None;
             accountId := getSetting runtime process "AI_GATEWAY_ACCOUNT_ID" None;
             workspace := getSetting runtime process "AI_GATEWAY_WORKSPACE" None;
             smallModel := getSettingOr runtime process "AI_GATEWAY_SMALL_MODEL"
                             "@cf/meta/llama-3.1-8b-instruct";
             largeModel := getSettingOr runtime process "AI_GATEWAY_LARGE_MODEL"
                             "@cf/meta/llama-3.1-70b-instruct";
             embeddingModel := getSettingOr runtime process "AI_GATEWAY_EMBEDDING_MODEL"
                                 "@cf/baai/bge-base-en-v1.5";
             imageModel := getSettingOr runtime process "AI_GATEWAY_IMAGE_MODEL"
                             "@cf/stabilityai/stable-diffusion-xl-base-1.0" |}
  end.

(** The call [fetch(url, { method, headers, body })]; the body is kept as the
    value handed to [JSON.stringify]. *)
Record Request := {
  request_url : string;
  method : string;
  headers : list (string * string);
  request_body : option JS.JValue
}.

(** What [fetch] does: it rejects, or gives a response whose [text()] gives
    the body or rejects in turn ([inr message]). *)
Record Response := {
  ok : bool;
  status : N;
  statusText : string;
  text : string + string
}.

Inductive Fetched :=
  | Rejected (message : string)
  | Responded (response : Response).

(** [GatewayResponse<T>] *)
Inductive GatewayResponse :=
  | Success (data : JS.JValue)
  | Failure (error : string).

(** The [MODEL_USED] event. *)
Record ModelUsed := {
  prompt : string;
  prompt_tokens : option JS.JValue;
  total_tokens : option JS.JValue
}.

(** What the handler gives back, with the events it emitted. *)
Record Embedded := {
  embedding : list JS.JValue;
  emitted : list ModelUsed
}.

(** The argument [params]: [null], a string, or an object, of which the
    handler reads the property [text] ([None] when the object has none).
    [TextEmbeddingParams] declares the text a string, which the code does not
    check: the property is kept as the value it is. *)
Inductive TextEmbeddingInput :=
  | null
  | text_of_string (s : string)
  | text_of_params (text : option JS.JValue).

Section Transport.

Variable fetch : Request -> Fetched.
Variable JSON_parse : string -> option JS.JValue.

(** The message of the TypeError raised when the property [name] is called
    and is not a function. *)
Variable typeErrorMessage : string -> string.

(** utils/client.ts: [AIGatewayClient.makeRequest] *)
Definition makeRequest (config : AIGatewayConfig) (endpoint : string)
    (method : string) (body : option JS.JValue)
    (headers : list (string * string)) (useOpenAICompatible : bool)
    : GatewayResponse :=
  let url :=
    match useOpenAICompatible, JS.or_else (openaiCompatibleUrl config) None with
    | true, Some compatible => compatible ++ endpoint
    | _, _ =>
        match JS.or_else (accountId config) None,
              JS.or_else (workspace config) None with
        | Some account, Some space =>
            baseUrl config ++ "/" ++ account ++ "/" ++ space ++ endpoint
        | _, _ => baseUrl config ++ endpoint
        end
    end in
  let requestHeaders :=
    ([("Content-Type", "application/json");
      ("Authorization", ("Bearer " ++ apiKey config)%string)] ++ headers)%list in
  match fetch {| request_url := url;
                 method := method;
                 headers := requestHeaders;
                 request_body := if JS.truthy_opt body then body else None |} with
  | Rejected message => Failure message
  | Responded response =>
      match text response with
      | inr message => Failure message
      | inl responseText =>
          if negb (ok response) then
            Failure ("Request failed: " ++ decimal (status response) ++ " "
                     ++ statusText response)
          else
            match JSON_parse responseText with
            | None => Failure "Failed to parse response"
            | Some data => Success data
            end
      end
  end.

(** [AIGatewayClient.makeOpenAIRequest] *)
Definition makeOpenAIRequest (config : AIGatewayConfig) (endpoint : string)
    (body : option JS.JValue) : GatewayResponse :=
  makeRequest config endpoint "POST" body [] true.

Definition embeddingDimension : nat := 768.

(** [Array(embeddingDimension).fill(0)] with its element 0 set to [lead]. *)
Definition filled (lead : JS.number) : list JS.JValue :=
  match repeat (JS.JNum (JS.int 0)) embeddingDimension with
  | [] => [JS.JNum lead]
  | _ :: rest => JS.JNum lead :: rest
  end.

(** The literals 0.1 to 0.5. *)
Definition tenths (k : N) : JS.number := JS.Decimal false k (-1).

(** handlers/embedding.ts.  The text of an object is taken when it is
    truthy, whatever it is; [text.trim()] then raises a TypeError on a text
    that is not a string, no other value read from JSON having a [trim]. *)
Definition handleTextEmbedding (runtime : IAgentRuntime) (process : ProcessEnv)
    (params : TextEmbeddingInput) : Completion Embedded :=
  match getAIGatewayConfig runtime process with
  | Throws e => Throws e
  | Returns config =>
      let fallback lead := Returns {| embedding := filled lead; emitted := [] |} in
      match params with
      | null => fallback (tenths 1)
      | _ =>
          let input :=
            match params with
            | text_of_string s => Some (JS.JStr s)
            | text_of_params (Some t) => if JS.truthy t then Some t else None
            | _ => None
            end in
          match input with
          | None => fallback (tenths 2)
          | Some (JS.JStr text) =>
              if negb (JS.truthy_string (JS.trim text)) then fallback (tenths 3)
              else
                let requestBody :=
                  JS.JObj [("model", JS.JStr (embeddingModel config));
                           ("input", JS.JStr text)] in
                match makeOpenAIRequest config "/embeddings" (Some requestBody) with
                | Failure _ => fallback (tenths 4)
                | Success data =>
                    if negb (JS.truthy data) then fallback (tenths 4)
                    else
                      let embedding :=
                        JS.chain (JS.chain (JS.member "data" data) JS.index0)
                          (JS.member "embedding") in
                      match embedding with
                      | Some (JS.JArr vector) =>
                          let usage := JS.member "usage" data in
                          Returns
                            {| embedding := vector;
                               emitted :=
                                 match usage with
                                 | Some u =>
                                     if JS.truthy u then
                                       [{| prompt := text;
                                           prompt_tokens := JS.member "prompt_tokens" u;
                                           total_tokens := JS.member "total_tokens" u |}]
                                     else []
                                 | None => []
                                 end |}
                      | _ => fallback (tenths 5)
                      end
                end
          | Some _ => Throws (Error (typeErrorMessage "trim"))
          end
      end
  end.

End Transport.

(** The vector of a call that returned. *)
Definition embedding_of (c : Completion Embedded) : option (list JS.JValue) :=
  match c with
  | Returns r => Some (embedding r)
  | Throws _ => None
  end.


(** *** The handlers that throw, and the other parts of the client *)

(** utils/config.ts: [validateConfig] *)
Definition validateConfig (config : AIGatewayConfig) : Completion unit :=
  if negb (JS.truthy_string (apiKey config))
  then Throws (Error "AI Gateway API key is required")
  else if negb (JS.truthy_string (baseUrl config))
  then Throws (Error "AI Gateway base URL is required")
  else Returns tt.

(** [ModelType] of @elizaos/core, the members these handlers name. *)
Inductive ModelType :=
  | TEXT_SMALL
  | TEXT_LARGE
  | OBJECT_SMALL
  | OBJECT_LARGE
  | IMAGE_DESCRIPTION.

(** The [MODEL_USED] event of the handlers for text, objects and image
    descriptions. *)
Record Usage := {
  usage_type : ModelType;
  usage_prompt : string;
  tokens_prompt : option JS.JValue;
  tokens_completion : option JS.JValue;
  tokens_total : option JS.JValue
}.

(** How a call of such a handler ends, and the events it emitted before. *)
Record Outcome (A : Type) := {
  events : list Usage;
  completion : Completion A
}.
Arguments events {A} o.
Arguments completion {A} o.

Module GenerateTextParams.
Record t := {
  prompt : string;
  temperature : option JS.number;
  max_tokens : option JS.number;
  frequencyPenalty : option JS.number;
  presencePenalty : option JS.number;
  stopSequences : option (list string)
}.
End GenerateTextParams.

(** [schema] holds the text [JSON.stringify(params.schema, null, 2)] gives
    when the parameter has a schema. *)
Module ObjectGenerationParams.
Record t := {
  prompt : string;
  schema : option string;
  temperature : option JS.number
}.
End ObjectGenerationParams.

Inductive ImageDescriptionInput :=
  | url_of_string (imageUrl : string)
  | url_of_params (imageUrl : string) (prompt : option string).

(** What the image description handler returns: the content as it came, or
    a title and a description. *)
Inductive Description :=
  | Raw (content : JS.JValue)
  | Titled (title description : string).

(** The literal 0.7. *)
Definition sevenTenths : JS.number := JS.Decimal false 7 (-1).

(** [response.data.choices?.[0]?.message?.content] *)
Definition contentOf (data : JS.JValue) : option JS.JValue :=
  JS.chain (JS.chain (JS.chain (JS.member "choices" data) JS.index0)
              (JS.member "message"))
    (JS.member "content").

(** [if (response.data.usage) runtime.emitEvent(...)] *)
Definition usageOf (type : ModelType) (prompt : string) (data : JS.JValue) : list Usage :=
  match JS.member "usage" data with
  | Some usage =>
      if JS.truthy usage then
        [{| usage_type := type;
            usage_prompt := prompt;
            tokens_prompt := JS.member "prompt_tokens" usage;
            tokens_completion := JS.member "completion_tokens" usage;
            tokens_total := JS.member "total_tokens" usage |}]
      else []
  | None => []
  end.

(** The limit of tokens of the object handlers, read from the runtime alone. *)
Definition maxTokensSetting (runtime : IAgentRuntime) (key : string) : JS.number :=
  let specific := runtime key in
  let fallback := runtime "DEFAULT_MAX_TOKENS" in
  let chosen := JS.nullish specific fallback in
  let parsed :=
    match chosen with
    | Some text => if JS.truthy_string text then JS.parseInt text else JS.NaN
    | None => JS.NaN
    end in
  if JS.isFinite parsed then parsed else JS.int 8192.

Definition defaultImagePrompt : string :=
  "Please analyze this image and provide a title and detailed description.".

Section Handlers.

Variable fetch : Request -> Fetched.
Variable JSON_parse : string -> option JS.JValue.

(** [String(v)] for a value that is not a string; [inr] holds the message of
    the TypeError the conversion of an object can raise. *)
Variable toText : JS.JValue -> string + string.

(** The message of the TypeError raised when the method [name] is called on
    a value that has none. *)
Variable typeErrorMessage : string -> string.

(** [AIGatewayClient.testConnection] *)
Definition testConnection (config : AIGatewayConfig) : bool :=
  match makeRequest fetch JSON_parse config "/models" "GET" None [] false with
  | Success _ => true
  | Failure _ => false
  end.

(** [handleTextSmall] and [handleTextLarge], which differ in the model and in
    the type of the event; [system] is [runtime.character.system]. *)
Definition handleText (modelOf : AIGatewayConfig -> string) (type : ModelType)
    (runtime : IAgentRuntime) (process : ProcessEnv) (system : option string)
    (params : GenerateTextParams.t) : Outcome JS.JValue :=
  match getAIGatewayConfig runtime process with
  | Throws e => {| events := []; completion := Throws e |}
  | Returns config =>
      let messages :=
        (match system with
         | Some s =>
             if JS.truthy_string s
             then [JS.JObj [("role", JS.JStr "system"); ("content", JS.JStr s)]]
             else []
         | None => []
         end
         ++ [JS.JObj [("role", JS.JStr "user");
                      ("content", JS.JStr (GenerateTextParams.prompt params))]])%list in
      let requestBody :=
        ([("model", JS.JStr (modelOf config));
          ("messages", JS.JArr messages);
          ("temperature",
           JS.JNum (JS.nullish_number (GenerateTextParams.temperature params) sevenTenths));
          ("max_tokens",
           JS.JNum (JS.nullish_number (GenerateTextParams.max_tokens params) (JS.int 8192)));
          ("frequency_penalty",
           JS.JNum (JS.nullish_number (GenerateTextParams.frequencyPenalty params)
                      sevenTenths));
          ("presence_penalty",
           JS.JNum (JS.nullish_number (GenerateTextParams.presencePenalty params)
                      sevenTenths))]
         ++ match GenerateTextParams.stopSequences params with
            | Some (first :: rest) => [("stop", JS.JArr (map JS.JStr (first :: rest)))]
            | _ => []
            end)%list in
      match makeOpenAIRequest fetch JSON_parse config "/chat/completions"
              (Some (JS.JObj requestBody)) with
      | Failure error =>
          {| events := [];
             completion := Throws (Error ("AI Gateway text generation failed: " ++ error)) |}
      | Success data =>
          if negb (JS.truthy data) then
            {| events := [];
               completion :=
                 Throws (Error "AI Gateway text generation failed: undefined") |}
          else
            match contentOf data with
            | None =>
                {| events := [];
                   completion := Throws (Error "No content in AI Gateway response") |}
            | Some content =>
                if negb (JS.truthy content) then
                  {| events := [];
                     completion := Throws (Error "No content in AI Gateway response") |}
                else
                  {| events := usageOf type (GenerateTextParams.prompt params) data;
                     completion := Returns content |}
            end
      end
  end.

Definition handleTextSmall := handleText smallModel TEXT_SMALL.

Definition handleTextLarge := handleText largeModel TEXT_LARGE.

(** [handleObjectSmall] and [handleObjectLarge], which differ in the model,
    in the setting that limits the tokens and in the type of the event. *)
Definition handleObject (modelOf : AIGatewayConfig -> string) (limit : string)
    (type : ModelType) (runtime : IAgentRuntime) (process : ProcessEnv)
    (params : ObjectGenerationParams.t) : Outcome JS.JValue :=
  match getAIGatewayConfig runtime process with
  | Throws e => {| events := []; completion := Throws e |}
  | Returns config =>
      let prompt :=
        ObjectGenerationParams.prompt params ++
        match ObjectGenerationParams.schema params with
        | Some text =>
            String JS.LF (String JS.LF
              "Please respond with a valid JSON object that matches this schema: ")
            ++ text
        | None =>
            String JS.LF (String JS.LF "Please respond with a valid JSON object.")
        end in
      let messages :=
        [JS.JObj
           [("role", JS.JStr "system");
            ("content",
             JS.JStr "You are a helpful assistant that always responds with valid JSON objects.")];
         JS.JObj [("role", JS.JStr "user"); ("content", JS.JStr prompt)]] in
      let requestBody :=
        [("model", JS.JStr (modelOf config));
         ("messages", JS.JArr messages);
         ("temperature",
          JS.JNum (JS.nullish_number (ObjectGenerationParams.temperature params) (JS.int 0)));
         ("max_tokens", JS.JNum (maxTokensSetting runtime limit));
         ("response_format", JS.JObj [("type", JS.JStr "json_object")])] in
      match makeOpenAIRequest fetch JSON_parse config "/chat/completions"
              (Some (JS.JObj requestBody)) with
      | Failure error =>
          {| events := [];
             completion :=
               Throws (Error ("AI Gateway object generation failed: " ++ error)) |}
      | Success data =>
          if negb (JS.truthy data) then
            {| events := [];
               completion :=
                 Throws (Error "AI Gateway object generation failed: undefined") |}
          else
            match contentOf data with
            | None =>
                {| events := [];
                   completion := Throws (Error "No content in AI Gateway response") |}
            | Some content =>
                if negb (JS.truthy content) then
                  {| events := [];
                     completion := Throws (Error "No content in AI Gateway response") |}
                else
                  let text :=
                    match content with
                    | JS.JStr s => inl s
                    | other => toText other
                    end in
                  match match text with
                        | inl s => JSON_parse s
                        | inr _ => None
                        end with
                  | None =>
                      {| events := [];
                         completion :=
                           Throws (Error "Failed to parse JSON from AI Gateway response") |}
                  | Some parsedObject =>
                      {| events :=
                           usageOf type (ObjectGenerationParams.prompt params) data;
                         completion := Returns parsedObject |}
                  end
            end
      end
  end.

Definition handleObjectSmall := handleObject smallModel "OBJECT_SMALL_MAX_TOKENS" OBJECT_SMALL.

Definition handleObjectLarge := handleObject largeModel "OBJECT_LARGE_MAX_TOKENS" OBJECT_LARGE.

(** [handleImageGeneration]; it emits no event. *)
Definition handleImageGeneration (runtime : IAgentRuntime) (process : ProcessEnv)
    (prompt : string) (n : option JS.number) (size : option string)
    : Completion (list JS.JValue) :=
  match getAIGatewayConfig runtime process with
  | Throws e => Throws e
  | Returns config =>
      let n := JS.or_number n (JS.int 1) in
      let size := Config.default_to size "1024x1024" in
      let requestBody :=
        [("model", JS.JStr (imageModel config));
         ("prompt", JS.JStr prompt);
         ("n", JS.JNum n);
         ("size", JS.JStr size)] in
      match makeOpenAIRequest fetch JSON_parse config "/images/generations"
              (Some (JS.JObj requestBody)) with
      | Failure error =>
          Throws (Error ("AI Gateway image generation failed: " ++ error))
      | Success data =>
          if negb (JS.truthy data) then
            Throws (Error "AI Gateway image generation failed: undefined")
          else
            match JS.member "data" data with
            | Some (JS.JArr images) => Returns images
            | _ => Throws (Error "Invalid image generation response format")
            end
      end
  end.

(** [handleImageDescription] *)
Definition handleImageDescription (runtime : IAgentRuntime) (process : ProcessEnv)
    (params : ImageDescriptionInput) : Outcome Description :=
  match getAIGatewayConfig runtime process with
  | Throws e => {| events := []; completion := Throws e |}
  | Returns config =>
      let '(imageUrl, promptText) :=
        match params with
        | url_of_string s => (s, defaultImagePrompt)
        | url_of_params u p => (u, Config.default_to p defaultImagePrompt)
        end in
      let modelName := largeModel config in
      let messages :=
        [JS.JObj
           [("role", JS.JStr "user");
            ("content",
             JS.JArr
               [JS.JObj [("type", JS.JStr "text"); ("text", JS.JStr promptText)];
                JS.JObj [("type", JS.JStr "image_url");
                         ("image_url", JS.JObj [("url", JS.JStr imageUrl)])]])]] in
      let requestBody :=
        [("model", JS.JStr modelName);
         ("messages", JS.JArr messages);
         ("max_tokens", JS.JNum (JS.int 8192))] in
      let failed description :=
        {| events := [];
           completion := Returns (Titled "Failed to analyze image" description) |} in
      match makeOpenAIRequest fetch JSON_parse config "/chat/completions"
              (Some (JS.JObj requestBody)) with
      | Failure error => failed (Config.default_to (Some error) "Unknown error")
      | Success data =>
          if negb (JS.truthy data) then failed "Unknown error"
          else
            match contentOf data with
            | None => failed "No response from API"
            | Some content =>
                if negb (JS.truthy content) then failed "No response from API"
                else
                  let emitted :=
                    usageOf IMAGE_DESCRIPTION
                      match params with
                      | url_of_string s => s
                      | url_of_params _ p => Config.default_to p ""
                      end
                      data in
                  let isCustomPrompt :=
                    match params with
                    | url_of_string _ => false
                    | url_of_params _ None => false
                    | url_of_params _ (Some p) =>
                        JS.truthy_string p && negb (String.eqb p defaultImagePrompt)
                    end in
                  if isCustomPrompt then
                    {| events := emitted; completion := Returns (Raw content) |}
                  else
                    match content with
                    | JS.JStr text =>
                        let titleMatch := TitlePattern.exec text in
                        let title :=
                          match titleMatch with
                          | Some (_, group, _) =>
                              Config.default_to (Some (JS.trim group)) "Image Analysis"
                          | None => "Image Analysis"
                          end in
                        let description :=
                          match titleMatch with
                          | Some (before, _, after) => JS.trim (before ++ after)
                          | None => JS.trim text
                          end in
                        {| events := emitted;
                           completion := Returns (Titled title description) |}
                    | _ =>
                        {| events := emitted;
                           completion := Throws (Error (typeErrorMessage "match")) |}
                    end
            end
      end
  end.

End Handlers.

End Resilient.

(** ** providers/gatewayProvider.ts: the provider that caches the list of models *)

Module Provider.

(** A call of utils/http, which the sources import: [httpGet(url, headers)]
    or [httpPost(url, body, headers)]. *)
Inductive HttpRequest :=
  | GET (url : string) (headers : list (string * string))
  | POST (url : string) (body : JS.JValue) (headers : list (string * string)).

(** The fields of a [GatewayProvider] set by its constructor. *)
Record GatewayProvider := {
  baseURL : string;
  headers : list (string * string)
}.

(** What changes as the provider is used: its field [modelsCache], [None]
    being [null], and the requests made so far, the latest last. *)
Record State := {
  modelsCache : option JS.JValue;
  sent : list HttpRequest
}.

Section Http.

(** What utils/http gives for a request, given the requests made before it:
    the JSON of the response, or an exception. *)
Variable http : list HttpRequest -> HttpRequest -> Completion JS.JValue.

(** The message of the TypeError raised when the property [name] is read
    from [null]. *)
Variable typeErrorMessage : string -> string.

Definition call (request : HttpRequest) (st : State) : Completion JS.JValue * State :=
  (http (sent st) request,
   {| modelsCache := modelsCache st; sent := (sent st ++ [request])%list |}).

(** [GatewayProvider.listModels] *)
Definition listModels (this : GatewayProvider) (force : bool) (st : State)
    : Completion JS.JValue * State :=
  let cached :=
    match modelsCache st with
    | Some cache => if JS.truthy cache && negb force then Some cache else None
    | None => None
    end in
  match cached with
  | Some cache => (Returns cache, st)
  | None =>
      let url := baseURL this ++ "/models" in
      let '(res, st1) := call (GET url (headers this)) st in
      match res with
      | Throws e => (Throws e, st1)
      | Returns JS.JNull => (Throws (Error (typeErrorMessage "data")), st1)
      | Returns res =>
          let data :=
            match JS.member "data" res with
            | Some found => if JS.truthy found then found else JS.JArr []
            | None => JS.JArr []
            end in
          (Returns data, {| modelsCache := Some data; sent := sent st1 |})
      end
  end.

(** [GatewayProvider.chat]: the models are listed first when the parameters
    name a model, only to warn about a model that is not listed; whatever is
    thrown on the way is caught. *)
Definition chat (this : GatewayProvider) (params : list (string * JS.JValue)) (st : State)
    : Completion JS.JValue * State :=
  let st1 :=
    if JS.truthy_opt (JS.lookup "model" params)
    then snd (listModels this false st)
    else st in
  let url := baseURL this ++ "/chat/completions" in
  call (POST url (JS.JObj params) (headers this)) st1.

End Http.

End Provider.

(** ** src/index.ts: the plugin built on the AI SDK *)

Module AISdk.

(** [runtime.getSetting(key) || process.env[key]] *)
Definition setting (runtime : IAgentRuntime) (process : ProcessEnv) (key : string)
    : option string :=
  JS.or_else (runtime key) (process key).

(** [s] without its first [n] code units. *)
Fixpoint skip (n : nat) (s : string) : string :=
  match n, s with
  | S m, String _ s' => skip m s'
  | _, _ => s
  end.

(** [s.replace(pattern, "")] for a pattern that is a string: the first
    occurrence of the pattern is taken out. *)
Fixpoint removeFirst (pattern s : string) : string :=
  if JS.startsWith s pattern then skip (String.length pattern) s
  else match s with
       | EmptyString => EmptyString
       | String c s' => String c (removeFirst pattern s')
       end.

(** [/^(\d+)x(\d+)$/.test(s)]: a run of digits, the letter x, a run of
    digits, and nothing else. *)
Definition sizePattern (s : string) : bool :=
  let '(width, rest) := JS.spanDigits s in
  negb (String.eqb width "") &&
  match rest with
  | String "x" rest' =>
      let '(height, tail) := JS.spanDigits rest' in
      negb (String.eqb height "") && String.eqb tail ""
  | _ => false
  end.

(** What [createGateway({ apiKey })(id)] and [createOpenAI({ apiKey })...(id)]
    are given. *)
Inductive ModelInstance :=
  | gatewayProvider (apiKey modelId : string)
  | openaiProvider (apiKey modelId : string).

(** The model instance of a handler: the gateway when its key is there,
    otherwise OpenAI, with the model named without [openai/]. *)
Definition instanceOf (runtime : IAgentRuntime) (process : ProcessEnv)
    (modelKey fallback : string) : Completion ModelInstance :=
  let apiKey := setting runtime process "AI_GATEWAY_API_KEY" in
  let openaiKey := setting runtime process "OPENAI_API_KEY" in
  let model := Config.default_to (setting runtime process modelKey) fallback in
  match JS.or_else apiKey None with
  | Some key => Returns (gatewayProvider key model)
  | None =>
      match JS.or_else openaiKey None with
      | Some key => Returns (openaiProvider key (removeFirst "openai/" model))
      | None => Throws (Error "AI_GATEWAY_API_KEY or OPENAI_API_KEY is required")
      end
  end.

(** The argument of [generateText] of the AI SDK. *)
Record TextRequest := {
  text_model : ModelInstance;
  text_prompt : string;
  text_temperature : JS.number
}.

(** The argument of [embed]. *)
Record EmbedRequest := {
  embed_model : ModelInstance;
  embed_value : string
}.

(** The argument of [generateImage]. *)
Record ImageRequest := {
  image_model : ModelInstance;
  image_prompt : string;
  image_n : JS.number;
  image_size : string
}.

Inductive TextEmbeddingInput :=
  | null
  | text_of_string (s : string)
  | text_of_params (text : option string).

(** [messages.map(m => `${m.role}: ${m.content}`).join('\n')] *)
Definition promptOf (system : option string) (prompt : string) : string :=
  match system with
  | Some s =>
      if JS.truthy_string s
      then "system: " ++ s ++ String JS.LF ("user: " ++ prompt)
      else "user: " ++ prompt
  | None => "user: " ++ prompt
  end.

(** The TEXT_SMALL and TEXT_LARGE handlers up to the call of [generateText];
    [system] is [runtime.character.system]. *)
Definition handleText (modelKey fallback : string)
    (runtime : IAgentRuntime) (process : ProcessEnv) (system : option string)
    (prompt : string) (temperature : option JS.number) : Completion TextRequest :=
  match instanceOf runtime process modelKey fallback with
  | Throws e => Throws e
  | Returns model =>
      Returns {| text_model := model;
                 text_prompt := promptOf system prompt;
                 text_temperature :=
                   JS.nullish_number temperature (JS.Decimal false 7 (-1)) |}
  end.

Definition handleTextSmall := handleText "AI_GATEWAY_SMALL_MODEL" "openai/gpt-4o-mini".

Definition handleTextLarge := handleText "AI_GATEWAY_LARGE_MODEL" "openai/gpt-4o".

(** The TEXT_EMBEDDING handler up to the call of [embed]. *)
Definition handleTextEmbedding (runtime : IAgentRuntime) (process : ProcessEnv)
    (params : TextEmbeddingInput) : Completion EmbedRequest :=
  let text :=
    match params with
    | null => EmptyString
    | text_of_string s => s
    | text_of_params t => Config.default_to t EmptyString
    end in
  if negb (JS.truthy_string text) then Throws (Error "Text is required for embeddings")
  else
    match instanceOf runtime process "AI_GATEWAY_EMBEDDING_MODEL"
            "openai/text-embedding-3-small" with
    | Throws e => Throws e
    | Returns model => Returns {| embed_model := model; embed_value := text |}
    end.

(** The IMAGE handler up to the call of [generateImage]. *)
Definition handleImage (runtime : IAgentRuntime) (process : ProcessEnv)
    (prompt : string) (n : option JS.number) (size : option string)
    : Completion ImageRequest :=
  match instanceOf runtime process "AI_GATEWAY_IMAGE_MODEL" "openai/dall-e-3" with
  | Throws e => Throws e
  | Returns model =>
      let sizeStr := match size with Some given => given | None => "1024x1024" end in
      if negb (sizePattern sizeStr) then
        Throws (Error ("Invalid size format: " ++ sizeStr
                       ++ ". Expected format: WIDTHxHEIGHT"))
      else
        Returns {| image_model := model;
                   image_prompt := prompt;
                   image_n := JS.nullish_number n (JS.int 1);
                   image_size := sizeStr |}
  end.

End AISdk.

(** ** Notions used to state the properties *)

(** The complete lines of a text and its unterminated remainder: what
    [text.split("\n")] gives, and what [pop] then takes off its end. *)
Fixpoint cut (text : string) : list string * string :=
  match text with
  | EmptyString => ([], EmptyString)
  | String c text' =>
      let '(lines, remainder) := cut text' in
      if Ascii.eqb c JS.LF then (EmptyString :: lines, remainder)
      else match lines with
           | [] => ([], String c remainder)
           | line :: lines' => (String c line :: lines', remainder)
           end
  end.

(** A text made of a single line feed. *)
Definition newline : string := String JS.LF EmptyString.

(** The text a decoder gives for all the bytes of a stream. *)
Definition decoded (d : Client.TextDecoder) (reads : list (list byte)) : string :=
  snd (Client.decode d (Client.fresh d) (concat reads)).

(** [```tag], a line feed, the text, a line feed, [```]. *)
Definition fenced (tag text : string) : string :=
  "```" ++ tag ++ newline ++ text ++ newline ++ "```".

(** Replaces each apostrophe by a double quote, to write JSON samples. *)
Definition json (s : string) : string :=
  string_of_list_ascii
    (map (fun c => if Ascii.eqb c "'" then JS.DQUOTE else c)
       (list_ascii_of_string s)).

(** The bytes of a 7-bit text. *)
Definition bytes (s : string) : list byte := list_byte_of_string s.

(** A stream event whose chunk carries [content], with its line feed. *)
Definition event (content : string) : string :=
  json ("data: {'choices':[{'delta':{'content':'" ++ content ++ "'}}]}") ++ newline.

(** A configuration with the given base URL. *)
Definition configured (base : string) : Config.GatewayConfig :=
  {| Config.apiKey := "key";
     Config.baseUrl := base;
     Config.smallModel := Config.DEFAULT_CONFIG.smallModel;
     Config.largeModel := Config.DEFAULT_CONFIG.largeModel;
     Config.embeddingModel := Config.DEFAULT_CONFIG.embeddingModel;
     Config.embeddingDimensions := Config.DEFAULT_CONFIG.embeddingDimensions;
     Config.imageModel := Config.DEFAULT_CONFIG.imageModel;
     Config.timeoutMs := Config.DEFAULT_CONFIG.timeoutMs |}.

(** No decimal digit stands at the head of the text. *)
Definition noDigitAhead (s : string) : Prop :=
  match s with
  | EmptyString => True
  | String c _ => JS.isDigit c = false
  end.

(** The text consists of white space. *)
Definition allWhiteSpace (s : string) : Prop := JS.trimStart s = "".

(** The text of [n] copies of [c]. *)
Fixpoint copies (n : nat) (c : ascii) : string :=
  match n with
  | O => EmptyString
  | S m => String c (copies m c)
  end.

(** Settings in which exactly the listed keys are present. *)
Fixpoint settings (table : list (string * string)) (key : string) : option string :=
  match table with
  | [] => None
  | (k, v) :: rest => if String.eqb k key then Some v else settings rest key
  end.

(** The first of the values that is present and not empty. *)
Fixpoint firstNonEmpty (values : list (option string)) : option string :=
  match values with
  | [] => None
  | Some v :: rest => if JS.truthy_string v then Some v else firstNonEmpty rest
  | None :: rest => firstNonEmpty rest
  end.

(** What the runtime, if there is one, holds for a key. *)
Definition runtimeValue (runtime : option IAgentRuntime) (key : string) : option string :=
  match runtime with
  | Some rt => rt key
  | None => None
  end.

(** The places a setting is looked for: the runtime, then the environment. *)
Definition places (runtime : option IAgentRuntime) (process : option ProcessEnv)
    (key : string) : list (option string) :=
  [runtimeValue runtime key; Config.getEnvValue process key].

(** The complete lines of a text. *)
Definition linesOf (text : string) : list string :=
  fst (Client.pop (JS.split text JS.LF)).

(** An input for which the degrading embedding handler has nothing to send:
    the probe, an object without a text or with a text that is not a string,
    a text that is blank. *)
Definition nothingToEmbed (params : Resilient.TextEmbeddingInput) : Prop :=
  match params with
  | Resilient.null => True
  | Resilient.text_of_string s => JS.trim s = ""
  | Resilient.text_of_params None => True
  | Resilient.text_of_params (Some (JS.JStr t)) => JS.trim t = ""
  | Resilient.text_of_params (Some _) => True
  end.

(** Every character of the text passes the test. *)
Fixpoint allOf (test : ascii -> bool) (s : string) : bool :=
  match s with
  | EmptyString => true
  | String c s' => test c && allOf test s'
  end.

(** A server that gives the same answer to every call: the status 200 and
    the JSON [data]. *)
Definition answering (data : JS.JValue) (call : GatewayClient.Call)
    : GatewayClient.Fetched :=
  GatewayClient.Responded
    {| GatewayClient.ok := true; GatewayClient.status := 200;
       GatewayClient.statusText := "OK"; GatewayClient.json := inl data |}.

(** The value of a JSON sample written with apostrophes. *)
Definition parsed (sample : string) : JS.JValue :=
  match JS.JSON_parse (json sample) with
  | Some v => v
  | None => JS.JNull
  end.

(** The request [AIGatewayClient.makeRequest] makes, with its URL by cases:
    the OpenAI-compatible URL when it is asked for, set and not empty;
    otherwise the base URL, followed by the account and the workspace when
    both are set and not empty. *)
Definition requestOf (config : Resilient.AIGatewayConfig) (endpoint method : string)
    (body : option JS.JValue) (headers : list (string * string)) (compatible : bool)
    : Resilient.Request :=
  {| Resilient.request_url :=
       match (if compatible then firstNonEmpty [Resilient.openaiCompatibleUrl config]
              else None) with
       | Some url => url ++ endpoint
       | None =>
           match firstNonEmpty [Resilient.accountId config],
                 firstNonEmpty [Resilient.workspace config] with
           | Some account, Some space =>
               Resilient.baseUrl config ++ "/" ++ account ++ "/" ++ space ++ endpoint
           | _, _ => Resilient.baseUrl config ++ endpoint
           end
       end;
     Resilient.method := method;
     Resilient.headers :=
       ([("Content-Type", "application/json");
         ("Authorization", ("Bearer " ++ Resilient.apiKey config)%string)] ++ headers)%list;
     Resilient.request_body := if JS.truthy_opt body then body else None |}.

(** A response with the status 200 and the given body. *)
Definition replying (body : string) : Resilient.Fetched :=
  Resilient.Responded
    {| Resilient.ok := true; Resilient.status := 200; Resilient.statusText := "OK";
       Resilient.text := inl body |}.

(** The parameters and the model a text call of the multi-provider plugin
    passes on. *)
Definition textParamsOf (call : Gateway.TextCall) : Gateway.TextParams :=
  match call with
  | Gateway.generateTextWithVercelGateway _ params => params
  | Gateway.generateTextWithOpenRouter _ params => params
  | Gateway.generateTextWithVercel _ _ params => params
  end.




(** Some credential can be found when a provider is resolved: the gateway
    key, the OpenRouter key, or the key of a provider listed in [ENV_KEYS]. *)
Definition credentialFound (ENV_KEYS : list (Gateway.ModelProviderName * string))
    (runtime : IAgentRuntime) (process : ProcessEnv) : bool :=
  Gateway.hasCredential runtime process "AI_GATEWAY_API_KEY"
  || Gateway.hasCredential runtime process "OPENROUTER_API_KEY"
  || existsb (fun provider =>
                Gateway.hasCredential runtime process
                  (Gateway.envKeyOf ENV_KEYS provider))
             (map fst ENV_KEYS).

(** * Properties *)

(** ** Strings *)

Section StringFacts.

Lemma append_nil_r (s : string) : s ++ "" = s.
Proof. induction s as [|c s IH]; simpl; [reflexivity | now rewrite IH]. Qed.

Lemma append_assoc (a b c : string) : (a ++ b) ++ c = a ++ (b ++ c).
Proof. induction a as [|x a IH]; simpl; [reflexivity | now rewrite IH]. Qed.

Lemma length_append (a b : string) :
  String.length (a ++ b) = String.length a + String.length b.
Proof. induction a as [|x a IH]; simpl; [reflexivity | now rewrite IH]. Qed.

Lemma startsWith_append (p s : string) : JS.startsWith (p ++ s) p = true.
Proof.
  induction p as [|c p IH]; simpl; [reflexivity|].
  now rewrite Ascii.eqb_refl, IH.
Qed.

Lemma startsWith_iff (s p : string) :
  JS.startsWith s p = true <-> exists r, s = p ++ r.
Proof.
  revert s; induction p as [|c p IH]; intros s; simpl.
  - split; [intros _; now exists s | reflexivity].
  - destruct s as [|b s].
    + split; [discriminate | intros [r H]; discriminate].
    + rewrite andb_true_iff, Ascii.eqb_eq, IH. split.
      * intros [-> [r ->]]. now exists r.
      * intros [r H]. injection H as -> ->. split; [reflexivity | now exists r].
Qed.

Lemma includes_iff (s p : string) :
  JS.includes s p = true <-> exists l r, s = l ++ p ++ r.
Proof.
  induction s as [|c s IH]; simpl.
  - rewrite orb_false_r, startsWith_iff. split.
    + intros [r H]. now exists "", r.
    + intros [l [r H]]. destruct l; [now exists r | discriminate].
  - rewrite orb_true_iff, startsWith_iff, IH. split.
    + intros [[r H] | [l [r H]]].
      * now exists "", r.
      * exists (String c l), r. simpl. now rewrite H.
    + intros [l [r H]]. destruct l as [|x l].
      * left. now exists r.
      * right. injection H as _ H. now exists l, r.
Qed.

Lemma endsWith_iff (s p : string) :
  JS.endsWith s p = true <-> exists l, s = l ++ p.
Proof.
  induction s as [|c s IH]; cbn [JS.endsWith].
  - rewrite orb_false_r, String.eqb_eq. split.
    + intros <-. now exists "".
    + intros [l H]. destruct l; [assumption | discriminate].
  - rewrite orb_true_iff, String.eqb_eq, IH. split.
    + intros [<- | [l ->]]; [now exists "" | now exists (String c l)].
    + intros [l H]. destruct l as [|x l].
      * left. now rewrite H.
      * right. injection H as _ H. now exists l.
Qed.

Lemma replace_final_slash_append (b : string) :
  JS.replace_final_slash (b ++ "/") = b.
Proof.
  induction b as [|c b IH]; [reflexivity|].
  simpl. rewrite IH. destruct b; reflexivity.
Qed.

Lemma replace_final_slash_none (b : string) :
  JS.endsWith b "/" = false -> JS.replace_final_slash b = b.
Proof.
  induction b as [|c b IH]; [reflexivity|].
  simpl. intros H. apply orb_false_elim in H as [H1 H2].
  destruct b as [|d b].
  - destruct (Ascii.eqb_spec c "/") as [->|]; [discriminate | reflexivity].
  - now rewrite (IH H2).
Qed.

End StringFacts.

(** ** Request URLs *)

(** C10.  [url] removes exactly one slash standing at the end of the base URL,
    and none when the base URL does not end in a slash; what is left is
    followed by the endpoint.  A base URL that ends in several slashes keeps
    all but the last.  So of two configurations of which the second has the
    base URL of the first followed by one more slash, the request URLs are the
    same, for every endpoint, exactly when the base URL of the first does not
    itself end in a slash. *)
Theorem url_trailing_slash :
  forall (c1 c2 : Config.GatewayConfig) (endpoint : string),
    Config.baseUrl c2 = Config.baseUrl c1 ++ "/" ->
    Client.url c2 endpoint = Config.baseUrl c1 ++ endpoint /\
    (JS.endsWith (Config.baseUrl c1) "/" = false ->
       Client.url c1 endpoint = Config.baseUrl c1 ++ endpoint /\
       Client.url c1 endpoint = Client.url c2 endpoint) /\
    (JS.endsWith (Config.baseUrl c1) "/" = true ->
       exists b, Config.baseUrl c1 = b ++ "/" /\
         Client.url c1 endpoint = b ++ endpoint /\
         Client.url c2 endpoint = b ++ "/" ++ endpoint /\
         Client.url c1 endpoint <> Client.url c2 endpoint).
Proof.
  intros c1 c2 endpoint H2. unfold Client.url.
  rewrite H2, replace_final_slash_append.
  split; [reflexivity|]. split.
  - intros H1. rewrite (replace_final_slash_none _ H1). now split.
  - intros H1. apply endsWith_iff in H1 as [b E]. exists b.
    rewrite E, replace_final_slash_append, append_assoc.
    repeat split. intros C.
    apply (f_equal String.length) in C.
    rewrite !length_append in C. simpl in C. lia.
Qed.

Lemma url_trailing_slash_witness :
  Client.url (configured "https://ai-gateway.vercel.sh/v1/") "/chat/completions"
  = "https://ai-gateway.vercel.sh/v1/chat/completions" /\
  Client.url (configured "https://ai-gateway.vercel.sh/v1") "/chat/completions"
  = Client.url (configured "https://ai-gateway.vercel.sh/v1/") "/chat/completions".
Proof.
  destruct (url_trailing_slash (configured "https://ai-gateway.vercel.sh/v1")
              (configured "https://ai-gateway.vercel.sh/v1/") "/chat/completions"
              eq_refl) as [U [S _]].
  split; [exact U | exact (proj2 (S eq_refl))].
Defined.

(** Only one slash goes: a base URL that ends in two keeps one of them.  So
    the base URLs [https://host/v1/] and [https://host/v1//], which differ
    only by a single trailing slash, give different request URLs. *)
Example url_two_slashes :
  Client.url (configured "https://host/v1/") "/embeddings"
  = "https://host/v1/embeddings" /\
  Client.url (configured "https://host/v1//") "/embeddings"
  = "https://host/v1//embeddings" /\
  Client.url (configured "https://host/v1/") "/embeddings"
  <> Client.url (configured "https://host/v1//") "/embeddings".
Proof. repeat split. discriminate. Qed.

(** ** Models that take no temperature *)

Lemma noneIncluded_false (m : string) (entries : list string) :
  Config.noneIncluded m entries = false <->
  exists entry, In entry entries /\ JS.includes m entry = true.
Proof.
  induction entries as [|e entries IH]; simpl.
  - split; [discriminate | intros [x [[] _]]].
  - destruct (JS.includes m e) eqn:E.
    + split; [intros _; exists e; auto | reflexivity].
    + rewrite IH. split.
      * intros [x [Hin Hx]]. exists x; auto.
      * intros [x [[<- | Hin] Hx]]; [congruence | exists x; auto].
Qed.

(** C8.  [modelSupportsTemperature] is false for "gpt-5-mini" and true for
    "gpt-4o"; in general it is false exactly when the model id, in lower case,
    contains an entry of [NO_TEMPERATURE_MODELS]. *)
Theorem modelSupportsTemperature_denylist :
  Config.modelSupportsTemperature "gpt-5-mini" = false /\
  Config.modelSupportsTemperature "gpt-4o" = true /\
  forall model : string,
    Config.modelSupportsTemperature model = false <->
    exists entry l r,
      In entry Config.NO_TEMPERATURE_MODELS /\
      JS.toLowerCase model = l ++ entry ++ r.
Proof.
  split; [reflexivity | split; [reflexivity|]].
  intros model. unfold Config.modelSupportsTemperature.
  rewrite noneIncluded_false. split.
  - intros [e [Hin Hinc]]. apply includes_iff in Hinc as [l [r H]].
    now exists e, l, r.
  - intros [e [l [r [Hin H]]]]. exists e. split; [assumption|].
    apply includes_iff. now exists l, r.
Qed.

Example modelSupportsTemperature_upper_case :
  Config.modelSupportsTemperature "openai/O3-Mini" = false.
Proof. reflexivity. Qed.

(** ** Provider resolution *)

(** C4.  When the key of OpenRouter is present, the key of the Vercel AI
    Gateway is absent, and the preferred provider has no key of its own (or is
    OpenRouter itself), [resolveProvider] gives ["openrouter"], whichever
    provider was preferred and whatever [ENV_KEYS] lists. *)
Theorem resolveProvider_only_openrouter :
  forall (ENV_KEYS : list (Gateway.ModelProviderName * string))
         (runtime : IAgentRuntime) (process : ProcessEnv)
         (preferred : Gateway.ModelProviderName),
    Gateway.hasCredential runtime process "OPENROUTER_API_KEY" = true ->
    Gateway.hasCredential runtime process "AI_GATEWAY_API_KEY" = false ->
    (preferred = "openrouter" \/
     Gateway.hasCredential runtime process (Gateway.envKeyOf ENV_KEYS preferred) = false) ->
    Gateway.resolveProvider ENV_KEYS runtime process preferred = "openrouter".
Proof.
  intros ENV_KEYS runtime process preferred Hor Hgw Hpref.
  unfold Gateway.resolveProvider.
  destruct (Gateway.hasCredential runtime process
              (Gateway.envKeyOf ENV_KEYS preferred)) eqn:E.
  - destruct Hpref as [-> | H]; [reflexivity | discriminate].
  - now rewrite Hgw, Hor.
Qed.

Lemma resolveProvider_only_openrouter_witness :
  Gateway.resolveProvider
    [("openai", "OPENAI_API_KEY"); ("anthropic", "ANTHROPIC_API_KEY");
     ("openrouter", "OPENROUTER_API_KEY"); ("vercel-gateway", "AI_GATEWAY_API_KEY")]
    (settings [("OPENROUTER_API_KEY", "sk-or-1")]) (settings [])
    "anthropic"
  = "openrouter".
Proof.
  apply resolveProvider_only_openrouter; [reflexivity | reflexivity | right; reflexivity].
Defined.

(** ** [parseInt] on decimal numerals *)

Lemma readDigits_stop (acc : option N) (rest : string) :
  noDigitAhead rest -> JS.readDigits acc rest = acc.
Proof. destruct rest as [|c r]; simpl; [reflexivity | now intros ->]. Qed.

Ltac read_digit :=
  cbn [NilEmpty.string_of_uint append JS.readDigits Pos.of_uint_acc Pos.of_uint];
  match goal with
  | |- context [JS.isDigit ?c] => change (JS.isDigit c) with true; cbv iota
  end;
  match goal with
  | |- context [JS.digitValue ?c] =>
      let v := eval vm_compute in (JS.digitValue c) in
      change (JS.digitValue c) with v
  end.

Lemma readDigits_acc (d : Decimal.uint) :
  forall (acc : positive) (rest : string),
    noDigitAhead rest ->
    JS.readDigits (Some (Npos acc)) (NilEmpty.string_of_uint d ++ rest)
    = Some (Npos (Pos.of_uint_acc d acc)).
Proof.
  induction d; intros acc rest Hrest;
    [simpl; now apply readDigits_stop | read_digit ..];
    match goal with
    | |- JS.readDigits _ ?s = Some (N.pos (Pos.of_uint_acc _ ?y)) =>
        transitivity (JS.readDigits (Some (N.pos y)) s);
        [do 2 f_equal; lia | now apply IHd]
    end.
Qed.

Lemma readDigits_zero (d : Decimal.uint) :
  forall rest : string,
    noDigitAhead rest ->
    JS.readDigits (Some 0%N) (NilEmpty.string_of_uint d ++ rest)
    = Some (N.of_uint d).
Proof.
  unfold N.of_uint.
  induction d; intros rest Hrest;
    [simpl; now apply readDigits_stop | read_digit; now apply IHd | read_digit ..];
    match goal with
    | |- JS.readDigits _ ?s = Some (N.pos (Pos.of_uint_acc _ ?y)) =>
        transitivity (JS.readDigits (Some (N.pos y)) s);
        [reflexivity | now apply readDigits_acc]
    end.
Qed.

Lemma readDigits_uint (d : Decimal.uint) (rest : string) :
  d <> Decimal.Nil ->
  noDigitAhead rest ->
  JS.readDigits None (NilEmpty.string_of_uint d ++ rest) = Some (N.of_uint d).
Proof.
  intros Hd Hrest. rewrite <- (readDigits_zero d rest Hrest).
  destruct d; [contradiction | reflexivity ..].
Qed.

Lemma decimal_digits (n : N) :
  exists d, d <> Decimal.Nil /\ decimal n = NilEmpty.string_of_uint d /\ N.of_uint d = n.
Proof.
  exists (N.to_uint n). unfold decimal, NilZero.string_of_uint.
  assert (H : N.to_uint n <> Decimal.Nil).
  { destruct n; [discriminate | apply DecimalPos.Unsigned.to_uint_nonnil]. }
  split; [assumption|]. split; [|apply DecimalN.Unsigned.of_to].
  destruct (N.to_uint n); [contradiction | reflexivity ..].
Qed.

Lemma readDigits_decimal (n : N) (rest : string) :
  noDigitAhead rest -> JS.readDigits None (decimal n ++ rest) = Some n.
Proof.
  intros Hrest. destruct (decimal_digits n) as [d [Hd [-> <-]]].
  now apply readDigits_uint.
Qed.

Lemma decimal_head (n : N) :
  exists c s, decimal n = String c s /\ JS.isDigit c = true.
Proof.
  destruct (decimal_digits n) as [d [Hd [-> _]]].
  destruct d; [contradiction | eexists; eexists; split; reflexivity ..].
Qed.

Lemma trimStart_append (ws s : string) :
  allWhiteSpace ws -> JS.trimStart (ws ++ s) = JS.trimStart s.
Proof.
  unfold allWhiteSpace. induction ws as [|c ws IH]; simpl; [reflexivity|].
  destruct (JS.isWhiteSpace c); [assumption | discriminate].
Qed.

Lemma digit_not_space_or_sign (c : ascii) :
  JS.isDigit c = true ->
  JS.isWhiteSpace c = false /\ c <> "-"%char /\ c <> "+"%char.
Proof.
  destruct c as [[] [] [] [] [] [] [] []]; intros H;
    try discriminate H; repeat split; discriminate.
Qed.

(** [parseInt] reads a decimal numeral that stands after white space and
    before anything but a digit. *)
Lemma parseInt_decimal (ws rest : string) (n : N) :
  allWhiteSpace ws -> noDigitAhead rest ->
  JS.parseInt (ws ++ decimal n ++ rest) = JS.Decimal false n 0.
Proof.
  intros Hws Hrest. unfold JS.parseInt. rewrite (trimStart_append _ _ Hws).
  pose proof (readDigits_decimal n rest Hrest) as R.
  destruct (decimal_head n) as [c [s [E Hc]]]. rewrite E in *.
  destruct (digit_not_space_or_sign c Hc) as [W [M P]].
  cbn [append JS.trimStart]. rewrite W.
  assert (S : (match String c (s ++ rest) with
               | String "-" r => (true, r)
               | String "+" r => (false, r)
               | _ => (false, String c (s ++ rest))
               end) = (false, String c (s ++ rest))).
  { destruct c as [[] [] [] [] [] [] [] []]; try reflexivity; congruence. }
  rewrite S. cbn [append] in R. now rewrite R.
Qed.

(** ... and a numeral after a minus sign denotes a negative number. *)
Lemma parseInt_minus (ws rest : string) (n : N) :
  allWhiteSpace ws -> noDigitAhead rest ->
  JS.parseInt (ws ++ "-" ++ decimal n ++ rest) = JS.Decimal true n 0.
Proof.
  intros Hws Hrest. unfold JS.parseInt. rewrite (trimStart_append _ _ Hws).
  cbn [append JS.trimStart]. change (JS.isWhiteSpace "-") with false. cbv iota.
  now rewrite (readDigits_decimal n rest Hrest).
Qed.

(** With no digit at the head, after white space and one sign, there is no
    number. *)
Lemma parseInt_no_digit (text : string) :
  noDigitAhead
    (match JS.trimStart text with
     | String "-" r | String "+" r => r
     | t => t
     end) ->
  JS.parseInt text = JS.NaN.
Proof.
  unfold JS.parseInt. intros H.
  destruct (JS.trimStart text) as [|c t]; [reflexivity|].
  destruct c as [[] [] [] [] [] [] [] []];
    cbv iota in *; rewrite (readDigits_stop None _ H); reflexivity.
Qed.

(** ** Numeric settings *)

Section NumericSettings.

Variable runtime : option IAgentRuntime.
Variable process : option ProcessEnv.

Lemma positive_not_NaN (n : JS.number) :
  JS.positive_number n = true -> JS.isNaN n = false.
Proof. destruct n; [discriminate | reflexivity]. Qed.

Lemma getEmbeddingDimensions_cases :
  (exists text,
      Config.getSetting runtime process "AI_GATEWAY_EMBEDDING_DIMENSIONS" = Some text /\
      JS.positive_number (JS.parseInt text) = true /\
      Config.getEmbeddingDimensions runtime process = JS.parseInt text) \/
  ((forall text,
      Config.getSetting runtime process "AI_GATEWAY_EMBEDDING_DIMENSIONS" = Some text ->
      JS.positive_number (JS.parseInt text) = false) /\
   Config.getEmbeddingDimensions runtime process = JS.int 1536).
Proof.
  unfold Config.getEmbeddingDimensions.
  destruct (Config.getSetting runtime process "AI_GATEWAY_EMBEDDING_DIMENSIONS")
    as [text|]; [|right; split; [discriminate | reflexivity]].
  destruct (JS.positive_number (JS.parseInt text)) eqn:P.
  - left. exists text. repeat split; [assumption|].
    rewrite (positive_not_NaN _ P). simpl.
    destruct (JS.truthy_string text) eqn:T; [reflexivity|].
    apply negb_false_iff, String.eqb_eq in T. subst text. discriminate.
  - right. split.
    + intros t [= <-]. assumption.
    + rewrite andb_false_r. now destruct (JS.truthy_string text).
Qed.

Lemma getTimeoutMs_cases :
  (exists text,
      Config.getSetting runtime process "AI_GATEWAY_TIMEOUT_MS" = Some text /\
      JS.positive_number (JS.parseInt text) = true /\
      Config.getTimeoutMs runtime process = JS.parseInt text) \/
  ((forall text,
      Config.getSetting runtime process "AI_GATEWAY_TIMEOUT_MS" = Some text ->
      JS.positive_number (JS.parseInt text) = false) /\
   Config.getTimeoutMs runtime process = JS.int 60000).
Proof.
  unfold Config.getTimeoutMs.
  destruct (Config.getSetting runtime process "AI_GATEWAY_TIMEOUT_MS")
    as [text|]; [|right; split; [discriminate | reflexivity]].
  destruct (JS.positive_number (JS.parseInt text)) eqn:P.
  - left. exists text. repeat split; [assumption|].
    rewrite (positive_not_NaN _ P). simpl.
    destruct (JS.truthy_string text) eqn:T; [reflexivity|].
    apply negb_false_iff, String.eqb_eq in T. subst text. discriminate.
  - right. split.
    + intros t [= <-]. assumption.
    + rewrite andb_false_r. now destruct (JS.truthy_string text).
Qed.

End NumericSettings.

Lemma int_of_N (n : N) : JS.int (Z.of_N n) = JS.Decimal false n 0.
Proof.
  unfold JS.int. f_equal; [apply Z.ltb_ge; lia | apply Zabs2N.id].
Qed.

Lemma positive_natural (n : N) :
  (0 < n)%N -> JS.positive_number (JS.Decimal false n 0) = true.
Proof.
  intros H. unfold JS.positive_number, JS.number_is_zero.
  destruct (N.eqb_spec n 0); [lia | reflexivity].
Qed.

(** C9.  Both numeric settings are total functions of the configured text, so
    neither can throw.  When the text is a decimal numeral for a positive
    integer, after white space and before anything but a digit, that integer
    is the result; whenever [parseInt] gives a number greater than 0 that
    number is the result; and when [parseInt] gives NaN or a number that is
    not greater than 0, or nothing is configured, the result is the default,
    1536 dimensions and 60000 ms. *)
Theorem numeric_settings_defensive :
  forall (runtime : option IAgentRuntime) (process : option ProcessEnv),
    (forall text : string,
        Config.getSetting runtime process "AI_GATEWAY_EMBEDDING_DIMENSIONS" = Some text ->
        (forall (ws rest : string) (n : N),
            text = ws ++ decimal n ++ rest -> allWhiteSpace ws ->
            noDigitAhead rest -> (0 < n)%N ->
            Config.getEmbeddingDimensions runtime process = JS.int (Z.of_N n)) /\
        (JS.positive_number (JS.parseInt text) = true ->
         Config.getEmbeddingDimensions runtime process = JS.parseInt text) /\
        (JS.parseInt text = JS.NaN \/ JS.positive_number (JS.parseInt text) = false ->
         Config.getEmbeddingDimensions runtime process = JS.int 1536)) /\
    (Config.getSetting runtime process "AI_GATEWAY_EMBEDDING_DIMENSIONS" = None ->
     Config.getEmbeddingDimensions runtime process = JS.int 1536) /\
    (forall text : string,
        Config.getSetting runtime process "AI_GATEWAY_TIMEOUT_MS" = Some text ->
        (forall (ws rest : string) (n : N),
            text = ws ++ decimal n ++ rest -> allWhiteSpace ws ->
            noDigitAhead rest -> (0 < n)%N ->
            Config.getTimeoutMs runtime process = JS.int (Z.of_N n)) /\
        (JS.positive_number (JS.parseInt text) = true ->
         Config.getTimeoutMs runtime process = JS.parseInt text) /\
        (JS.parseInt text = JS.NaN \/ JS.positive_number (JS.parseInt text) = false ->
         Config.getTimeoutMs runtime process = JS.int 60000)) /\
    (Config.getSetting runtime process "AI_GATEWAY_TIMEOUT_MS" = None ->
     Config.getTimeoutMs runtime process = JS.int 60000) /\
    JS.positive_number (Config.getEmbeddingDimensions runtime process) = true /\
    JS.positive_number (Config.getTimeoutMs runtime process) = true.
Proof.
  intros runtime process.
  pose proof (getEmbeddingDimensions_cases runtime process) as D.
  pose proof (getTimeoutMs_cases runtime process) as T.
  assert (used : forall (text : string) (get : JS.number) (d : JS.number),
             (JS.positive_number (JS.parseInt text) = true -> get = JS.parseInt text) ->
             forall (ws rest : string) (n : N),
               text = ws ++ decimal n ++ rest -> allWhiteSpace ws ->
               noDigitAhead rest -> (0 < n)%N -> get = JS.int (Z.of_N n)).
  { intros text get d Hpos ws rest n -> Hws Hrest Hn.
    rewrite int_of_N, <- (parseInt_decimal ws rest n Hws Hrest).
    apply Hpos. rewrite (parseInt_decimal ws rest n Hws Hrest).
    now apply positive_natural. }
  assert (Dpos : forall text,
             Config.getSetting runtime process "AI_GATEWAY_EMBEDDING_DIMENSIONS" = Some text ->
             JS.positive_number (JS.parseInt text) = true ->
             Config.getEmbeddingDimensions runtime process = JS.parseInt text).
  { intros text E P. destruct D as [[t [E' [_ R]]] | [N _]].
    - rewrite E in E'. injection E' as <-. exact R.
    - rewrite (N text E) in P. discriminate. }
  assert (Tpos : forall text,
             Config.getSetting runtime process "AI_GATEWAY_TIMEOUT_MS" = Some text ->
             JS.positive_number (JS.parseInt text) = true ->
             Config.getTimeoutMs runtime process = JS.parseInt text).
  { intros text E P. destruct T as [[t [E' [_ R]]] | [N _]].
    - rewrite E in E'. injection E' as <-. exact R.
    - rewrite (N text E) in P. discriminate. }
  repeat split.
  - eapply used; [exact JS.NaN | now apply Dpos].
  - now apply Dpos.
  - intros Hbad. destruct D as [[t [E' [P _]]] | [_ R]]; [|exact R].
    rewrite H in E'. injection E' as <-.
    destruct Hbad as [Hn | Hn]; rewrite Hn in P; discriminate.
  - intros E. destruct D as [[t [E' _]] | [_ R]]; [congruence | exact R].
  - eapply used; [exact JS.NaN | now apply Tpos].
  - now apply Tpos.
  - intros Hbad. destruct T as [[t [E' [P _]]] | [_ R]]; [|exact R].
    rewrite H in E'. injection E' as <-.
    destruct Hbad as [Hn | Hn]; rewrite Hn in P; discriminate.
  - intros E. destruct T as [[t [E' _]] | [_ R]]; [congruence | exact R].
  - destruct D as [[t [_ [P ->]]] | [_ ->]]; [exact P | reflexivity].
  - destruct T as [[t [_ [P ->]]] | [_ ->]]; [exact P | reflexivity].
Qed.

Lemma numeric_settings_defensive_witness :
  let runtime := Some (settings [("AI_GATEWAY_EMBEDDING_DIMENSIONS", " 768px");
                                 ("AI_GATEWAY_TIMEOUT_MS", "soon")]) in
  Config.getEmbeddingDimensions runtime None = JS.int 768 /\
  Config.getTimeoutMs runtime None = JS.int 60000.
Proof.
  intros runtime.
  destruct (numeric_settings_defensive runtime None) as [D [_ [T _]]].
  split.
  - destruct (D " 768px" eq_refl) as [H _].
    apply (H " " "px" 768%N); [reflexivity | reflexivity | reflexivity | reflexivity].
  - destruct (T "soon" eq_refl) as [_ [_ H]].
    apply H. left. reflexivity.
Defined.

Example numeric_settings_samples :
  let dims text :=
    Config.getEmbeddingDimensions
      (Some (settings [("AI_GATEWAY_EMBEDDING_DIMENSIONS", text)])) None in
  dims "3072" = JS.int 3072 /\ dims "12.5" = JS.int 12 /\
  dims "0" = JS.int 1536 /\ dims "-5" = JS.int 1536 /\
  dims "large" = JS.int 1536 /\ dims "" = JS.int 1536.
Proof. repeat split. Qed.

(** ** Truncation of the embedding input *)


Lemma substring_prefix (n : nat) :
  forall s : string,
    n <= String.length s ->
    String.length (substring 0 n s) = n /\
    exists rest, s = substring 0 n s ++ rest.
Proof.
  induction n as [|n IH]; intros s Hn.
  - destruct s; simpl; split; try reflexivity; eexists; reflexivity.
  - destruct s as [|c s]; simpl in *; [lia|].
    destruct (IH s) as [L [rest R]]; [lia|].
    split; [now rewrite L | exists rest; now rewrite <- R].
Qed.

Lemma slice_prefix (s : string) (n : nat) :
  n <= String.length s ->
  JS.slice s 0 (Some (Z.of_nat n)) = substring 0 n s.
Proof.
  intros Hn. unfold JS.slice.
  change (0 <? 0)%Z with false. cbv iota.
  destruct (Z.ltb_spec (Z.of_nat n) 0); [lia|].
  replace (Z.to_nat (Z.min 0 (Z.of_nat (String.length s)))) with 0%nat by lia.
  replace (Z.to_nat _) with n by lia.
  reflexivity.
Qed.

(** C7.  With an API key configured the handler calls [createEmbedding], and
    the text it passes is the input itself when the input has at most
    MAX_EMBEDDING_TOKENS * 4 code units, and otherwise the prefix of the input
    that has exactly MAX_EMBEDDING_TOKENS * 4 code units. *)
Theorem embedding_input_truncated :
  forall (MAX_EMBEDDING_TOKENS : nat) (runtime : IAgentRuntime)
         (process : option ProcessEnv) (params : Embedding.TextEmbeddingInput)
         (key : string),
    Config.getApiKey (Some runtime) process = Returns key ->
    let input :=
      match params with
      | Embedding.null => "test"
      | Embedding.text_of_string s => s
      | Embedding.text_of_params t => t
      end in
    exists sent : Embedding.EmbeddingParams,
      Embedding.handleTextEmbedding MAX_EMBEDDING_TOKENS runtime process params
      = Returns sent /\
      (String.length input <= MAX_EMBEDDING_TOKENS * 4 ->
       Embedding.text sent = input) /\
      (MAX_EMBEDDING_TOKENS * 4 < String.length input ->
       String.length (Embedding.text sent) = MAX_EMBEDDING_TOKENS * 4 /\
       exists rest, input = Embedding.text sent ++ rest).
Proof.
  intros MAX runtime process params key Hkey input.
  unfold Embedding.handleTextEmbedding, Config.buildConfig. rewrite Hkey.
  fold input. eexists. split; [reflexivity|]. cbn [Embedding.text].
  destruct (Nat.ltb_spec (MAX * 4) (String.length input)) as [Hlt | Hle].
  - split; [lia|]. intros _. rewrite slice_prefix by lia.
    apply substring_prefix. lia.
  - split; [reflexivity | lia].
Qed.

Lemma embedding_input_truncated_witness :
  exists sent : Embedding.EmbeddingParams,
    Embedding.handleTextEmbedding 8
      (settings [("AI_GATEWAY_API_KEY", "key")]) None
      (Embedding.text_of_string (copies 40 "a"))
    = Returns sent /\
    String.length (Embedding.text sent) = 32.
Proof.
  destruct (embedding_input_truncated 8
              (settings [("AI_GATEWAY_API_KEY", "key")]) None
              (Embedding.text_of_string (copies 40 "a")) "key" eq_refl)
    as [sent [E [_ H]]].
  exists sent. split; [exact E|].
  apply H. simpl. lia.
Defined.

Example embedding_input_short :
  Embedding.handleTextEmbedding 8
    (settings [("AI_GATEWAY_API_KEY", "key")]) None Embedding.null
  = Returns {| Embedding.text := "test";
               Embedding.model := "text-embedding-3-small";
               Embedding.dimensions := JS.int 1536 |}.
Proof. reflexivity. Qed.

(** ** The embedding handler that degrades *)

Section ResilientEmbedding.

Variable fetch : Resilient.Request -> Resilient.Fetched.
Variable JSON_parse : string -> option JS.JValue.
Variable runtime : IAgentRuntime.
Variable process : ProcessEnv.

Lemma filled_shape (lead : JS.number) :
  Resilient.filled lead = JS.JNum lead :: repeat (JS.JNum (JS.int 0)) 767.
Proof. reflexivity. Qed.

Lemma filled_length (lead : JS.number) : List.length (Resilient.filled lead) = 768.
Proof. reflexivity. Qed.

Lemma getAIGatewayConfig_key :
  (exists config, Resilient.getAIGatewayConfig runtime process = Returns config) <->
  (exists key, Resilient.getSetting runtime process "AI_GATEWAY_API_KEY" None = Some key
               /\ key <> "").
Proof.
  unfold Resilient.getAIGatewayConfig.
  destruct (Resilient.getSetting runtime process "AI_GATEWAY_API_KEY" None) as [key|].
  - unfold JS.truthy_string. rewrite negb_involutive.
    destruct (String.eqb_spec key "") as [->|Hne].
    + split; [intros [c H]; discriminate | intros [k [[= <-] H]]; contradiction].
    + split; [intros _; now exists key | intros _; eexists; reflexivity].
  - split; [intros [c H]; discriminate | intros [k [H _]]; discriminate].
Qed.

(** How a request fails: [fetch] rejects, the body cannot be read, the status
    is not a success, or the body is not JSON. *)
Lemma makeOpenAIRequest_outcome (config : Resilient.AIGatewayConfig)
    (endpoint : string) (body : option JS.JValue) :
  exists request : Resilient.Request,
    Resilient.method request = "POST" /\
    Resilient.makeOpenAIRequest fetch JSON_parse config endpoint body =
    match fetch request with
    | Resilient.Rejected message => Resilient.Failure message
    | Resilient.Responded response =>
        match Resilient.text response with
        | inr message => Resilient.Failure message
        | inl responseText =>
            if Resilient.ok response then
              match JSON_parse responseText with
              | Some data => Resilient.Success data
              | None => Resilient.Failure "Failed to parse response"
              end
            else
              Resilient.Failure
                ("Request failed: " ++ decimal (Resilient.status response) ++ " "
                 ++ Resilient.statusText response)
        end
    end.
Proof.
  unfold Resilient.makeOpenAIRequest, Resilient.makeRequest.
  match goal with |- context [fetch ?r] => exists r end.
  split; [reflexivity|].
  destruct (fetch _) as [m|r]; [reflexivity|].
  destruct (Resilient.text r); [|reflexivity].
  destruct (Resilient.ok r); reflexivity.
Qed.

(** The leading elements tell the fallback vectors apart. *)
Lemma fallback_vectors_distinct (j k : N) :
  Resilient.filled (Resilient.tenths j) = Resilient.filled (Resilient.tenths k) ->
  j = k.
Proof. rewrite !filled_shape. intros H. now injection H. Qed.

End ResilientEmbedding.

(** The outcome for a text [t] that the handler was [given]: the vector led
    by 0.3, 0.4 or 0.5, or the vector of the response. *)
Ltac embedding_of_text t given FB TR TRf :=
  right;
  let Tt := fresh "Tt" in
  destruct (negb (JS.truthy_string (JS.trim t))) eqn:Tt;
  [ eexists; split; [reflexivity|]; right; right; left;
    split; [|apply FB]; exists t; split; [exact given | now apply TR]
  | apply TRf in Tt;
    let data := fresh "data" in
    let error := fresh "error" in
    let Req := fresh "Req" in
    destruct (Resilient.makeOpenAIRequest _ _ _ "/embeddings" _)
      as [data|error] eqn:Req;
    [ let Td := fresh "Td" in
      destruct (JS.truthy data) eqn:Td; cbn [negb];
      [ let Em := fresh "Em" in
        let vector := fresh "vector" in
        destruct (JS.chain (JS.chain (JS.member "data" data) JS.index0)
                    (JS.member "embedding")) as [[| | | |vector|]|] eqn:Em;
        try (eexists; split; [reflexivity|]; do 4 right; left;
             split; [|apply FB]; exists t, data;
             repeat split; try assumption; try exact given; congruence);
        eexists; split; [reflexivity|]; do 5 right;
        exists t, data, vector; repeat split; try assumption; exact given
      | eexists; split; [reflexivity|]; do 3 right; left;
        split; [|apply FB]; exists t; split; [split; [exact given | assumption]|];
        right; now exists data ]
    | eexists; split; [reflexivity|]; do 3 right; left;
      split; [|apply FB]; exists t; split; [split; [exact given | assumption]|];
      left; now exists error ] ].

(** C5, as the code has it.  The key is what
    [runtime.getSetting(key) ?? process.env[key]] gives: the setting of the
    runtime when it has one, be it empty, and the variable of the environment
    otherwise.  When that is missing or empty the handler throws, whatever
    its input.  When it is a string that is not empty, what the handler does
    falls under one of seven cases, whatever [fetch] does: an object
    whose text is truthy and not a string makes it throw the TypeError of
    [text.trim()]; in the six others it returns.  The probe [null] gives the
    vector led by 0.1; an object with no text or a falsy one gives 0.2; a text
    that is empty once trimmed gives 0.3; a request that fails, or whose data
    is falsy, gives 0.4; data without an array at [data[0].embedding] gives
    0.5; and otherwise the array is returned as it is.  Each fallback vector
    has 768 elements, all 0 but the first. *)
Theorem resilient_embedding_with_key :
  forall (fetch : Resilient.Request -> Resilient.Fetched)
         (JSON_parse : string -> option JS.JValue)
         (typeErrorMessage : string -> string)
         (runtime : IAgentRuntime) (process : ProcessEnv)
         (params : Resilient.TextEmbeddingInput),
    Resilient.getSetting runtime process "AI_GATEWAY_API_KEY" None
    = match runtime "AI_GATEWAY_API_KEY" with
      | Some setting => Some setting
      | None => process "AI_GATEWAY_API_KEY"
      end /\
    (Resilient.getSetting runtime process "AI_GATEWAY_API_KEY" None = None \/
     Resilient.getSetting runtime process "AI_GATEWAY_API_KEY" None = Some "" ->
     Resilient.handleTextEmbedding fetch JSON_parse typeErrorMessage runtime process
       params
     = Throws (Error "AI_GATEWAY_API_KEY is required")) /\
    (forall key : string,
        Resilient.getSetting runtime process "AI_GATEWAY_API_KEY" None = Some key ->
        key <> "" ->
        exists config : Resilient.AIGatewayConfig,
          Resilient.getAIGatewayConfig runtime process = Returns config /\
          let outcome :=
            Resilient.handleTextEmbedding fetch JSON_parse typeErrorMessage runtime
              process params in
          ((exists v,
               params = Resilient.text_of_params (Some v) /\
               JS.truthy v = true /\ (forall s, v <> JS.JStr s)) /\
           outcome = Throws (Error (typeErrorMessage "trim"))) \/
          exists result : Resilient.Embedded,
            outcome = Returns result /\
            let fallback k :=
              Resilient.embedding result = Resilient.filled (Resilient.tenths k) /\
              Resilient.embedding result
              = JS.JNum (JS.Decimal false k (-1)) :: repeat (JS.JNum (JS.int 0)) 767 /\
              Resilient.emitted result = [] in
            let sent text :=
              Resilient.makeOpenAIRequest fetch JSON_parse config "/embeddings"
                (Some (JS.JObj [("model", JS.JStr (Resilient.embeddingModel config));
                                ("input", JS.JStr text)])) in
            let given text :=
              params = Resilient.text_of_string text \/
              (params = Resilient.text_of_params (Some (JS.JStr text)) /\ text <> "") in
            let usable text := given text /\ JS.trim text <> "" in
            (params = Resilient.null /\ fallback 1%N) \/
            ((params = Resilient.text_of_params None \/
              exists v, params = Resilient.text_of_params (Some v) /\
                        JS.truthy v = false) /\ fallback 2%N) \/
            ((exists text, given text /\ JS.trim text = "") /\ fallback 3%N) \/
            ((exists text, usable text /\
                 ((exists error, sent text = Resilient.Failure error) \/
                  (exists data, sent text = Resilient.Success data /\
                                JS.truthy data = false)))
             /\ fallback 4%N) \/
            ((exists text data, usable text /\
                 sent text = Resilient.Success data /\ JS.truthy data = true /\
                 (forall vector,
                     JS.chain (JS.chain (JS.member "data" data) JS.index0)
                       (JS.member "embedding") <> Some (JS.JArr vector)))
             /\ fallback 5%N) \/
            (exists text data vector, usable text /\
                 sent text = Resilient.Success data /\ JS.truthy data = true /\
                 JS.chain (JS.chain (JS.member "data" data) JS.index0)
                   (JS.member "embedding") = Some (JS.JArr vector) /\
                 Resilient.embedding result = vector)).
Proof.
  intros fetch JSON_parse typeErrorMessage runtime process params. split; [|split].
  - unfold Resilient.getSetting, JS.nullish.
    destruct (runtime "AI_GATEWAY_API_KEY"); [reflexivity|].
    now destruct (process "AI_GATEWAY_API_KEY").
  - intros H. unfold Resilient.handleTextEmbedding, Resilient.getAIGatewayConfig.
    destruct H as [-> | ->]; reflexivity.
  - intros key Hkey Hkne.
    destruct (proj2 (getAIGatewayConfig_key runtime process)) as [config Hc];
      [now exists key|].
    exists config. split; [exact Hc|]. cbv zeta.
    unfold Resilient.handleTextEmbedding. rewrite Hc.
    assert (FB : forall k,
               let r := {| Resilient.embedding := Resilient.filled (Resilient.tenths k);
                           Resilient.emitted := [] |} in
               Resilient.embedding r = Resilient.filled (Resilient.tenths k) /\
               Resilient.embedding r
               = JS.JNum (JS.Decimal false k (-1)) :: repeat (JS.JNum (JS.int 0)) 767 /\
               Resilient.emitted r = []) by (intros k; repeat split).
    assert (TR : forall t, negb (JS.truthy_string t) = true <-> t = "").
    { intros t. unfold JS.truthy_string. rewrite negb_involutive.
      apply String.eqb_eq. }
    assert (TRf : forall t, negb (JS.truthy_string t) = false <-> t <> "").
    { intros t. unfold JS.truthy_string. rewrite negb_involutive.
      apply String.eqb_neq. }
    destruct params as [|s|[v|]]; cbv iota.
    + right. eexists. split; [reflexivity|]. left. split; [reflexivity | apply FB].
    + embedding_of_text s (@or_introl
                             (Resilient.text_of_string s = Resilient.text_of_string s)
                             (Resilient.text_of_string s
                              = Resilient.text_of_params (Some (JS.JStr s)) /\ s <> "")
                             eq_refl) FB TR TRf.
    + destruct (JS.truthy v) eqn:Tv.
      2: { right. eexists. split; [reflexivity|]. right. left.
           split; [|apply FB]. right. now exists v. }
      destruct v as [|b|n|t|items|members];
        try (left; split; [|reflexivity]; eexists;
             split; [reflexivity|]; split; [exact Tv | discriminate]).
      cbn [JS.truthy] in Tv.
      assert (Hne : t <> "") by (apply TRf; now rewrite Tv).
      embedding_of_text t (@or_intror
                             (Resilient.text_of_params (Some (JS.JStr t))
                              = Resilient.text_of_string t)
                             _ (conj (@eq_refl _ (Resilient.text_of_params
                                                    (Some (JS.JStr t)))) Hne))
                        FB TR TRf.
    + right. eexists. split; [reflexivity|]. right. left.
      split; [now left | apply FB].
Qed.

Lemma resilient_embedding_with_key_witness :
  exists result,
    Resilient.handleTextEmbedding
      (fun _ => Resilient.Rejected "connect ECONNREFUSED") JS.JSON_parse
      (fun name => name ++ " is not a function")
      (settings [("AI_GATEWAY_API_KEY", "key")]) (settings [])
      (Resilient.text_of_string "hello")
    = Returns result.
Proof.
  destruct (resilient_embedding_with_key
              (fun _ => Resilient.Rejected "connect ECONNREFUSED") JS.JSON_parse
              (fun name => name ++ " is not a function")
              (settings [("AI_GATEWAY_API_KEY", "key")]) (settings [])
              (Resilient.text_of_string "hello"))
    as [_ [_ H]].
  destruct (H "key" eq_refl) as [config [_ [[[v [P _]] _] | [result [E _]]]]];
    [discriminate | discriminate P | exists result; exact E].
Defined.

(** C5 as the specification words it fails here: with no API key in the
    settings or the environment the handler throws, before it looks at its
    input. *)
Lemma resilient_embedding_throws_without_key :
  Resilient.handleTextEmbedding
    (fun _ => Resilient.Rejected "connect ECONNREFUSED") JS.JSON_parse
    (fun name => name ++ " is not a function")
    (settings []) (settings []) (Resilient.text_of_string "hello")
  = Throws (Error "AI_GATEWAY_API_KEY is required").
Proof. reflexivity. Qed.

(** A setting of the runtime that is empty hides the key of the environment:
    [??] passes over [null] and [undefined] only. *)
Example resilient_embedding_empty_setting :
  Resilient.handleTextEmbedding
    (fun _ => Resilient.Rejected "connect ECONNREFUSED") JS.JSON_parse
    (fun name => name ++ " is not a function")
    (settings [("AI_GATEWAY_API_KEY", "")])
    (settings [("AI_GATEWAY_API_KEY", "key")])
    Resilient.null
  = Throws (Error "AI_GATEWAY_API_KEY is required").
Proof. reflexivity. Qed.

(** With a key, an object whose text is the number 42 makes the handler
    throw: a number has no [trim]. *)
Example resilient_embedding_text_not_string :
  Resilient.handleTextEmbedding
    (fun _ => Resilient.Rejected "connect ECONNREFUSED") JS.JSON_parse
    (fun name => name ++ " is not a function")
    (settings [("AI_GATEWAY_API_KEY", "key")]) (settings [])
    (Resilient.text_of_params (Some (JS.JNum (JS.int 42))))
  = Throws (Error "trim is not a function").
Proof. reflexivity. Qed.

(** An object whose text is the number 0 has a falsy text, and gets the
    vector led by 0.2. *)
Example resilient_embedding_text_zero :
  Resilient.embedding_of
    (Resilient.handleTextEmbedding
       (fun _ => Resilient.Rejected "connect ECONNREFUSED") JS.JSON_parse
       (fun name => name ++ " is not a function")
       (settings [("AI_GATEWAY_API_KEY", "key")]) (settings [])
       (Resilient.text_of_params (Some (JS.JNum (JS.int 0)))))
  = Some (Resilient.filled (Resilient.tenths 2)).
Proof. reflexivity. Qed.

Example resilient_embedding_http_error :
  Resilient.embedding_of
    (Resilient.handleTextEmbedding
       (fun _ => Resilient.Responded
                   {| Resilient.ok := false; Resilient.status := 429;
                      Resilient.statusText := "Too Many Requests";
                      Resilient.text := inl "slow down" |})
       JS.JSON_parse (fun name => name ++ " is not a function")
       (settings [("AI_GATEWAY_API_KEY", "key")]) (settings [])
       (Resilient.text_of_params (Some (JS.JStr "hello"))))
  = Some (Resilient.filled (Resilient.tenths 4)).
Proof. reflexivity. Qed.

(** ** Lines of a stream *)

Section Lines.

Lemma split_cut (text : string) :
  JS.split text JS.LF =
  (fst (cut text) ++ [snd (cut text)])%list.
Proof.
  induction text as [|c text IH]; [reflexivity|].
  cbn [JS.split cut]. rewrite IH. destruct (cut text) as [lines remainder].
  destruct (Ascii.eqb c JS.LF); [reflexivity|].
  destruct lines; reflexivity.
Qed.

Lemma pop_snoc (lines : list string) (final : string) :
  Client.pop (lines ++ [final]) = (lines, Some final).
Proof.
  unfold Client.pop. destruct (lines ++ [final])%list eqn:E.
  - now destruct lines.
  - rewrite <- E. now rewrite removelast_last, last_last.
Qed.

(** What [split] and [pop] give together. *)
Lemma pop_split (text : string) :
  Client.pop (JS.split text JS.LF) = (fst (cut text), Some (snd (cut text))).
Proof. rewrite split_cut. apply pop_snoc. Qed.

Lemma or_else_empty (s : string) :
  match JS.or_else (Some s) (Some "") with Some b => b | None => "" end = s.
Proof.
  unfold JS.or_else, JS.truthy_string.
  destruct (String.eqb_spec s ""); simpl; [now subst | reflexivity].
Qed.

(** Text arriving after [a] completes the lines of [a]'s remainder. *)
Lemma cut_append (a b : string) :
  cut (a ++ b) =
  ((fst (cut a) ++ fst (cut (snd (cut a) ++ b)))%list, snd (cut (snd (cut a) ++ b))).
Proof.
  induction a as [|c a IH]; simpl.
  - now destruct (cut b).
  - rewrite IH. destruct (cut a) as [la ra]. simpl.
    destruct (Ascii.eqb c JS.LF) eqn:E; simpl.
    + reflexivity.
    + destruct la as [|l la]; simpl.
      * rewrite E. destruct (cut (ra ++ b)) as [lb rb]. simpl.
        destruct lb; reflexivity.
      * reflexivity.
Qed.

(** The remainder holds no complete line. *)
Lemma cut_remainder (text : string) : cut (snd (cut text)) = ([], snd (cut text)).
Proof.
  induction text as [|c text IH]; [reflexivity|].
  simpl. destruct (cut text) as [lines r]. simpl in *.
  destruct (Ascii.eqb c JS.LF) eqn:E; simpl; [exact IH|].
  destruct lines; simpl; [|exact IH].
  now rewrite IH, E.
Qed.

Lemma cut_line (rest : string) :
  forall line : string,
    cut line = ([], line) ->
    cut (line ++ newline ++ rest) = (line :: fst (cut rest), snd (cut rest)).
Proof.
  induction line as [|c line IH]; intros H.
  - simpl. now destruct (cut rest).
  - simpl in *. destruct (cut line) as [l r] eqn:E.
    destruct (Ascii.eqb c JS.LF); [discriminate|].
    destruct l; [|discriminate]. injection H as ->.
    now rewrite IH.
Qed.

Lemma cut_complete (pre rest : string) :
  snd (cut pre) = "" ->
  cut (pre ++ rest) = ((fst (cut pre) ++ fst (cut rest))%list, snd (cut rest)).
Proof. intros H. now rewrite cut_append, H. Qed.

(** A text without a line feed is its own remainder. *)
Lemma cut_no_newline (s : string) :
  JS.includes s newline = false -> cut s = ([], s).
Proof.
  induction s as [|c s IH]; [reflexivity|].
  cbn [JS.includes JS.startsWith newline]. rewrite andb_true_r.
  intros H. apply orb_false_elim in H as [H1 H2].
  simpl. rewrite (IH H2). rewrite Ascii.eqb_sym in H1. now rewrite H1.
Qed.

(** A text that ends in a line feed has no remainder. *)
Lemma cut_ends_newline (s : string) :
  s = "" \/ JS.endsWith s newline = true -> snd (cut s) = "".
Proof.
  intros [-> | H]; [reflexivity|].
  apply endsWith_iff in H as [l ->].
  rewrite cut_append. pose proof (cut_remainder l) as R.
  pose proof (cut_line "" _ R) as L. unfold newline in *.
  rewrite append_nil_r in L. simpl in L. now rewrite L.
Qed.

End Lines.

(** ** The streaming parser *)

Section Streaming.

Variable JSON_parse : string -> option JS.JValue.
Variable decoder : Client.TextDecoder.

Lemma forLines_app (l1 l2 : list string) :
  Client.forLines JSON_parse (l1 ++ l2) =
  if snd (Client.forLines JSON_parse l1)
  then (fst (Client.forLines JSON_parse l1), true)
  else ((fst (Client.forLines JSON_parse l1)
         ++ fst (Client.forLines JSON_parse l2))%list,
        snd (Client.forLines JSON_parse l2)).
Proof.
  induction l1 as [|x l1 IH]; simpl.
  - now destruct (Client.forLines JSON_parse l2).
  - destruct (Client.forBody JSON_parse x) as [y|]; [|reflexivity].
    rewrite IH. destruct (Client.forLines JSON_parse l1) as [ys r]. simpl.
    destruct r; [reflexivity|].
    destruct (Client.forLines JSON_parse l2) as [ys2 r2]. simpl.
    now destruct y.
Qed.

Lemma decode_app (st : Client.pending decoder) (a b : list byte) :
  Client.decode decoder st (a ++ b) =
  (fst (Client.decode decoder (fst (Client.decode decoder st a)) b),
   snd (Client.decode decoder st a) ++
   snd (Client.decode decoder (fst (Client.decode decoder st a)) b)).
Proof.
  revert st. induction a as [|x a IH]; intros st; simpl.
  - now destruct (Client.decode decoder st b).
  - destruct (Client.decode_byte decoder st x) as [st1 t1].
    rewrite IH. destruct (Client.decode decoder st1 a) as [st2 t2]. simpl.
    now rewrite append_assoc.
Qed.

(** One turn of the loop, in terms of [cut]. *)
Lemma whileRead_turn (st : Client.pending decoder) (buffer : string)
    (value : list byte) (rest : list (list byte)) :
  Client.whileRead JSON_parse decoder st buffer (value :: rest) =
  let text := snd (Client.decode decoder st value) in
  let st' := fst (Client.decode decoder st value) in
  let lines := fst (cut (buffer ++ text)) in
  if snd (Client.forLines JSON_parse lines)
  then {| Client.yielded := fst (Client.forLines JSON_parse lines);
          Client.unread := rest |}
  else
    let g := Client.whileRead JSON_parse decoder st'
               (snd (cut (buffer ++ text))) rest in
    {| Client.yielded := (fst (Client.forLines JSON_parse lines) ++ Client.yielded g)%list;
       Client.unread := Client.unread g |}.
Proof.
  cbn [Client.whileRead].
  destruct (Client.decode decoder st value) as [st1 text]. cbn [fst snd].
  rewrite pop_split, or_else_empty.
  destruct (Client.forLines JSON_parse (fst (cut (buffer ++ text)))) as [ys r].
  reflexivity.
Qed.

(** The lines gone through once every read is in are the complete lines of
    the buffer followed by the decoded text. *)
Lemma whileRead_yielded (reads : list (list byte)) :
  forall (st : Client.pending decoder) (buffer : string),
    cut buffer = ([], buffer) ->
    Client.yielded (Client.whileRead JSON_parse decoder st buffer reads) =
    fst (Client.forLines JSON_parse
           (fst (cut (buffer ++ snd (Client.decode decoder st (concat reads)))))).
Proof.
  induction reads as [|value rest IH]; intros st buffer Hb.
  - simpl. now rewrite append_nil_r, Hb.
  - rewrite whileRead_turn. cbv zeta. cbn [concat]. rewrite decode_app.
    cbn [fst snd]. rewrite <- append_assoc.
    rewrite (cut_append (buffer ++ snd (Client.decode decoder st value))).
    cbn [fst snd]. rewrite forLines_app.
    destruct (snd (Client.forLines JSON_parse
                     (fst (cut (buffer ++ snd (Client.decode decoder st value))))));
      [reflexivity|].
    cbn [fst Client.yielded]. now rewrite IH by apply cut_remainder.
Qed.

(** Once a turn has left by [return], later reads are never asked for. *)
Lemma whileRead_returned (r1 r2 : list (list byte)) :
  forall (st : Client.pending decoder) (buffer : string),
    cut buffer = ([], buffer) ->
    snd (Client.forLines JSON_parse
           (fst (cut (buffer ++ snd (Client.decode decoder st (concat r1)))))) = true ->
    exists k,
      Client.unread (Client.whileRead JSON_parse decoder st buffer (r1 ++ r2))
      = (k ++ r2)%list.
Proof.
  induction r1 as [|value rest IH]; intros st buffer Hb.
  - simpl. rewrite append_nil_r, Hb. discriminate.
  - cbn [app]. rewrite whileRead_turn. cbv zeta. cbn [concat]. rewrite decode_app.
    cbn [fst snd]. rewrite <- append_assoc.
    rewrite (cut_append (buffer ++ snd (Client.decode decoder st value))).
    cbn [fst snd]. rewrite forLines_app.
    destruct (snd (Client.forLines JSON_parse
                     (fst (cut (buffer ++ snd (Client.decode decoder st value))))));
      cbn [fst snd Client.unread].
    + intros _. now exists rest.
    + intros H. exact (IH _ _ (cut_remainder _) H).
Qed.

End Streaming.

Section StreamingProperties.

Variable JSON_parse : string -> option JS.JValue.
Variable decoder : Client.TextDecoder.

Lemma streamText_streaming (reads : list (list byte)) :
  Client.streamText JSON_parse decoder (Client.streaming reads) =
  Returns (Client.whileRead JSON_parse decoder (Client.fresh decoder) "" reads).
Proof. reflexivity. Qed.

(** What a drained stream yields: the loop body run over the complete lines
    of the whole decoded text, up to the first [return]. *)
Lemma fragments_lines (reads : list (list byte)) :
  Client.fragments (Client.streamText JSON_parse decoder (Client.streaming reads)) =
  fst (Client.forLines JSON_parse
         (fst (Client.pop (JS.split (decoded decoder reads) JS.LF)))).
Proof.
  rewrite streamText_streaming. cbn [Client.fragments].
  rewrite whileRead_yielded by reflexivity.
  now rewrite pop_split.
Qed.

Lemma concat_regroup (before after : list (list byte)) (a b c : list byte) :
  concat (before ++ [a; b; c] ++ after)%list
  = concat (before ++ [(a ++ b ++ c)%list] ++ after)%list.
Proof.
  rewrite !concat_app. f_equal. f_equal. simpl.
  now rewrite !app_nil_r, !app_assoc.
Qed.

Lemma forLines_sentinel (l1 l2 : list string) :
  Client.forLines JSON_parse (l1 ++ "data: [DONE]" :: l2) =
  (fst (Client.forLines JSON_parse l1), true).
Proof.
  rewrite forLines_app.
  destruct (Client.forLines JSON_parse l1) as [ys r]. cbn [fst snd].
  destruct r; [reflexivity|].
  change (Client.forLines JSON_parse ("data: [DONE]" :: l2)) with
    (@nil JS.JValue, true).
  cbn [fst snd]. now rewrite app_nil_r.
Qed.

Lemma forLines_skip (l1 l2 : list string) (line : string) :
  Client.forBody JSON_parse line = Client.Next None ->
  Client.forLines JSON_parse (l1 ++ line :: l2) = Client.forLines JSON_parse (l1 ++ l2).
Proof.
  intros H. rewrite !forLines_app.
  assert (E : Client.forLines JSON_parse (line :: l2) = Client.forLines JSON_parse l2).
  { cbn [Client.forLines]. rewrite H. now destruct (Client.forLines JSON_parse l2). }
  now rewrite E.
Qed.

Lemma forBody_malformed (line : string) :
  JS.startsWith line "data: " = true ->
  JS.slice line 6 None <> "[DONE]" ->
  JSON_parse (JS.slice line 6 None) = None ->
  Client.forBody JSON_parse line = Client.Next None.
Proof.
  intros Hd Hs Hp. unfold Client.forBody. rewrite Hd. cbn [negb].
  apply String.eqb_neq in Hs. now rewrite Hs, Hp.
Qed.

Lemma decoded_app (r1 r2 : list (list byte)) :
  exists later, decoded decoder (r1 ++ r2)%list = decoded decoder r1 ++ later.
Proof.
  unfold decoded. rewrite concat_app, decode_app. cbn [snd].
  eexists. reflexivity.
Qed.

End StreamingProperties.

(** C1.  Whatever the decoder and whatever [JSON.parse] does, a stream whose
    bytes arrive in three successive reads [a], [b], [c] yields the same
    fragments as the stream in which they arrive in the single read
    [a ++ b ++ c]; more generally the fragments depend on the concatenation of
    the reads alone.  They are those of the complete lines of the decoded
    text: the text after the last line feed is never processed. *)
Theorem streamText_split_invariant :
  forall (JSON_parse : string -> option JS.JValue) (decoder : Client.TextDecoder)
         (before after : list (list byte)) (a b c : list byte),
    Client.fragments
      (Client.streamText JSON_parse decoder
         (Client.streaming (before ++ [a; b; c] ++ after)%list))
    = Client.fragments
        (Client.streamText JSON_parse decoder
           (Client.streaming (before ++ [(a ++ b ++ c)%list] ++ after)%list))
    /\ (forall reads : list (list byte),
           Client.fragments
             (Client.streamText JSON_parse decoder (Client.streaming reads))
           = Client.fragments
               (Client.streamText JSON_parse decoder
                  (Client.streaming [concat reads])))
    /\ (forall reads : list (list byte),
           Client.fragments
             (Client.streamText JSON_parse decoder (Client.streaming reads))
           = fst (Client.forLines JSON_parse
                    (fst (Client.pop (JS.split (decoded decoder reads) JS.LF))))).
Proof.
  intros JSON_parse decoder before after a b c. repeat split.
  - rewrite !fragments_lines. unfold decoded. now rewrite concat_regroup.
  - intros reads. rewrite !fragments_lines. unfold decoded.
    cbn [concat]. now rewrite app_nil_r.
  - intros reads. apply fragments_lines.
Qed.

(** C2.  Let the decoded text of the reads [r1] be [pre], then the line
    [data: [DONE]], then anything, where [pre] is empty or ends a line.  Then
    the generator returns; it yields what the lines of [pre] yield and nothing
    else, whatever follows the sentinel in [r1] and whatever the later reads
    [r2] hold; and the reads [r2] are never asked for. *)
Theorem streamText_stops_at_sentinel :
  forall (JSON_parse : string -> option JS.JValue) (decoder : Client.TextDecoder)
         (r1 r2 : list (list byte)) (pre post : string),
    pre = "" \/ JS.endsWith pre newline = true ->
    decoded decoder r1 = pre ++ "data: [DONE]" ++ newline ++ post ->
    exists g : Client.Generated,
      Client.streamText JSON_parse decoder (Client.streaming (r1 ++ r2)%list) = Returns g /\
      Client.yielded g
      = fst (Client.forLines JSON_parse (fst (Client.pop (JS.split pre JS.LF)))) /\
      exists k, Client.unread g = (k ++ r2)%list.
Proof.
  intros JSON_parse decoder r1 r2 pre post Hpre Hdec.
  eexists. split; [apply streamText_streaming|].
  assert (L : Client.forLines JSON_parse (fst (cut (decoded decoder r1)))
              = (fst (Client.forLines JSON_parse (fst (cut pre))), true)).
  { rewrite Hdec, (cut_complete _ _ (cut_ends_newline _ Hpre)). cbn [fst].
    rewrite (cut_line post "data: [DONE]" eq_refl). cbn [fst].
    apply forLines_sentinel. }
  split.
  - rewrite whileRead_yielded by reflexivity. cbn [append].
    destruct (decoded_app decoder r1 r2) as [later E]. unfold decoded in E.
    rewrite E, cut_append. cbn [fst]. rewrite forLines_app.
    unfold decoded in L. rewrite L. cbn [fst snd]. now rewrite pop_split.
  - apply whileRead_returned; [reflexivity|]. cbn [append].
    unfold decoded in L. now rewrite L.
Qed.

Lemma streamText_stops_at_sentinel_witness :
  exists g : Client.Generated,
    Client.streamText JS.JSON_parse Client.utf8_7bit
      (Client.streaming
         ([bytes (event "Hel"); bytes (event "lo" ++ "data: [DONE]" ++ newline ++ event "never")]
          ++ [bytes (event "nor this")])%list)
    = Returns g /\
    Client.yielded g = [JS.JStr "Hel"; JS.JStr "lo"] /\
    exists k, Client.unread g = (k ++ [bytes (event "nor this")])%list.
Proof.
  destruct (streamText_stops_at_sentinel JS.JSON_parse Client.utf8_7bit
              [bytes (event "Hel"); bytes (event "lo" ++ "data: [DONE]" ++ newline ++ event "never")]
              [bytes (event "nor this")]
              (event "Hel" ++ event "lo") (event "never"))
    as [g [E [Y U]]].
  - right. reflexivity.
  - reflexivity.
  - exists g. split; [exact E|]. split; [|exact U].
    rewrite Y. reflexivity.
Defined.

(** C3.  Let the decoded text be [pre], then a data line [bad] whose payload
    is not the sentinel and which [JSON.parse] rejects, then [post], where
    [pre] is empty or ends a line.  The generator returns, without an error,
    and yields exactly what it yields for [pre] followed by [post]: the
    malformed line leaves no trace.  In particular, when nothing in [pre] ended
    the stream, a line right after the malformed one whose chunk has a
    content yields that content. *)
Theorem streamText_skips_malformed :
  forall (JSON_parse : string -> option JS.JValue) (decoder : Client.TextDecoder)
         (reads : list (list byte)) (pre bad post : string),
    pre = "" \/ JS.endsWith pre newline = true ->
    JS.includes bad newline = false ->
    JS.startsWith bad "data: " = true ->
    JS.slice bad 6 None <> "[DONE]" ->
    JSON_parse (JS.slice bad 6 None) = None ->
    decoded decoder reads = pre ++ bad ++ newline ++ post ->
    exists g : Client.Generated,
      Client.streamText JSON_parse decoder (Client.streaming reads) = Returns g /\
      Client.yielded g
      = fst (Client.forLines JSON_parse
               (fst (Client.pop (JS.split (pre ++ post) JS.LF)))) /\
      forall (good rest : string) (content : JS.JValue),
        post = good ++ newline ++ rest ->
        JS.includes good newline = false ->
        Client.forBody JSON_parse good = Client.Next (Some content) ->
        snd (Client.forLines JSON_parse (fst (Client.pop (JS.split pre JS.LF)))) = false ->
        exists later,
          Client.yielded g
          = (fst (Client.forLines JSON_parse (fst (Client.pop (JS.split pre JS.LF))))
             ++ content :: later)%list.
Proof.
  intros JSON_parse decoder reads pre bad post Hpre Hnl Hdata Hsent Hparse Hdec.
  eexists. split; [apply streamText_streaming|].
  pose proof (cut_ends_newline _ Hpre) as Cpre.
  assert (Y : Client.yielded
                (Client.whileRead JSON_parse decoder (Client.fresh decoder) "" reads)
              = fst (Client.forLines JSON_parse (fst (cut (pre ++ post))))).
  { rewrite whileRead_yielded by reflexivity. cbn [append].
    fold (decoded decoder reads). rewrite Hdec.
    rewrite !(cut_complete _ _ Cpre). cbn [fst].
    rewrite (cut_line post bad (cut_no_newline _ Hnl)). cbn [fst].
    now rewrite (forLines_skip _ _ _ _ (forBody_malformed _ _ Hdata Hsent Hparse)). }
  split; [now rewrite Y, pop_split|].
  intros good rest content -> Hgood Hbody Hopen.
  rewrite pop_split in Hopen |- *. cbn [fst] in Hopen |- *.
  rewrite Y, (cut_complete _ _ Cpre). cbn [fst].
  rewrite (cut_line rest good (cut_no_newline _ Hgood)). cbn [fst].
  rewrite forLines_app, Hopen. cbn [fst Client.forLines]. rewrite Hbody.
  destruct (Client.forLines JSON_parse (fst (cut rest))) as [ys r].
  now exists ys.
Qed.

Lemma streamText_skips_malformed_witness :
  Client.fragments
    (Client.streamText JS.JSON_parse Client.utf8_7bit
       (Client.streaming
          [bytes (event "a" ++ "data: {'choices': oops"); bytes (newline ++ event "b")]))
  = [JS.JStr "a"; JS.JStr "b"].
Proof.
  destruct (streamText_skips_malformed JS.JSON_parse Client.utf8_7bit
              [bytes (event "a" ++ "data: {'choices': oops"); bytes (newline ++ event "b")]
              (event "a") "data: {'choices': oops" (event "b"))
    as [g [E [Y _]]].
  - right. reflexivity.
  - reflexivity.
  - reflexivity.
  - discriminate.
  - reflexivity.
  - reflexivity.
  - rewrite E. cbn [Client.fragments]. rewrite Y. reflexivity.
Defined.

Example streamText_split_sample :
  Client.fragments
    (Client.streamText JS.JSON_parse Client.utf8_7bit
       (Client.streaming
          [bytes (json "data: {'cho");
           bytes (json "ices':[{'delta':{'content':'Hel");
           bytes (json "lo'}}]}" ++ newline)]))
  = [JS.JStr "Hello"].
Proof. reflexivity. Qed.

Example streamText_samples :
  Client.fragments
    (Client.streamText JS.JSON_parse Client.utf8_7bit
       (Client.streaming
          [bytes (": keep-alive" ++ newline ++ "data: null" ++ newline
                  ++ json "data: {'choices':[]}" ++ newline
                  ++ json "data: {'choices':[{'delta':{'content':''}}]}" ++ newline
                  ++ json "data: {'choices':[{'delta':{'role':'assistant'}}]}" ++ newline
                  ++ event "kept"
                  ++ json "data: {'choices':[{'delta':{'content':'no line feed'}}]}")]))
  = [JS.JStr "kept"].
Proof. reflexivity. Qed.

(** ** Fences around a JSON text *)

Section Trimming.











End Trimming.

Section Slicing.





End Slicing.

Section Scanner.

(** No JSON text ends in a backquote: the scanner is then between tokens or
    at the end of a word, where a backquote is not allowed, or inside a
    string, which the backquote does not close. *)
Lemma scanFrom_backquote_end (s : string) :
  forall st : JS.scan, JS.scanFrom st (s ++ "`") = None.
Proof.
  induction s as [|c s IH]; intros st.
  - destruct st as [|w|cs|cs|cs seen v]; try reflexivity.
    cbn [append JS.scanFrom JS.scanStep].
    change (JS.isWordChar "`") with false. cbv iota.
    now destruct (JS.tokenOfWord (JS.string_of_rev w)).
  - cbn [append JS.scanFrom]. destruct (JS.scanStep st c) as [[ts st']|]; [|reflexivity].
    now rewrite IH.
Qed.

Lemma JSON_parse_no_fence (s : string) (v : JS.JValue) :
  JS.JSON_parse s = Some v ->
  JS.startsWith s "```" = false /\ JS.startsWith s "```json" = false /\
  JS.endsWith s "```" = false.
Proof.
  intros H.
  assert (S : JS.startsWith s "`" = false).
  { destruct (JS.startsWith s "`") eqn:E; [|reflexivity].
    apply startsWith_iff in E as [r ->]. discriminate. }
  assert (P : forall p, JS.startsWith s ("`" ++ p) = false).
  { intros p. destruct (JS.startsWith s ("`" ++ p)) eqn:E; [|reflexivity].
    apply startsWith_iff in E as [r E]. rewrite <- S. symmetry.
    apply startsWith_iff. exists (p ++ r). now rewrite E, append_assoc. }
  repeat split.
  - apply (P "``").
  - apply (P "``json").
  - destruct (JS.endsWith s "```") eqn:E; [|reflexivity].
    apply endsWith_iff in E as [l ->].
    unfold JS.JSON_parse in H.
    change "```" with ("``" ++ "`") in H. rewrite <- append_assoc in H.
    now rewrite scanFrom_backquote_end in H.
Qed.

End Scanner.

Section WhiteSpaceAroundJSON.









End WhiteSpaceAroundJSON.

Section Fences.

Variable JSON_parse : string -> option JS.JValue.



End Fences.




Example generateObject_upper_case_tag :
  Client.generateObject JS.JSON_parse (Returns (fenced "JSON" "[1]"))
  = Throws (GatewayError
              ("Failed to parse JSON response: JSON" ++ newline ++ "[1]" ++ newline)
              None).
Proof. reflexivity. Qed.

(** ** Settings of the Vercel plugin *)

Section Settings.

Variable runtime : option IAgentRuntime.
Variable process : option ProcessEnv.

(** A value that counts in a condition: present and not empty. *)
Lemma firstNonEmpty_app (l1 l2 : list (option string)) :
  firstNonEmpty (l1 ++ l2) =
  match firstNonEmpty l1 with
  | Some v => Some v
  | None => firstNonEmpty l2
  end.
Proof.
  induction l1 as [|[v|] l1 IH]; simpl; [reflexivity | | exact IH].
  destruct (JS.truthy_string v); [reflexivity | exact IH].
Qed.

Lemma firstNonEmpty_or_else (a b : option string) :
  firstNonEmpty [JS.or_else a b] =
  match firstNonEmpty [a] with
  | Some v => Some v
  | None => firstNonEmpty [b]
  end.
Proof.
  destruct a as [v|]; simpl; [|reflexivity].
  destruct (JS.truthy_string v) eqn:E; simpl; [now rewrite E | reflexivity].
Qed.

Lemma firstNonEmpty_getSetting (key : string) :
  firstNonEmpty [Config.getSetting runtime process key] =
  firstNonEmpty (places runtime process key).
Proof.
  unfold Config.getSetting, places, runtimeValue.
  destruct runtime as [rt|]; [|reflexivity].
  destruct (rt key) as [v|]; [|reflexivity].
  simpl. destruct (JS.truthy_string v) eqn:E; simpl; [now rewrite E | reflexivity].
Qed.

Lemma firstNonEmpty_nonempty (l : list (option string)) (v : string) :
  firstNonEmpty l = Some v -> v <> "".
Proof.
  induction l as [|[w|] l IH]; simpl; [discriminate | | exact IH].
  destruct (JS.truthy_string w) eqn:E; [|exact IH].
  intros [= <-] ->. discriminate.
Qed.

Lemma default_to_first (a : option string) (d : string) :
  Config.default_to a d =
  match firstNonEmpty [a] with
  | Some v => v
  | None => d
  end.
Proof.
  unfold Config.default_to. destruct a as [v|]; simpl; [|reflexivity].
  now destruct (JS.truthy_string v).
Qed.

Lemma default_to_nonempty (a : option string) (d : string) :
  d <> "" -> Config.default_to a d <> "".
Proof.
  intros Hd. rewrite default_to_first.
  destruct (firstNonEmpty [a]) eqn:E; [|exact Hd].
  exact (firstNonEmpty_nonempty _ _ E).
Qed.

Lemma getApiKey_getApiKeyOptional :
  Config.getApiKey runtime process =
  match firstNonEmpty [Config.getApiKeyOptional runtime process] with
  | Some key => Returns key
  | None =>
      Throws (Error "AI_GATEWAY_API_KEY, AIGATEWAY_API_KEY, or VERCEL_OIDC_TOKEN is required")
  end.
Proof.
  unfold Config.getApiKey.
  destruct (Config.getApiKeyOptional runtime process) as [k|]; simpl; [|reflexivity].
  now destruct (JS.truthy_string k).
Qed.

End Settings.

(** X1.  The credential is the first value that is present and not empty
    among, in this order: AI_GATEWAY_API_KEY in the runtime, then in the
    environment; AIGATEWAY_API_KEY in the runtime, then in the environment;
    VERCEL_OIDC_TOKEN in the runtime, then in the environment.  [getApiKey]
    throws exactly when there is none. *)
Theorem getApiKey_precedence :
  forall (runtime : option IAgentRuntime) (process : option ProcessEnv),
    Config.getApiKey runtime process =
    match firstNonEmpty
            (places runtime process "AI_GATEWAY_API_KEY"
             ++ places runtime process "AIGATEWAY_API_KEY"
             ++ places runtime process "VERCEL_OIDC_TOKEN") with
    | Some key => Returns key
    | None =>
        Throws (Error "AI_GATEWAY_API_KEY, AIGATEWAY_API_KEY, or VERCEL_OIDC_TOKEN is required")
    end.
Proof.
  intros runtime process. rewrite getApiKey_getApiKeyOptional.
  unfold Config.getApiKeyOptional.
  rewrite !firstNonEmpty_app, !firstNonEmpty_or_else, !firstNonEmpty_getSetting.
  destruct (firstNonEmpty (places runtime process "AI_GATEWAY_API_KEY"));
    [reflexivity|].
  destruct (firstNonEmpty (places runtime process "AIGATEWAY_API_KEY")); reflexivity.
Qed.

Example getApiKey_alias_after_empty_primary :
  Config.getApiKey
    (Some (settings [("AI_GATEWAY_API_KEY", ""); ("VERCEL_OIDC_TOKEN", "oidc")]))
    (Some (settings [("AIGATEWAY_API_KEY", "alias")]))
  = Returns "alias".
Proof. reflexivity. Qed.

(** X2.  A configuration that [buildConfig] returns is complete: the key, the
    base URL and the four model names are not empty, and the number of
    dimensions and the timeout are numbers greater than zero.  That holds
    whatever the settings are, empty and malformed ones included. *)
Theorem buildConfig_complete :
  forall (runtime : option IAgentRuntime) (process : option ProcessEnv)
         (config : Config.GatewayConfig),
    Config.buildConfig runtime process = Returns config ->
    Config.apiKey config <> "" /\
    Config.baseUrl config <> "" /\
    Config.smallModel config <> "" /\
    Config.largeModel config <> "" /\
    Config.embeddingModel config <> "" /\
    Config.imageModel config <> "" /\
    JS.positive_number (Config.embeddingDimensions config) = true /\
    JS.positive_number (Config.timeoutMs config) = true.
Proof.
  intros runtime process config. unfold Config.buildConfig.
  rewrite getApiKey_getApiKeyOptional.
  destruct (firstNonEmpty [Config.getApiKeyOptional runtime process]) as [key|] eqn:K;
    [|discriminate].
  intros [= <-]. cbn [Config.apiKey Config.baseUrl Config.smallModel Config.largeModel
                      Config.embeddingModel Config.imageModel
                      Config.embeddingDimensions Config.timeoutMs].
  split; [exact (firstNonEmpty_nonempty _ _ K)|].
  repeat split; try (apply default_to_nonempty; discriminate).
  - destruct (getEmbeddingDimensions_cases runtime process)
      as [[text [_ [P E]]] | [_ E]]; rewrite E; [exact P | reflexivity].
  - destruct (getTimeoutMs_cases runtime process)
      as [[text [_ [P E]]] | [_ E]]; rewrite E; [exact P | reflexivity].
Qed.

Lemma buildConfig_complete_witness :
  exists config : Config.GatewayConfig,
    Config.buildConfig
      (Some (settings [("VERCEL_OIDC_TOKEN", "oidc"); ("AI_GATEWAY_BASE_URL", "");
                       ("AI_GATEWAY_TIMEOUT_MS", "-5")]))
      None
    = Returns config /\
    Config.apiKey config <> "" /\
    Config.baseUrl config <> "" /\
    JS.positive_number (Config.timeoutMs config) = true.
Proof.
  eexists. split; [reflexivity|].
  destruct (buildConfig_complete
              (Some (settings [("VERCEL_OIDC_TOKEN", "oidc"); ("AI_GATEWAY_BASE_URL", "");
                               ("AI_GATEWAY_TIMEOUT_MS", "-5")]))
              None _ eq_refl) as [A [B [_ [_ [_ [_ [_ T]]]]]]].
  exact (conj A (conj B T)).
Defined.

(** ** The streaming parser, line by line *)

Section StreamLines.

Variable JSON_parse : string -> option JS.JValue.
Variable decoder : Client.TextDecoder.

Lemma linesOf_cut (text : string) : linesOf text = fst (cut text).
Proof. unfold linesOf. now rewrite pop_split. Qed.

Lemma forBody_truthy (line : string) (v : JS.JValue) :
  Client.forBody JSON_parse line = Client.Next (Some v) -> JS.truthy v = true.
Proof.
  unfold Client.forBody.
  destruct (negb (JS.startsWith line "data: ")); [discriminate|].
  destruct (String.eqb (JS.slice line 6 None) "[DONE]"); [discriminate|].
  destruct (JSON_parse (JS.slice line 6 None)) as [chunk|]; [|discriminate].
  set (content := JS.chain _ _).
  assert (H : (if JS.truthy_opt content then Client.Next content else Client.Next None)
              = Client.Next (Some v) -> JS.truthy v = true).
  { destruct (JS.truthy_opt content) eqn:T; [|discriminate].
    intros [= E]. now rewrite E in T. }
  destruct chunk; solve [discriminate | exact H].
Qed.

Lemma forLines_truthy (lines : list string) :
  Forall (fun v => JS.truthy v = true) (fst (Client.forLines JSON_parse lines)).
Proof.
  induction lines as [|line rest IH]; [constructor|].
  cbn [Client.forLines].
  destruct (Client.forBody JSON_parse line) as [[v|]|] eqn:B; [| |constructor].
  - destruct (Client.forLines JSON_parse rest) as [ys r]. cbn [fst] in *.
    constructor; [exact (forBody_truthy _ _ B) | exact IH].
  - now destruct (Client.forLines JSON_parse rest) as [ys r].
Qed.

Lemma whileRead_truthy (reads : list (list byte)) :
  forall (st : Client.pending decoder) (buffer : string),
    Forall (fun v => JS.truthy v = true)
      (Client.yielded (Client.whileRead JSON_parse decoder st buffer reads)).
Proof.
  induction reads as [|value rest IH]; intros st buffer; [constructor|].
  rewrite whileRead_turn. cbv zeta.
  destruct (snd (Client.forLines JSON_parse _)); cbn [Client.yielded].
  - apply forLines_truthy.
  - apply Forall_app. split; [apply forLines_truthy | apply IH].
Qed.

Lemma fragments_linesOf (reads : list (list byte)) :
  Client.fragments (Client.streamText JSON_parse decoder (Client.streaming reads)) =
  fst (Client.forLines JSON_parse (linesOf (decoded decoder reads))).
Proof. apply fragments_lines. Qed.

End StreamLines.

(** X3.  Whatever the response, the decoder and [JSON.parse] are, every value
    the generator yields is truthy: it never yields an empty string, [null],
    [false] or zero. *)
Theorem streamText_yields_truthy :
  forall (JSON_parse : string -> option JS.JValue) (decoder : Client.TextDecoder)
         (response : Client.Response),
    Forall (fun v => JS.truthy v = true)
      (Client.fragments (Client.streamText JSON_parse decoder response)).
Proof.
  intros JSON_parse decoder response. unfold Client.streamText.
  destruct (negb (Client.ok response)); [constructor|].
  destruct (Client.body response) as [reads|]; [|constructor].
  apply whileRead_truthy.
Qed.

(** X4.  A complete line that does not start with the six code units
    [data: ] contributes nothing and ends nothing: the stream yields what it
    yields without that line.  Comments, [event:] lines, empty lines and a
    data line written without the space after the colon are all of that kind. *)
Theorem streamText_ignores_other_lines :
  forall (JSON_parse : string -> option JS.JValue) (decoder : Client.TextDecoder)
         (reads : list (list byte)) (pre line post : string),
    pre = "" \/ JS.endsWith pre newline = true ->
    JS.includes line newline = false ->
    JS.startsWith line "data: " = false ->
    decoded decoder reads = pre ++ line ++ newline ++ post ->
    Client.fragments (Client.streamText JSON_parse decoder (Client.streaming reads))
    = fst (Client.forLines JSON_parse (linesOf (pre ++ post))).
Proof.
  intros JSON_parse decoder reads pre line post Hpre Hnl Hdata Hdec.
  rewrite fragments_linesOf, Hdec, !linesOf_cut.
  pose proof (cut_ends_newline _ Hpre) as Cpre.
  rewrite !(cut_complete _ _ Cpre). cbn [fst].
  rewrite (cut_line post line (cut_no_newline _ Hnl)). cbn [fst].
  apply f_equal, forLines_skip. unfold Client.forBody. now rewrite Hdata.
Qed.

Lemma streamText_ignores_other_lines_witness :
  Client.fragments
    (Client.streamText JS.JSON_parse Client.utf8_7bit
       (Client.streaming
          [bytes (event "a" ++ json "data:{'choices':[{'delta':{'content':'lost'}}]}"
                  ++ newline ++ event "b")]))
  = [JS.JStr "a"; JS.JStr "b"].
Proof.
  rewrite (streamText_ignores_other_lines JS.JSON_parse Client.utf8_7bit
             [bytes (event "a" ++ json "data:{'choices':[{'delta':{'content':'lost'}}]}"
                     ++ newline ++ event "b")]
             (event "a") (json "data:{'choices':[{'delta':{'content':'lost'}}]}")
             (event "b")).
  - reflexivity.
  - right. reflexivity.
  - reflexivity.
  - reflexivity.
  - reflexivity.
Defined.

(** X5.  Lines are dealt with one after the other.  When the decoded text is
    [first] followed by [second], and [first] is empty or ends a line, the
    stream yields what the lines of [first] yield and then, unless the
    sentinel stood in [first], what the lines of [second] yield. *)
Theorem streamText_sequential :
  forall (JSON_parse : string -> option JS.JValue) (decoder : Client.TextDecoder)
         (reads : list (list byte)) (first second : string),
    first = "" \/ JS.endsWith first newline = true ->
    decoded decoder reads = first ++ second ->
    Client.fragments (Client.streamText JSON_parse decoder (Client.streaming reads))
    = (fst (Client.forLines JSON_parse (linesOf first))
       ++ (if snd (Client.forLines JSON_parse (linesOf first)) then []
           else fst (Client.forLines JSON_parse (linesOf second))))%list.
Proof.
  intros JSON_parse decoder reads first second Hfirst Hdec.
  rewrite fragments_linesOf, Hdec, !linesOf_cut.
  rewrite (cut_complete _ _ (cut_ends_newline _ Hfirst)). cbn [fst].
  rewrite forLines_app.
  destruct (snd (Client.forLines JSON_parse (fst (cut first))));
    cbn [fst]; [now rewrite app_nil_r | reflexivity].
Qed.

Lemma streamText_sequential_witness :
  Client.fragments
    (Client.streamText JS.JSON_parse Client.utf8_7bit
       (Client.streaming [bytes (event "one"); bytes (event "two" ++ "data: {")]))
  = [JS.JStr "one"; JS.JStr "two"].
Proof.
  rewrite (streamText_sequential JS.JSON_parse Client.utf8_7bit
             [bytes (event "one"); bytes (event "two" ++ "data: {")]
             (event "one") (event "two" ++ "data: {")).
  - reflexivity.
  - right. reflexivity.
  - reflexivity.
Defined.

(** ** Provider resolution *)

Section ProviderResolution.

Variable ENV_KEYS : list (Gateway.ModelProviderName * string).
Variable runtime : IAgentRuntime.
Variable process : ProcessEnv.

Lemma firstWithCredential_has (providers : list Gateway.ModelProviderName)
    (provider : Gateway.ModelProviderName) :
  Gateway.firstWithCredential ENV_KEYS runtime process providers = Some provider ->
  In provider providers /\
  Gateway.hasCredential runtime process (Gateway.envKeyOf ENV_KEYS provider) = true.
Proof.
  induction providers as [|p rest IH]; simpl; [discriminate|].
  destruct (Gateway.hasCredential runtime process (Gateway.envKeyOf ENV_KEYS p)) eqn:E.
  - intros [= <-]. split; [now left | exact E].
  - intros H. destruct (IH H) as [I C]. split; [now right | exact C].
Qed.

Lemma firstWithCredential_none (providers : list Gateway.ModelProviderName) :
  Gateway.firstWithCredential ENV_KEYS runtime process providers = None ->
  forall provider, In provider providers ->
    Gateway.hasCredential runtime process (Gateway.envKeyOf ENV_KEYS provider) = false.
Proof.
  induction providers as [|p rest IH]; simpl; [contradiction|].
  destruct (Gateway.hasCredential runtime process (Gateway.envKeyOf ENV_KEYS p)) eqn:E;
    [discriminate|].
  intros H provider [<- | I]; [exact E | exact (IH H _ I)].
Qed.

Lemma firstWithCredential_existsb (providers : list Gateway.ModelProviderName) :
  existsb (fun provider =>
             Gateway.hasCredential runtime process (Gateway.envKeyOf ENV_KEYS provider))
          providers
  = match Gateway.firstWithCredential ENV_KEYS runtime process providers with
    | Some _ => true
    | None => false
    end.
Proof.
  induction providers as [|p rest IH]; simpl; [reflexivity|].
  now destruct (Gateway.hasCredential runtime process (Gateway.envKeyOf ENV_KEYS p)).
Qed.

End ProviderResolution.

(** X6.  Resolving is idempotent: the provider [resolveProvider] gives
    resolves to itself, whichever provider was preferred, whatever [ENV_KEYS]
    lists and whatever credentials there are. *)
Theorem resolveProvider_idempotent :
  forall (ENV_KEYS : list (Gateway.ModelProviderName * string))
         (runtime : IAgentRuntime) (process : ProcessEnv)
         (preferred : Gateway.ModelProviderName),
    Gateway.resolveProvider ENV_KEYS runtime process
      (Gateway.resolveProvider ENV_KEYS runtime process preferred)
    = Gateway.resolveProvider ENV_KEYS runtime process preferred.
Proof.
  intros ENV_KEYS runtime process preferred.
  unfold Gateway.resolveProvider at 2.
  destruct (Gateway.hasCredential runtime process
              (Gateway.envKeyOf ENV_KEYS preferred)) eqn:P.
  { unfold Gateway.resolveProvider. now rewrite P. }
  destruct (Gateway.hasCredential runtime process "AI_GATEWAY_API_KEY") eqn:G.
  { unfold Gateway.resolveProvider. cbv zeta. rewrite P, G.
    now destruct (Gateway.hasCredential runtime process
                    (Gateway.envKeyOf ENV_KEYS "vercel-gateway")). }
  destruct (Gateway.hasCredential runtime process "OPENROUTER_API_KEY") eqn:O.
  { unfold Gateway.resolveProvider. cbv zeta. rewrite P, G, O.
    now destruct (Gateway.hasCredential runtime process
                    (Gateway.envKeyOf ENV_KEYS "openrouter")). }
  destruct (Gateway.firstWithCredential ENV_KEYS runtime process (map fst ENV_KEYS))
    as [provider|] eqn:F.
  - destruct (firstWithCredential_has _ _ _ _ _ F) as [_ C].
    unfold Gateway.resolveProvider. cbv zeta. now rewrite P, G, O, F, C.
  - unfold Gateway.resolveProvider. now rewrite P, G, O, F.
Qed.

(** X7.  The fallback does not depend on what was preferred.  Take two
    preferred providers that both lack a credential.  When some credential can
    be found (the gateway key, the OpenRouter key, or the key of a provider
    listed in [ENV_KEYS]) both resolve to the same provider.  When none can be
    found, each preferred provider is returned unchanged. *)
Theorem resolveProvider_common_fallback :
  forall (ENV_KEYS : list (Gateway.ModelProviderName * string))
         (runtime : IAgentRuntime) (process : ProcessEnv)
         (first second : Gateway.ModelProviderName),
    Gateway.hasCredential runtime process (Gateway.envKeyOf ENV_KEYS first) = false ->
    Gateway.hasCredential runtime process (Gateway.envKeyOf ENV_KEYS second) = false ->
    (credentialFound ENV_KEYS runtime process = true ->
       Gateway.resolveProvider ENV_KEYS runtime process first
       = Gateway.resolveProvider ENV_KEYS runtime process second) /\
    (credentialFound ENV_KEYS runtime process = false ->
       Gateway.resolveProvider ENV_KEYS runtime process first = first /\
       Gateway.resolveProvider ENV_KEYS runtime process second = second).
Proof.
  intros ENV_KEYS runtime process first second H1 H2.
  unfold credentialFound, Gateway.resolveProvider.
  rewrite H1, H2, firstWithCredential_existsb.
  destruct (Gateway.hasCredential runtime process "AI_GATEWAY_API_KEY");
    [split; [reflexivity | discriminate]|].
  destruct (Gateway.hasCredential runtime process "OPENROUTER_API_KEY");
    [split; [reflexivity | discriminate]|].
  destruct (Gateway.firstWithCredential ENV_KEYS runtime process (map fst ENV_KEYS));
    simpl; split; (reflexivity || discriminate || (intros _; split; reflexivity)).
Qed.

Lemma resolveProvider_common_fallback_witness :
  Gateway.resolveProvider
    [("openai", "OPENAI_API_KEY"); ("anthropic", "ANTHROPIC_API_KEY");
     ("google", "GOOGLE_API_KEY")]
    (settings [("GOOGLE_API_KEY", "g-1")]) (settings [])
    "openai"
  = Gateway.resolveProvider
      [("openai", "OPENAI_API_KEY"); ("anthropic", "ANTHROPIC_API_KEY");
       ("google", "GOOGLE_API_KEY")]
      (settings [("GOOGLE_API_KEY", "g-1")]) (settings [])
      "anthropic" /\
  (Gateway.resolveProvider
     [("openai", "OPENAI_API_KEY"); ("anthropic", "ANTHROPIC_API_KEY");
      ("google", "GOOGLE_API_KEY")]
     (settings []) (settings [])
     "openai"
   = "openai" /\
   Gateway.resolveProvider
     [("openai", "OPENAI_API_KEY"); ("anthropic", "ANTHROPIC_API_KEY");
      ("google", "GOOGLE_API_KEY")]
     (settings []) (settings [])
     "anthropic"
   = "anthropic").
Proof.
  split.
  - apply (proj1 (resolveProvider_common_fallback
                    [("openai", "OPENAI_API_KEY"); ("anthropic", "ANTHROPIC_API_KEY");
                     ("google", "GOOGLE_API_KEY")]
                    (settings [("GOOGLE_API_KEY", "g-1")]) (settings [])
                    "openai" "anthropic" eq_refl eq_refl)).
    reflexivity.
  - apply (proj2 (resolveProvider_common_fallback
                    [("openai", "OPENAI_API_KEY"); ("anthropic", "ANTHROPIC_API_KEY");
                     ("google", "GOOGLE_API_KEY")]
                    (settings []) (settings [])
                    "openai" "anthropic" eq_refl eq_refl)).
    reflexivity.
Defined.

(** The resolved provider without any credential is whatever was preferred,
    so the two results differ when the preferences do. *)
Example resolveProvider_no_credential :
  Gateway.resolveProvider [("openai", "OPENAI_API_KEY"); ("google", "GOOGLE_API_KEY")]
    (settings []) (settings []) "openai"
  <> Gateway.resolveProvider [("openai", "OPENAI_API_KEY"); ("google", "GOOGLE_API_KEY")]
       (settings []) (settings []) "google".
Proof. discriminate. Qed.

(** ** The degrading embedding handler and the network *)

Section ResilientRequests.

Variable runtime : IAgentRuntime.
Variable process : ProcessEnv.

Lemma trim_empty_falsy (s : string) :
  JS.truthy_string s = false -> JS.trim s = "".
Proof.
  unfold JS.truthy_string. intros H.
  apply negb_false_iff, String.eqb_eq in H. now subst.
Qed.

End ResilientRequests.

(** X8.  For the probe [null], for an object without a text or with a text
    that is not a string, and for a text that is empty or blank, the degrading
    handler makes no request: what it does is the same whatever [fetch] and
    [JSON.parse] are. *)
Theorem resilient_embedding_no_request :
  forall (fetch1 fetch2 : Resilient.Request -> Resilient.Fetched)
         (parse1 parse2 : string -> option JS.JValue)
         (typeErrorMessage : string -> string)
         (runtime : IAgentRuntime) (process : ProcessEnv)
         (params : Resilient.TextEmbeddingInput),
    nothingToEmbed params ->
    Resilient.handleTextEmbedding fetch1 parse1 typeErrorMessage runtime process params
    = Resilient.handleTextEmbedding fetch2 parse2 typeErrorMessage runtime process
        params.
Proof.
  intros fetch1 fetch2 parse1 parse2 typeErrorMessage runtime process params H.
  unfold Resilient.handleTextEmbedding.
  destruct (Resilient.getAIGatewayConfig runtime process) as [config|e];
    [|reflexivity].
  destruct params as [|s|[v|]]; cbn in H |- *; try reflexivity.
  - now rewrite H.
  - destruct v as [|b|n|t|items|members]; cbn [JS.truthy];
      try (now destruct b); try (now destruct (JS.truthy_number n));
      try reflexivity.
    destruct (JS.truthy_string t); [now rewrite H | reflexivity].
Qed.

Lemma resilient_embedding_no_request_witness :
  Resilient.handleTextEmbedding
    (fun _ => Resilient.Rejected "offline") (fun _ => None)
    (fun name => name ++ " is not a function")
    (settings [("AI_GATEWAY_API_KEY", "k")]) (settings [])
    (Resilient.text_of_string "   ")
  = Resilient.handleTextEmbedding
      (fun _ => Resilient.Responded
                  {| Resilient.ok := true; Resilient.status := 200;
                     Resilient.statusText := "OK";
                     Resilient.text := inl (json "{'data':[{'embedding':[1]}]}") |})
      JS.JSON_parse
      (fun name => name ++ " is not a function")
      (settings [("AI_GATEWAY_API_KEY", "k")]) (settings [])
      (Resilient.text_of_string "   ").
Proof.
  apply resilient_embedding_no_request. reflexivity.
Defined.

(** X9.  For a text that is not blank the handler makes one request, and what
    it returns depends on the network through the answer to that request
    alone.  The request is a POST that carries the key as a bearer token and
    the text exactly as given, neither trimmed nor cut.  It goes to the
    OpenAI-compatible URL when one is set and not empty; otherwise to the base
    URL, followed by the account and the workspace when both are set and not
    empty; in each case followed by [/embeddings]. *)
Theorem resilient_embedding_request :
  forall (fetch : Resilient.Request -> Resilient.Fetched)
         (JSON_parse : string -> option JS.JValue)
         (typeErrorMessage : string -> string)
         (runtime : IAgentRuntime) (process : ProcessEnv)
         (config : Resilient.AIGatewayConfig)
         (params : Resilient.TextEmbeddingInput) (text : string),
    Resilient.getAIGatewayConfig runtime process = Returns config ->
    params = Resilient.text_of_string text \/
    params = Resilient.text_of_params (Some (JS.JStr text)) ->
    JS.trim text <> "" ->
    let request :=
      {| Resilient.request_url :=
           match firstNonEmpty [Resilient.openaiCompatibleUrl config] with
           | Some compatible => compatible ++ "/embeddings"
           | None =>
               match firstNonEmpty [Resilient.accountId config],
                     firstNonEmpty [Resilient.workspace config] with
               | Some account, Some space =>
                   Resilient.baseUrl config ++ "/" ++ account ++ "/" ++ space
                   ++ "/embeddings"
               | _, _ => Resilient.baseUrl config ++ "/embeddings"
               end
           end;
         Resilient.method := "POST";
         Resilient.headers :=
           [("Content-Type", "application/json");
            ("Authorization", "Bearer " ++ Resilient.apiKey config)];
         Resilient.request_body :=
           Some (JS.JObj [("model", JS.JStr (Resilient.embeddingModel config));
                          ("input", JS.JStr text)]) |} in
    Resilient.handleTextEmbedding fetch JSON_parse typeErrorMessage runtime process
      params
    = Resilient.handleTextEmbedding (fun _ => fetch request) JSON_parse
        typeErrorMessage runtime process params.
Proof.
  intros fetch JSON_parse typeErrorMessage runtime process config params text
    Hc Hp Ht request.
  assert (T : JS.truthy_string text = true).
  { destruct (JS.truthy_string text) eqn:E; [reflexivity|].
    now apply trim_empty_falsy in E. }
  assert (R : forall f,
             Resilient.makeOpenAIRequest f JSON_parse config "/embeddings"
               (Some (JS.JObj [("model", JS.JStr (Resilient.embeddingModel config));
                               ("input", JS.JStr text)]))
             = Resilient.makeRequest (fun _ => f request) JSON_parse config
                 "/embeddings" "POST" None [] true).
  { intros f. unfold Resilient.makeOpenAIRequest, Resilient.makeRequest, request.
    cbn [JS.truthy_opt JS.truthy app].
    destruct (Resilient.openaiCompatibleUrl config) as [u|]; cbn [JS.or_else firstNonEmpty].
    - destruct (JS.truthy_string u); [reflexivity|].
      destruct (Resilient.accountId config) as [a|]; cbn [JS.or_else firstNonEmpty];
        [destruct (JS.truthy_string a)|];
        (destruct (Resilient.workspace config) as [w|]; cbn [JS.or_else firstNonEmpty];
         [destruct (JS.truthy_string w)|]); reflexivity.
    - destruct (Resilient.accountId config) as [a|]; cbn [JS.or_else firstNonEmpty];
        [destruct (JS.truthy_string a)|];
        (destruct (Resilient.workspace config) as [w|]; cbn [JS.or_else firstNonEmpty];
         [destruct (JS.truthy_string w)|]); reflexivity. }
  unfold Resilient.handleTextEmbedding. rewrite Hc.
  destruct Hp as [-> | ->]; cbn match; cbn [JS.truthy]; rewrite ?T; cbn match;
    (destruct (negb (JS.truthy_string (JS.trim text))); [reflexivity|]);
    now rewrite (R fetch), (R (fun _ => fetch request)).
Qed.

Lemma resilient_embedding_request_witness :
  Resilient.handleTextEmbedding
    (fun request =>
       if String.eqb (Resilient.request_url request)
            "https://gateway.ai.cloudflare.com/v1/acct/main/embeddings"
       then Resilient.Responded
              {| Resilient.ok := true; Resilient.status := 200;
                 Resilient.statusText := "OK";
                 Resilient.text := inl (json "{'data':[{'embedding':[1,2]}]}") |}
       else Resilient.Rejected "unknown host")
    JS.JSON_parse
    (fun name => name ++ " is not a function")
    (settings [("AI_GATEWAY_API_KEY", "k"); ("AI_GATEWAY_ACCOUNT_ID", "acct");
               ("AI_GATEWAY_WORKSPACE", "main");
               ("AI_GATEWAY_OPENAI_COMPATIBLE_URL", "")])
    (settings [])
    (Resilient.text_of_string " hello ")
  = Returns {| Resilient.embedding := [JS.JNum (JS.int 1); JS.JNum (JS.int 2)];
               Resilient.emitted := [] |}.
Proof.
  rewrite (resilient_embedding_request _ JS.JSON_parse
             (fun name => name ++ " is not a function")
             (settings [("AI_GATEWAY_API_KEY", "k"); ("AI_GATEWAY_ACCOUNT_ID", "acct");
                        ("AI_GATEWAY_WORKSPACE", "main");
                        ("AI_GATEWAY_OPENAI_COMPATIBLE_URL", "")])
             (settings []) _ (Resilient.text_of_string " hello ") " hello " eq_refl).
  - reflexivity.
  - left. reflexivity.
  - discriminate.
Defined.

(** ** Requests of the Vercel client *)

Section Requests.

Variable fetch : GatewayClient.Call -> GatewayClient.Fetched.
Variable toText : JS.JValue -> string + string.

Lemma caught_is_GatewayError (error : GatewayClient.Thrown) :
  exists message,
    GatewayClient.caught error = GatewayError message None /\
    (message = "Request timeout" \/ JS.startsWith message "Network error: " = true).
Proof.
  destruct error; eexists; (split; [reflexivity|]); [now left | now right | now right].
Qed.

End Requests.

(** X10.  [request] lets nothing out but a GatewayError.  It returns only
    the JSON of a response whose status is a success.  An error that carries a
    status code comes from a response whose status is not a success, and
    carries the status of that response; an error without a status code reads
    [Request timeout] or starts with [Network error: ]. *)
Theorem request_outcomes :
  forall (fetch : GatewayClient.Call -> GatewayClient.Fetched)
         (toText : JS.JValue -> string + string)
         (config : Config.GatewayConfig) (endpoint method : string) (body : JS.JValue),
    let call :=
      {| GatewayClient.call_url := Client.url config endpoint;
         GatewayClient.call_method := method;
         GatewayClient.call_headers :=
           [("Authorization", "Bearer " ++ Config.apiKey config);
            ("Content-Type", "application/json")];
         GatewayClient.call_body := body |} in
    match GatewayClient.request fetch toText config endpoint method body with
    | Returns data =>
        exists response,
          fetch call = GatewayClient.Responded response /\
          GatewayClient.ok response = true /\
          GatewayClient.json response = inl data
    | Throws (GatewayError message (Some code)) =>
        exists response,
          fetch call = GatewayClient.Responded response /\
          GatewayClient.ok response = false /\
          code = GatewayClient.status response /\
          JS.startsWith message ("Gateway API error (" ++ decimal code ++ "): ") = true
    | Throws (GatewayError message None) =>
        message = "Request timeout" \/ JS.startsWith message "Network error: " = true
    | Throws (Error _) => False
    end.
Proof.
  intros fetch toText config endpoint method body call.
  unfold GatewayClient.request. fold call.
  destruct (fetch call) as [error|response].
  { destruct (caught_is_GatewayError error) as [m [-> H]]. exact H. }
  assert (S : forall text,
             JS.startsWith
               ("Gateway API error (" ++ decimal (GatewayClient.status response)
                ++ "): " ++ text)
               ("Gateway API error (" ++ decimal (GatewayClient.status response) ++ "): ")
             = true).
  { intros text.
    replace ("Gateway API error (" ++ decimal (GatewayClient.status response)
             ++ "): " ++ text)
      with (("Gateway API error (" ++ decimal (GatewayClient.status response) ++ "): ")
            ++ text).
    - apply startsWith_append.
    - cbn [append]. rewrite !append_assoc. reflexivity. }
  assert (F : forall text,
             exists r,
               GatewayClient.Responded response = GatewayClient.Responded r /\
               GatewayClient.ok r = GatewayClient.ok response /\
               GatewayClient.status response = GatewayClient.status r /\
               JS.startsWith
                 ("Gateway API error (" ++ decimal (GatewayClient.status response)
                  ++ "): " ++ text)
                 ("Gateway API error (" ++ decimal (GatewayClient.status response) ++ "): ")
               = true).
  { intros text. exists response. repeat split. apply S. }
  destruct (GatewayClient.ok response) eqn:O; cbn [negb].
  - destruct (GatewayClient.json response) as [data|error] eqn:J.
    + exists response. repeat split; assumption.
    + destruct (caught_is_GatewayError error) as [m [-> H]]. exact H.
  - destruct (GatewayClient.json response) as [errorData|error];
      [|exact (F _)].
    destruct (JS.chain _ _) as [found|]; [|exact (F _)].
    destruct (JS.truthy found); [|exact (F _)].
    destruct found; try exact (F _);
      (destruct (toText _) as [text|raised]; [exact (F _) | now right]).
Qed.

(** X11.  What an HTTP error says.  When the body of the failed response is
    JSON with a string that is not empty at [error.message], the message of
    the GatewayError ends with that string; when the body cannot be read as
    JSON, or has nothing truthy at [error.message], it ends with the status
    text.  Either way it carries the status code. *)
Theorem request_http_error :
  forall (fetch : GatewayClient.Call -> GatewayClient.Fetched)
         (toText : JS.JValue -> string + string)
         (config : Config.GatewayConfig) (endpoint method : string) (body : JS.JValue)
         (response : GatewayClient.Response),
    fetch {| GatewayClient.call_url := Client.url config endpoint;
             GatewayClient.call_method := method;
             GatewayClient.call_headers :=
               [("Authorization", "Bearer " ++ Config.apiKey config);
                ("Content-Type", "application/json")];
             GatewayClient.call_body := body |}
    = GatewayClient.Responded response ->
    GatewayClient.ok response = false ->
    let said :=
      match GatewayClient.json response with
      | inl errorData =>
          JS.chain (JS.chain (Some errorData) (JS.member "error")) (JS.member "message")
      | inr _ => None
      end in
    let failure text :=
      Throws (GatewayError
                ("Gateway API error (" ++ decimal (GatewayClient.status response) ++ "): "
                 ++ text)
                (Some (GatewayClient.status response))) in
    (forall text, said = Some (JS.JStr text) -> text <> "" ->
       GatewayClient.request fetch toText config endpoint method body = failure text) /\
    (JS.truthy_opt said = false ->
       GatewayClient.request fetch toText config endpoint method body
       = failure (GatewayClient.statusText response)).
Proof.
  intros fetch toText config endpoint method body response Hf Ho said failure.
  unfold GatewayClient.request. rewrite Hf, Ho. cbn [negb].
  subst said. destruct (GatewayClient.json response) as [errorData|error].
  - split.
    + intros text -> Hne. cbn [JS.truthy JS.truthy_string].
      apply String.eqb_neq in Hne. unfold JS.truthy_string. now rewrite Hne.
    + destruct (JS.chain _ _) as [found|]; [|reflexivity].
      cbn [JS.truthy_opt]. now intros ->.
  - split; [discriminate | reflexivity].
Qed.

Lemma request_http_error_witness :
  GatewayClient.request
    (fun _ => GatewayClient.Responded
                {| GatewayClient.ok := false; GatewayClient.status := 429;
                   GatewayClient.statusText := "Too Many Requests";
                   GatewayClient.json :=
                     inl (JS.JObj [("error", JS.JObj [("message", JS.JStr "slow down")])]) |})
    (fun _ => inl "") (configured "https://ai-gateway.vercel.sh/v1/")
    "/embeddings" "POST" JS.JNull
  = Throws (GatewayError "Gateway API error (429): slow down" (Some 429%N)).
Proof.
  refine (proj1 (request_http_error _ (fun _ => inl "") _ "/embeddings" "POST" JS.JNull
                   {| GatewayClient.ok := false; GatewayClient.status := 429;
                      GatewayClient.statusText := "Too Many Requests";
                      GatewayClient.json :=
                        inl (JS.JObj [("error", JS.JObj [("message", JS.JStr "slow down")])]) |}
                   eq_refl eq_refl) "slow down" eq_refl _).
  discriminate.
Defined.

Example request_error_samples :
  let answer status statusText json :=
    GatewayClient.request
      (fun _ => GatewayClient.Responded
                  {| GatewayClient.ok := false; GatewayClient.status := status;
                     GatewayClient.statusText := statusText;
                     GatewayClient.json := json |})
      (fun _ => inl "") (configured "https://ai-gateway.vercel.sh/v1")
      "/chat/completions" "POST" JS.JNull in
  answer 500%N "Internal Server Error" (inr (GatewayClient.OtherError "Unexpected token <"))
  = Throws (GatewayError "Gateway API error (500): Internal Server Error" (Some 500%N)) /\
  answer 401%N "Unauthorized" (inl (JS.JObj [("error", JS.JObj [("message", JS.JStr "")])]))
  = Throws (GatewayError "Gateway API error (401): Unauthorized" (Some 401%N)) /\
  answer 404%N "Not Found" (inl JS.JNull)
  = Throws (GatewayError "Gateway API error (404): Not Found" (Some 404%N)) /\
  GatewayClient.request (fun _ => GatewayClient.Rejected GatewayClient.AbortError)
    (fun _ => inl "") (configured "https://ai-gateway.vercel.sh/v1")
    "/chat/completions" "POST" JS.JNull
  = Throws (GatewayError "Request timeout" None) /\
  GatewayClient.request
    (fun _ => GatewayClient.Responded
                {| GatewayClient.ok := true; GatewayClient.status := 200;
                   GatewayClient.statusText := "OK";
                   GatewayClient.json := inr (GatewayClient.OtherError "Unexpected end of JSON input") |})
    (fun _ => inl "") (configured "https://ai-gateway.vercel.sh/v1")
    "/chat/completions" "POST" JS.JNull
  = Throws (GatewayError "Network error: Unexpected end of JSON input" None).
Proof. repeat split. Qed.

(** ** What a chat request carries *)

Section ChatBodies.

Lemma lookup_app (key : string) (l1 l2 : list (string * JS.JValue)) :
  JS.lookup key (l1 ++ l2) =
  match JS.lookup key l2 with
  | Some v => Some v
  | None => JS.lookup key l1
  end.
Proof.
  induction l1 as [|[k v] l1 IH]; cbn [app JS.lookup].
  - now destruct (JS.lookup key l2).
  - rewrite IH. destruct (JS.lookup key l2); [reflexivity|].
    reflexivity.
Qed.

Lemma lookup_field (key name : string) (value : option JS.number) :
  JS.lookup key (GatewayClient.field name value) =
  if String.eqb name key then option_map JS.JNum value else None.
Proof.
  destruct value; cbn; now destruct (String.eqb name key).
Qed.

End ChatBodies.

Ltac body_lookup :=
  unfold GatewayClient.field;
  repeat match goal with
         | |- context [match ?o with Some _ => _ | None => _ end] =>
             is_var o; destruct o
         end;
  cbn [JS.lookup app String.eqb Ascii.eqb Bool.eqb option_map];
  try reflexivity.

(** X12.  The model of a text request decides what goes with it.  For a
    model outside the no-temperature list the body carries the temperature,
    the two penalties, the stop sequences and [max_tokens], each when the
    caller gave it, and never [max_completion_tokens].  For a model on the
    list it carries none of those five: the limit of tokens travels as
    [max_completion_tokens] and the rest is dropped. *)
Theorem generateText_body_by_model :
  forall (config : Config.GatewayConfig) (params : GatewayClient.TextGenerationParams.t),
    let model :=
      Config.default_to (GatewayClient.TextGenerationParams.model params)
        (Config.largeModel config) in
    let body := GatewayClient.generateTextBody config params in
    JS.lookup "model" body = Some (JS.JStr model) /\
    (Config.modelSupportsTemperature model = true ->
       JS.lookup "temperature" body
       = option_map JS.JNum (GatewayClient.TextGenerationParams.temperature params) /\
       JS.lookup "frequency_penalty" body
       = option_map JS.JNum (GatewayClient.TextGenerationParams.frequencyPenalty params) /\
       JS.lookup "presence_penalty" body
       = option_map JS.JNum (GatewayClient.TextGenerationParams.presencePenalty params) /\
       JS.lookup "stop" body
       = option_map (fun stop => JS.JArr (map JS.JStr stop))
           (GatewayClient.TextGenerationParams.stopSequences params) /\
       JS.lookup "max_tokens" body
       = option_map JS.JNum (GatewayClient.TextGenerationParams.maxTokens params) /\
       JS.lookup "max_completion_tokens" body = None) /\
    (Config.modelSupportsTemperature model = false ->
       JS.lookup "temperature" body = None /\
       JS.lookup "frequency_penalty" body = None /\
       JS.lookup "presence_penalty" body = None /\
       JS.lookup "stop" body = None /\
       JS.lookup "max_tokens" body = None /\
       JS.lookup "max_completion_tokens" body
       = option_map JS.JNum (GatewayClient.TextGenerationParams.maxTokens params)).
Proof.
  intros config params.
  destruct params as [prompt system model temperature maxTokens frequency presence stop].
  cbv zeta. unfold GatewayClient.generateTextBody.
  cbn [GatewayClient.TextGenerationParams.model
       GatewayClient.TextGenerationParams.temperature
       GatewayClient.TextGenerationParams.maxTokens
       GatewayClient.TextGenerationParams.frequencyPenalty
       GatewayClient.TextGenerationParams.presencePenalty
       GatewayClient.TextGenerationParams.stopSequences
       GatewayClient.TextGenerationParams.system
       GatewayClient.TextGenerationParams.prompt].
  set (chosen := Config.default_to model (Config.largeModel config)).
  split; [|split]; [| intros H; rewrite H | intros H; rewrite H].
  - destruct (Config.modelSupportsTemperature chosen); body_lookup.
  - repeat split; body_lookup.
  - repeat split; body_lookup.
Qed.

(** With the models of [DEFAULT_CONFIG], gpt-5 and gpt-5-mini, no temperature
    is ever sent. *)
Example generateText_default_model_body :
  GatewayClient.generateTextBody (configured "https://ai-gateway.vercel.sh/v1")
    {| GatewayClient.TextGenerationParams.prompt := "Hi";
       GatewayClient.TextGenerationParams.system := Some "";
       GatewayClient.TextGenerationParams.model := None;
       GatewayClient.TextGenerationParams.temperature := Some (JS.Decimal false 7 (-1));
       GatewayClient.TextGenerationParams.maxTokens := Some (JS.int 256);
       GatewayClient.TextGenerationParams.frequencyPenalty := None;
       GatewayClient.TextGenerationParams.presencePenalty := None;
       GatewayClient.TextGenerationParams.stopSequences := Some ["END"] |}
  = [("model", JS.JStr "gpt-5");
     ("messages", JS.JArr [GatewayClient.message "user" "Hi"]);
     ("max_completion_tokens", JS.JNum (JS.int 256))].
Proof. reflexivity. Qed.

(** X13.  A streamed text request never carries stop sequences or penalties,
    even when the caller of the handler gave them, and it always carries
    [stream: true].  A request that is not streamed, for a model outside the
    no-temperature list, carries the stop sequences and the penalties the
    caller gave. *)
Theorem streaming_drops_stop_and_penalties :
  forall (getModel : option IAgentRuntime -> option ProcessEnv -> string)
         (runtime : IAgentRuntime) (process : option ProcessEnv)
         (system : option string) (params : Models.GenerateTextParams)
         (call : Models.TextCall),
    Models.handleText getModel runtime process system params = Returns call ->
    let body := Models.bodyOf call in
    (Models.stream params && Models.onStreamChunk params = true ->
       JS.lookup "stream" body = Some (JS.JBool true) /\
       JS.lookup "stop" body = None /\
       JS.lookup "frequency_penalty" body = None /\
       JS.lookup "presence_penalty" body = None) /\
    (Models.stream params && Models.onStreamChunk params = false ->
       JS.lookup "stream" body = None /\
       forall model, JS.lookup "model" body = Some (JS.JStr model) ->
         Config.modelSupportsTemperature model = true ->
         JS.lookup "stop" body
         = option_map (fun stop => JS.JArr (map JS.JStr stop)) (Models.stopSequences params) /\
         JS.lookup "frequency_penalty" body
         = option_map JS.JNum (Models.frequencyPenalty params) /\
         JS.lookup "presence_penalty" body
         = option_map JS.JNum (Models.presencePenalty params)).
Proof.
  intros getModel runtime process system params call.
  unfold Models.handleText.
  destruct (Config.buildConfig (Some runtime) process) as [config|e]; [|discriminate].
  destruct params as [prompt maxTokens temperature frequency presence stop stream chunk].
  cbn [Models.stream Models.onStreamChunk Models.prompt Models.maxTokens
       Models.temperature Models.frequencyPenalty Models.presencePenalty
       Models.stopSequences].
  set (chosen := getModel (Some runtime) process).
  destruct (stream && chunk); intros [= <-]; cbv zeta; cbn [Models.bodyOf];
    split; intros Hflag; try discriminate Hflag; clear Hflag.
  - unfold GatewayClient.streamTextBody.
    cbn [GatewayClient.TextGenerationParams.model
         GatewayClient.TextGenerationParams.temperature
         GatewayClient.TextGenerationParams.maxTokens
         GatewayClient.TextGenerationParams.system
         GatewayClient.TextGenerationParams.prompt].
    destruct (Config.modelSupportsTemperature _); repeat split; body_lookup.
  - unfold GatewayClient.generateTextBody.
    cbn [GatewayClient.TextGenerationParams.model
         GatewayClient.TextGenerationParams.temperature
         GatewayClient.TextGenerationParams.maxTokens
         GatewayClient.TextGenerationParams.frequencyPenalty
         GatewayClient.TextGenerationParams.presencePenalty
         GatewayClient.TextGenerationParams.stopSequences
         GatewayClient.TextGenerationParams.system
         GatewayClient.TextGenerationParams.prompt].
    set (sent := Config.default_to (Some chosen) (Config.largeModel config)).
    destruct (Config.modelSupportsTemperature sent) eqn:S.
    + split; [body_lookup|].
      intros model Hm _. repeat split; body_lookup.
    + split; [body_lookup|].
      intros model Hm Hs. exfalso.
      assert (E : model = sent); [|rewrite E, S in Hs; discriminate].
      revert Hm. body_lookup; now intros [= <-].
Qed.

Lemma streaming_drops_stop_and_penalties_witness :
  exists call : Models.TextCall,
    Models.handleText Config.getLargeModel
      (settings [("AI_GATEWAY_API_KEY", "k"); ("AI_GATEWAY_LARGE_MODEL", "gpt-4o")])
      None (Some "Be brief.")
      {| Models.prompt := "Hi";
         Models.maxTokens := Some (JS.int 64);
         Models.temperature := Some (JS.int 0);
         Models.frequencyPenalty := Some (JS.int 1);
         Models.presencePenalty := Some (JS.int 1);
         Models.stopSequences := Some ["END"];
         Models.stream := true;
         Models.onStreamChunk := true |}
    = Returns call /\
    Models.bodyOf call
    = [("model", JS.JStr "gpt-4o");
       ("messages", JS.JArr [GatewayClient.message "system" "Be brief.";
                             GatewayClient.message "user" "Hi"]);
       ("stream", JS.JBool true);
       ("temperature", JS.JNum (JS.int 0));
       ("max_tokens", JS.JNum (JS.int 64))] /\
    JS.lookup "stop" (Models.bodyOf call) = None.
Proof.
  eexists. split; [reflexivity|]. split; [reflexivity|].
  refine (proj1 (proj2 (proj1 (streaming_drops_stop_and_penalties
                                 Config.getLargeModel
                                 (settings [("AI_GATEWAY_API_KEY", "k");
                                            ("AI_GATEWAY_LARGE_MODEL", "gpt-4o")])
                                 None (Some "Be brief.")
                                 {| Models.prompt := "Hi";
                                    Models.maxTokens := Some (JS.int 64);
                                    Models.temperature := Some (JS.int 0);
                                    Models.frequencyPenalty := Some (JS.int 1);
                                    Models.presencePenalty := Some (JS.int 1);
                                    Models.stopSequences := Some ["END"];
                                    Models.stream := true;
                                    Models.onStreamChunk := true |}
                                 _ eq_refl) _))).
  reflexivity.
Defined.

(** ** What the Vercel client makes of a response *)

Section Responses.

Variable toText : JS.JValue -> string + string.
Variable typeErrorMessage : string -> string.

Lemma request_answering (data : JS.JValue) (config : Config.GatewayConfig)
    (endpoint method : string) (body : JS.JValue) :
  GatewayClient.request (answering data) toText config endpoint method body
  = Returns data.
Proof. reflexivity. Qed.

Lemma positive_truthy (n : JS.number) :
  JS.positive_number n = true -> JS.truthy_number n = true.
Proof.
  destruct n as [|neg c e]; [discriminate|].
  unfold JS.positive_number, JS.truthy_number. cbn [JS.isNaN negb andb].
  now intros [_ H]%andb_true_iff.
Qed.

Lemma default_to_some (value d : string) :
  value <> "" -> Config.default_to (Some value) d = value.
Proof.
  intros H. unfold Config.default_to, JS.or_else, JS.truthy_string.
  apply String.eqb_neq in H. now rewrite H.
Qed.

End Responses.

(** X14.  What [generateText] makes of a response with the status 200.  When
    the first choice has a message with a content, that content is returned
    as it is, the empty string included, unless it is [null], which gives the
    error [API returned empty content].  When the response, not being [null],
    has nothing truthy at [choices], or an empty array, the error is
    [API returned no choices]. *)
Theorem generateText_content :
  forall (toText : JS.JValue -> string + string) (typeErrorMessage : string -> string)
         (config : Config.GatewayConfig) (params : GatewayClient.TextGenerationParams.t)
         (response : JS.JValue),
    let result :=
      GatewayClient.generateText (answering response) toText typeErrorMessage
        config params in
    (forall (choice : JS.JValue) (rest : list JS.JValue) (message content : JS.JValue),
        JS.member "choices" response = Some (JS.JArr (choice :: rest)) ->
        JS.member "message" choice = Some message ->
        JS.member "content" message = Some content ->
        result = match content with
                 | JS.JNull => Throws (GatewayError "API returned empty content" None)
                 | _ => Returns (Some content)
                 end) /\
    (response <> JS.JNull ->
     JS.truthy_opt (JS.member "choices" response) = false \/
     JS.member "choices" response = Some (JS.JArr []) ->
     result = Throws (GatewayError "API returned no choices" None)).
Proof.
  intros toText typeErrorMessage config params response result.
  subst result. unfold GatewayClient.generateText.
  rewrite request_answering. unfold GatewayClient.firstContent.
  split.
  - intros choice rest message content Hc Hm Hk.
    destruct response; try discriminate Hc.
    cbn [GatewayClient.get]. rewrite Hc.
    cbn [JS.truthy negb orb GatewayClient.lengthIsZero JS.index0].
    destruct choice; try discriminate Hm.
    cbn [GatewayClient.get]. rewrite Hm.
    destruct message; try discriminate Hk.
    cbn [GatewayClient.get]. rewrite Hk.
    now destruct content.
  - intros Hr H.
    destruct response; try contradiction; cbn [GatewayClient.get];
      try reflexivity.
    destruct H as [H | H].
    + destruct (JS.member "choices" (JS.JObj members)) as [list|]; [|reflexivity].
      cbn [JS.truthy_opt] in H. now rewrite H.
    + now rewrite H.
Qed.

Example generateText_content_samples :
  let answer sample :=
    GatewayClient.generateText (answering (parsed sample))
      (fun _ => inl "") (fun name => "cannot read " ++ name)
      (configured "https://ai-gateway.vercel.sh/v1")
      {| GatewayClient.TextGenerationParams.prompt := "Hi";
         GatewayClient.TextGenerationParams.system := None;
         GatewayClient.TextGenerationParams.model := None;
         GatewayClient.TextGenerationParams.temperature := None;
         GatewayClient.TextGenerationParams.maxTokens := None;
         GatewayClient.TextGenerationParams.frequencyPenalty := None;
         GatewayClient.TextGenerationParams.presencePenalty := None;
         GatewayClient.TextGenerationParams.stopSequences := None |} in
  answer "{'choices':[{'message':{'role':'assistant','content':'Hello'}}]}"
  = Returns (Some (JS.JStr "Hello")) /\
  answer "{'choices':[{'message':{'content':''}}]}" = Returns (Some (JS.JStr "")) /\
  answer "{'choices':[{'message':{'content':null}}]}"
  = Throws (GatewayError "API returned empty content" None) /\
  answer "{'choices':[]}" = Throws (GatewayError "API returned no choices" None) /\
  answer "{'error':'overloaded'}" = Throws (GatewayError "API returned no choices" None) /\
  answer "{'choices':[{'message':{}}]}" = Returns None /\
  answer "{'choices':[{'finish_reason':'stop'}]}" = Throws (Error "cannot read content") /\
  answer "null" = Throws (Error "cannot read choices").
Proof. repeat split. Qed.

Section NumbersOfSettings.

Variable runtime : option IAgentRuntime.
Variable process : option ProcessEnv.

Lemma buildConfig_fields_numbers :
  JS.positive_number (Config.getEmbeddingDimensions runtime process) = true /\
  JS.positive_number (Config.getTimeoutMs runtime process) = true.
Proof.
  split.
  - destruct (getEmbeddingDimensions_cases runtime process)
      as [[text [_ [P E]]] | [_ E]]; rewrite E; [exact P | reflexivity].
  - destruct (getTimeoutMs_cases runtime process)
      as [[text [_ [P E]]] | [_ E]]; rewrite E; [exact P | reflexivity].
Qed.

End NumbersOfSettings.

(** X15.  The embedding handler of the Vercel plugin makes one request, and
    its outcome depends on the network through the answer to that request
    alone.  The request is a POST to the base URL, without its final slash,
    followed by [/embeddings]; it carries the key as a bearer token, the
    embedding model of the settings, the text after truncation, and always a
    number of dimensions, which is greater than zero. *)
Theorem embedding_handler_request :
  forall (fetch : GatewayClient.Call -> GatewayClient.Fetched)
         (toText : JS.JValue -> string + string) (typeErrorMessage : string -> string)
         (MAX_EMBEDDING_TOKENS : nat)
         (runtime : IAgentRuntime) (process : option ProcessEnv)
         (params : Embedding.TextEmbeddingInput) (config : Config.GatewayConfig),
    Config.buildConfig (Some runtime) process = Returns config ->
    exists sent : Embedding.EmbeddingParams,
      Embedding.handleTextEmbedding MAX_EMBEDDING_TOKENS runtime process params
      = Returns sent /\
      JS.positive_number (Embedding.dimensions sent) = true /\
      let call :=
        {| GatewayClient.call_url := Client.url config "/embeddings";
           GatewayClient.call_method := "POST";
           GatewayClient.call_headers :=
             [("Authorization", "Bearer " ++ Config.apiKey config);
              ("Content-Type", "application/json")];
           GatewayClient.call_body :=
             JS.JObj [("model", JS.JStr (Config.getEmbeddingModel (Some runtime) process));
                      ("input", JS.JStr (Embedding.text sent));
                      ("dimensions", JS.JNum (Embedding.dimensions sent))] |} in
      Models.handleTextEmbedding fetch toText typeErrorMessage MAX_EMBEDDING_TOKENS
        runtime process params
      = Models.handleTextEmbedding (fun _ => fetch call) toText typeErrorMessage
          MAX_EMBEDDING_TOKENS runtime process params.
Proof.
  intros fetch toText typeErrorMessage MAX runtime process params config Hc.
  unfold Models.handleTextEmbedding, Embedding.handleTextEmbedding. rewrite Hc.
  eexists. split; [reflexivity|]. cbn [Embedding.dimensions Embedding.text Embedding.model].
  destruct (buildConfig_fields_numbers (Some runtime) process) as [D _].
  split; [exact D|].
  unfold GatewayClient.createEmbedding. cbv zeta.
  cbn [GatewayClient.EmbeddingParams.model GatewayClient.EmbeddingParams.dimensions
       GatewayClient.EmbeddingParams.text JS.or_number].
  rewrite !(positive_truthy _ D).
  rewrite default_to_some by (apply default_to_nonempty; discriminate).
  reflexivity.
Qed.

Lemma embedding_handler_request_witness :
  Models.handleTextEmbedding
    (fun call =>
       if String.eqb (GatewayClient.call_url call) "https://example.test/v1/embeddings"
       then answering (parsed "{'data':[{'embedding':[0.5,2]}]}") call
       else GatewayClient.Rejected GatewayClient.NotAnError)
    (fun _ => inl "") (fun name => name) 8
    (settings [("AI_GATEWAY_API_KEY", "k"); ("AI_GATEWAY_BASE_URL", "https://example.test/v1/");
               ("AI_GATEWAY_EMBEDDING_DIMENSIONS", "0")])
    None Embedding.null
  = Returns (Some (JS.JArr [JS.JNum (JS.Decimal false 5 (-1)); JS.JNum (JS.int 2)])).
Proof.
  destruct (embedding_handler_request
              (fun call =>
                 if String.eqb (GatewayClient.call_url call)
                      "https://example.test/v1/embeddings"
                 then answering (parsed "{'data':[{'embedding':[0.5,2]}]}") call
                 else GatewayClient.Rejected GatewayClient.NotAnError)
              (fun _ => inl "") (fun name => name) 8
              (settings [("AI_GATEWAY_API_KEY", "k");
                         ("AI_GATEWAY_BASE_URL", "https://example.test/v1/");
                         ("AI_GATEWAY_EMBEDDING_DIMENSIONS", "0")])
              None Embedding.null _ eq_refl) as [sent [S [_ E]]].
  injection S as <-. cbv zeta in E. rewrite E. reflexivity.
Defined.

(** ** Titles *)

Section Titles.

Lemma letters_append (marker rest : string) :
  forall p : string,
    JS.toLowerCase marker = p ->
    TitlePattern.letters p (marker ++ rest) = Some rest.
Proof.
  induction marker as [|c marker IH]; intros p H; cbn in H; subst p.
  - reflexivity.
  - cbn [append TitlePattern.letters]. rewrite Ascii.eqb_refl. now apply IH.
Qed.

Lemma letters_lower (p : string) :
  forall (s rest : string),
    TitlePattern.letters p s = Some rest -> JS.startsWith (JS.toLowerCase s) p = true.
Proof.
  induction p as [|a p IH]; intros s rest H; [reflexivity|].
  destruct s as [|b s]; [discriminate|]. cbn in H |- *.
  destruct (Ascii.eqb (JS.lowerChar b) a) eqn:E; [|discriminate].
  rewrite Ascii.eqb_sym, E. exact (IH _ _ H).
Qed.

Lemma exec_none (s : string) :
  JS.includes (JS.toLowerCase s) "title" = false -> TitlePattern.exec s = None.
Proof.
  induction s as [|c s IH]; intros H.
  - reflexivity.
  - cbn [JS.toLowerCase JS.includes] in H. apply orb_false_elim in H as [H1 H2].
    cbn [TitlePattern.exec]. unfold TitlePattern.matchHere.
    destruct (TitlePattern.letters "title" (String c s)) as [rest|] eqn:L.
    + apply letters_lower in L. cbn [JS.toLowerCase] in L. congruence.
    + now rewrite (IH H2).
Qed.

Lemma lazyRest_line (heading : string) :
  allOf (fun c => negb (TitlePattern.isLineTerminator c)) heading = true ->
  (forall rest, TitlePattern.lazyRest (heading ++ newline ++ rest) = Some (heading, rest)) /\
  TitlePattern.lazyRest heading = Some (heading, "").
Proof.
  induction heading as [|c heading IH]; intros H.
  - split; reflexivity.
  - cbn [allOf] in H. apply andb_true_iff in H as [Hc Hh].
    destruct (IH Hh) as [IH1 IH2].
    apply negb_true_iff in Hc.
    assert (Hlf : Ascii.eqb c JS.LF = false).
    { unfold TitlePattern.isLineTerminator in Hc. now apply orb_false_elim in Hc. }
    split; [intros rest|]; cbn [append TitlePattern.lazyRest];
      rewrite Hlf, Hc; [now rewrite IH1 | now rewrite IH2].
Qed.

Lemma classStar_run (separator s : string) (found : string * string) :
  allOf TitlePattern.inClass separator = true ->
  TitlePattern.classStar s = Some found ->
  TitlePattern.classStar (separator ++ s) = Some found.
Proof.
  induction separator as [|c separator IH]; intros H Hs; [exact Hs|].
  cbn [allOf] in H. apply andb_true_iff in H as [Hc Hr].
  cbn [append TitlePattern.classStar]. now rewrite Hc, (IH Hr Hs).
Qed.

(** A heading written after the word and its separators is found. *)
Lemma matchHere_heading (marker separator more s : string) (mark first : ascii)
    (found : string * string) :
  JS.toLowerCase marker = "title" ->
  TitlePattern.inClass mark = true ->
  allOf TitlePattern.inClass separator = true ->
  TitlePattern.inClass first = false ->
  TitlePattern.lazyGroup (String first s) = Some found ->
  TitlePattern.matchHere (marker ++ String mark separator ++ String first s)
  = Some found.
Proof.
  intros Hm Hk Hsep Hf Hg. unfold TitlePattern.matchHere.
  rewrite (letters_append _ _ _ Hm). cbn [append]. rewrite Hk.
  apply classStar_run; [exact Hsep|].
  cbn [TitlePattern.classStar]. now rewrite Hf.
Qed.

End Titles.

(** X16.  A content that opens with the word [title], in any mix of upper
    and lower case, then one or more colons or white-space characters, then a
    heading that runs to the end of its line, gives that heading, trimmed, as
    the title; the description is what follows that line, trimmed.  The
    heading has to start with a character that is neither a colon nor white
    space and must hold no line terminator. *)
Theorem describeImage_reads_title :
  forall (marker separator more rest : string) (mark first : ascii),
    JS.toLowerCase marker = "title" ->
    TitlePattern.inClass mark = true ->
    allOf TitlePattern.inClass separator = true ->
    TitlePattern.inClass first = false ->
    allOf (fun c => negb (TitlePattern.isLineTerminator c)) more = true ->
    GatewayClient.titled
      (marker ++ String mark separator ++ String first more ++ newline ++ rest)
    = {| GatewayClient.title := JS.trim (String first more);
         GatewayClient.description := Some (JS.JStr (JS.trim rest)) |} /\
    GatewayClient.titled (marker ++ String mark separator ++ String first more)
    = {| GatewayClient.title := JS.trim (String first more);
         GatewayClient.description := Some (JS.JStr "") |}.
Proof.
  intros marker separator more rest mark first Hm Hk Hsep Hf Hmore.
  destruct (lazyRest_line more Hmore) as [L1 L2].
  assert (T : TitlePattern.isLineTerminator first = false).
  { unfold TitlePattern.inClass in Hf. apply orb_false_elim in Hf as [_ Hw].
    unfold TitlePattern.isLineTerminator.
    destruct first as [[] [] [] [] [] [] [] []]; try reflexivity; discriminate Hw. }
  unfold GatewayClient.titled. split.
  - assert (E : TitlePattern.matchHere
                  (marker ++ String mark separator ++ String first (more ++ newline ++ rest))
                = Some (String first more, rest)).
    { apply matchHere_heading; try assumption.
      cbn [TitlePattern.lazyGroup]. now rewrite T, L1. }
    cbn [append] in E |- *.
    destruct (marker ++ String mark (separator ++ String first (more ++ newline ++ rest)))
      eqn:S; cbn [TitlePattern.exec]; rewrite E; reflexivity.
  - assert (E : TitlePattern.matchHere
                  (marker ++ String mark separator ++ String first more)
                = Some (String first more, "")).
    { apply matchHere_heading; try assumption.
      cbn [TitlePattern.lazyGroup]. now rewrite T, L2. }
    cbn [append] in E |- *.
    destruct (marker ++ String mark (separator ++ String first more))
      eqn:S; cbn [TitlePattern.exec]; rewrite E; reflexivity.
Qed.

Lemma describeImage_reads_title_witness :
  GatewayClient.titled ("TITLE:  A Robot " ++ newline ++ " It waves." ++ newline)
  = {| GatewayClient.title := "A Robot";
       GatewayClient.description := Some (JS.JStr "It waves.") |}.
Proof.
  exact (proj1 (describeImage_reads_title "TITLE" "  " " Robot "
                  (" It waves." ++ newline) ":" "A"
                  eq_refl eq_refl eq_refl eq_refl eq_refl)).
Defined.

(** X17.  A content in which the letters [title] occur nowhere, in any mix
    of upper and lower case, gets the title [Image Analysis], and the content
    itself is the description, as it is: it is not trimmed. *)
Theorem describeImage_without_title :
  forall content : string,
    JS.includes (JS.toLowerCase content) "title" = false ->
    GatewayClient.titled content
    = {| GatewayClient.title := "Image Analysis";
         GatewayClient.description := Some (JS.JStr content) |}.
Proof.
  intros content H. unfold GatewayClient.titled. now rewrite (exec_none _ H).
Qed.

Lemma describeImage_without_title_witness :
  GatewayClient.titled ("  A robot waves. " ++ newline)
  = {| GatewayClient.title := "Image Analysis";
       GatewayClient.description := Some (JS.JStr ("  A robot waves. " ++ newline)) |}.
Proof.
  apply describeImage_without_title. reflexivity.
Defined.

(** The word is found anywhere, and what stands before it stays in the
    description; a heading that is nothing but a colon or a space is taken
    as it is. *)
Example describeImage_title_samples :
  GatewayClient.titled ("**Title:** Robot" ++ newline ++ "A small robot.")
  = {| GatewayClient.title := "** Robot";
       GatewayClient.description := Some (JS.JStr "**A small robot.") |} /\
  GatewayClient.titled "Subtitle one"
  = {| GatewayClient.title := "one";
       GatewayClient.description := Some (JS.JStr "Sub") |} /\
  GatewayClient.titled "title: "
  = {| GatewayClient.title := "";
       GatewayClient.description := Some (JS.JStr "") |} /\
  GatewayClient.titled "title:"
  = {| GatewayClient.title := "Image Analysis";
       GatewayClient.description := Some (JS.JStr "title:") |}.
Proof. repeat split. Qed.

(** ** Images *)

(** X18.  The image description handler of the Vercel plugin always asks the
    model gpt-5-mini for at most 8192 tokens, under the key [max_tokens],
    whatever models the settings name: it makes one request, to
    [/chat/completions], whose body depends on the image URL and the prompt
    alone.  That model is on the no-temperature list, for which a text
    request would send [max_completion_tokens]. *)
Theorem image_description_request :
  forall (fetch : GatewayClient.Call -> GatewayClient.Fetched)
         (toText : JS.JValue -> string + string) (typeErrorMessage : string -> string)
         (runtime : IAgentRuntime) (process : option ProcessEnv)
         (params : Models.ImageDescriptionInput) (config : Config.GatewayConfig),
    Config.buildConfig (Some runtime) process = Returns config ->
    exists body : list (string * JS.JValue),
      JS.lookup "model" body = Some (JS.JStr "gpt-5-mini") /\
      JS.lookup "max_tokens" body = Some (JS.JNum (JS.int 8192)) /\
      JS.lookup "max_completion_tokens" body = None /\
      Config.modelSupportsTemperature "gpt-5-mini" = false /\
      Models.handleImageDescription fetch toText typeErrorMessage runtime process params
      = Models.handleImageDescription
          (fun _ => fetch {| GatewayClient.call_url := Client.url config "/chat/completions";
                             GatewayClient.call_method := "POST";
                             GatewayClient.call_headers :=
                               [("Authorization", "Bearer " ++ Config.apiKey config);
                                ("Content-Type", "application/json")];
                             GatewayClient.call_body := JS.JObj body |})
          toText typeErrorMessage runtime process params.
Proof.
  intros fetch toText typeErrorMessage runtime process params config Hc.
  unfold Models.handleImageDescription. rewrite Hc.
  destruct params as [imageUrl | imageUrl prompt];
    [exists (GatewayClient.describeImageBody
               {| GatewayClient.ImageDescriptionParams.imageUrl := imageUrl;
                  GatewayClient.ImageDescriptionParams.prompt := None;
                  GatewayClient.ImageDescriptionParams.model := None;
                  GatewayClient.ImageDescriptionParams.maxTokens := None |})
    |exists (GatewayClient.describeImageBody
               {| GatewayClient.ImageDescriptionParams.imageUrl := imageUrl;
                  GatewayClient.ImageDescriptionParams.prompt := prompt;
                  GatewayClient.ImageDescriptionParams.model := None;
                  GatewayClient.ImageDescriptionParams.maxTokens := None |})];
    repeat split.
Qed.

Lemma image_description_request_witness :
  Models.handleImageDescription
    (fun call =>
       match JS.lookup "model" match GatewayClient.call_body call with
                               | JS.JObj members => members
                               | _ => []
                               end with
       | Some (JS.JStr "gpt-5-mini") =>
           answering (parsed "{'choices':[{'message':{'content':'Title: Cat'}}]}") call
       | _ => GatewayClient.Rejected GatewayClient.NotAnError
       end)
    (fun _ => inl "") (fun name => name)
    (settings [("AI_GATEWAY_API_KEY", "k"); ("AI_GATEWAY_IMAGE_MODEL", "gpt-4o");
               ("AI_GATEWAY_SMALL_MODEL", "gpt-4o-mini")])
    None (Models.url_of_string "https://example.test/cat.png")
  = Returns {| GatewayClient.title := "Cat";
               GatewayClient.description := Some (JS.JStr "") |}.
Proof.
  destruct (image_description_request
              (fun call =>
                 match JS.lookup "model" match GatewayClient.call_body call with
                                         | JS.JObj members => members
                                         | _ => []
                                         end with
                 | Some (JS.JStr "gpt-5-mini") =>
                     answering (parsed "{'choices':[{'message':{'content':'Title: Cat'}}]}") call
                 | _ => GatewayClient.Rejected GatewayClient.NotAnError
                 end)
              (fun _ => inl "") (fun name => name)
              (settings [("AI_GATEWAY_API_KEY", "k"); ("AI_GATEWAY_IMAGE_MODEL", "gpt-4o");
                         ("AI_GATEWAY_SMALL_MODEL", "gpt-4o-mini")])
              None (Models.url_of_string "https://example.test/cat.png") _ eq_refl)
    as [body [M [_ [_ [_ E]]]]].
  rewrite E. unfold Models.handleImageDescription.
  cbn [Config.buildConfig]. unfold GatewayClient.describeImage, GatewayClient.request.
  destruct body as [|]; [discriminate M|].
  cbn [GatewayClient.call_body]. rewrite M. reflexivity.
Defined.

Section ImageResults.

Variable typeErrorMessage : string -> string.

Lemma mapItems_map (items : list JS.JValue) :
  Forall (fun item => item <> JS.JNull) items ->
  GatewayClient.mapItems typeErrorMessage items
  = Returns
      (map (fun item =>
              {| GatewayClient.url := JS.member "url" item;
                 GatewayClient.revisedPrompt := JS.member "revised_prompt" item |})
         items).
Proof.
  induction 1 as [|item rest Hitem _ IH]; [reflexivity|].
  cbn [GatewayClient.mapItems map].
  destruct item; try congruence; cbn [GatewayClient.get]; now rewrite IH.
Qed.

End ImageResults.

(** [generateImage] gives one result for each element of [data], in
    the order of the response, with the [url] and the [revised_prompt] of
    that element; for an empty array it returns the empty list and raises
    no error.  No element may be [null]. *)
Theorem generateImage_results :
  forall (toText : JS.JValue -> string + string) (typeErrorMessage : string -> string)
         (config : Config.GatewayConfig) (params : GatewayClient.ImageGenerationParams.t)
         (response : JS.JValue) (items : list JS.JValue),
    JS.member "data" response = Some (JS.JArr items) ->
    Forall (fun item => item <> JS.JNull) items ->
    GatewayClient.generateImage (answering response) toText typeErrorMessage config params
    = Returns
        (map (fun item =>
                {| GatewayClient.url := JS.member "url" item;
                   GatewayClient.revisedPrompt := JS.member "revised_prompt" item |})
           items).
Proof.
  intros toText typeErrorMessage config params response items Hd Hitems.
  unfold GatewayClient.generateImage. cbv zeta. rewrite request_answering.
  destruct response; try discriminate Hd.
  cbn [GatewayClient.get]. rewrite Hd.
  now apply mapItems_map.
Qed.

Lemma generateImage_results_witness :
  GatewayClient.generateImage
    (answering (parsed "{'data':[{'url':'https://a'},{'b64_json':'AA','revised_prompt':'p'}]}"))
    (fun _ => inl "") (fun name => name)
    (configured "https://ai-gateway.vercel.sh/v1")
    {| GatewayClient.ImageGenerationParams.prompt := "a cat";
       GatewayClient.ImageGenerationParams.model := None;
       GatewayClient.ImageGenerationParams.n := None;
       GatewayClient.ImageGenerationParams.size := None;
       GatewayClient.ImageGenerationParams.quality := None;
       GatewayClient.ImageGenerationParams.style := None |}
  = Returns [{| GatewayClient.url := Some (JS.JStr "https://a");
                GatewayClient.revisedPrompt := None |};
             {| GatewayClient.url := None;
                GatewayClient.revisedPrompt := Some (JS.JStr "p") |}].
Proof.
  rewrite (generateImage_results _ _ _ _
             (parsed "{'data':[{'url':'https://a'},{'b64_json':'AA','revised_prompt':'p'}]}")
             [parsed "{'url':'https://a'}"; parsed "{'b64_json':'AA','revised_prompt':'p'}"]
             eq_refl).
  - reflexivity.
  - repeat constructor; discriminate.
Defined.

(** ** The handlers of the AI Gateway plugin that throw *)

Section StrictHandlers.

Variable JSON_parse : string -> option JS.JValue.

(** What [makeRequest] gives is decided by the answer to that request. *)
Lemma makeRequest_single (fetch : Resilient.Request -> Resilient.Fetched)
    (config : Resilient.AIGatewayConfig) (endpoint method : string)
    (body : option JS.JValue) (headers : list (string * string)) (compatible : bool) :
  Resilient.makeRequest fetch JSON_parse config endpoint method body headers compatible
  = match fetch (requestOf config endpoint method body headers compatible) with
    | Resilient.Rejected message => Resilient.Failure message
    | Resilient.Responded response =>
        match Resilient.text response with
        | inr message => Resilient.Failure message
        | inl responseText =>
            if Resilient.ok response then
              match JSON_parse responseText with
              | Some data => Resilient.Success data
              | None => Resilient.Failure "Failed to parse response"
              end
            else
              Resilient.Failure
                ("Request failed: " ++ decimal (Resilient.status response) ++ " "
                 ++ Resilient.statusText response)
        end
    end.
Proof.
  unfold Resilient.makeRequest, requestOf.
  assert (U : forall (o : option string), JS.or_else o None = firstNonEmpty [o]).
  { intros [v|]; cbn; [now destruct (JS.truthy_string v) | reflexivity]. }
  rewrite !U.
  assert (E : match compatible, firstNonEmpty [Resilient.openaiCompatibleUrl config] with
              | true, Some c => c ++ endpoint
              | _, _ =>
                  match firstNonEmpty [Resilient.accountId config],
                        firstNonEmpty [Resilient.workspace config] with
                  | Some account, Some space =>
                      Resilient.baseUrl config ++ "/" ++ account ++ "/" ++ space ++ endpoint
                  | _, _ => Resilient.baseUrl config ++ endpoint
                  end
              end
              = match (if compatible
                       then firstNonEmpty [Resilient.openaiCompatibleUrl config]
                       else None) with
                | Some url => url ++ endpoint
                | None =>
                    match firstNonEmpty [Resilient.accountId config],
                          firstNonEmpty [Resilient.workspace config] with
                    | Some account, Some space =>
                        Resilient.baseUrl config ++ "/" ++ account ++ "/" ++ space ++ endpoint
                    | _, _ => Resilient.baseUrl config ++ endpoint
                    end
                end).
  { destruct compatible; [|reflexivity].
    now destruct (firstNonEmpty [Resilient.openaiCompatibleUrl config]). }
  rewrite E.
  destruct (fetch _) as [m|r]; [reflexivity|].
  destruct (Resilient.text r); [|reflexivity].
  destruct (Resilient.ok r); reflexivity.
Qed.

End StrictHandlers.

Section StrictOutcomes.

Variable runtime : IAgentRuntime.
Variable process : ProcessEnv.

Lemma getAIGatewayConfig_throws (e : Exception) :
  Resilient.getAIGatewayConfig runtime process = Throws e ->
  e = Error "AI_GATEWAY_API_KEY is required".
Proof.
  unfold Resilient.getAIGatewayConfig.
  destruct (Resilient.getSetting runtime process "AI_GATEWAY_API_KEY" None) as [key|];
    [destruct (negb (JS.truthy_string key))|]; congruence.
Qed.

Lemma getAIGatewayConfig_apiKey (config : Resilient.AIGatewayConfig) :
  Resilient.getAIGatewayConfig runtime process = Returns config ->
  JS.truthy_string (Resilient.apiKey config) = true /\
  Resilient.baseUrl config
  = Resilient.getSettingOr runtime process "AI_GATEWAY_BASE_URL"
      "https://gateway.ai.cloudflare.com/v1".
Proof.
  unfold Resilient.getAIGatewayConfig.
  destruct (Resilient.getSetting runtime process "AI_GATEWAY_API_KEY" None) as [key|];
    [|discriminate].
  destruct (JS.truthy_string key) eqn:K; cbn [negb]; [|discriminate].
  intros [= <-]. cbn [Resilient.apiKey Resilient.baseUrl]. now split.
Qed.

End StrictOutcomes.

(** X20.  The text handlers of the AI Gateway plugin never degrade.  What
    they return is truthy, so never the empty string; everything else ends in
    an Error, raised before any event is emitted, which says that the key is
    missing, that the generation failed, or that the response had no content. *)
Theorem gateway_text_strict :
  forall (fetch : Resilient.Request -> Resilient.Fetched)
         (JSON_parse : string -> option JS.JValue)
         (modelOf : Resilient.AIGatewayConfig -> string) (type : Resilient.ModelType)
         (runtime : IAgentRuntime) (process : ProcessEnv) (system : option string)
         (params : Resilient.GenerateTextParams.t),
    let outcome :=
      Resilient.handleText fetch JSON_parse modelOf type runtime process system params in
    match Resilient.completion outcome with
    | Returns content => JS.truthy content = true
    | Throws (Error message) =>
        Resilient.events outcome = [] /\
        (message = "AI_GATEWAY_API_KEY is required" \/
         JS.startsWith message "AI Gateway text generation failed: " = true \/
         message = "No content in AI Gateway response")
    | Throws (GatewayError _ _) => False
    end.
Proof.
  intros fetch JSON_parse modelOf type runtime process system params.
  cbv zeta. unfold Resilient.handleText.
  destruct (Resilient.getAIGatewayConfig runtime process) as [config|e] eqn:C.
  - destruct (Resilient.makeOpenAIRequest _ _ _ _ _) as [data|error];
      cbn [Resilient.completion Resilient.events].
    + destruct (JS.truthy data); cbn [negb Resilient.completion Resilient.events];
        [|split; [reflexivity | right; left; reflexivity]].
      destruct (Resilient.contentOf data) as [content|];
        cbn [Resilient.completion Resilient.events]; [|now split; [|right; right]].
      destruct (JS.truthy content) eqn:T;
        cbn [negb Resilient.completion Resilient.events];
        [exact T | now split; [|right; right]].
    + split; [reflexivity|]. right. left. reflexivity.
  - rewrite (getAIGatewayConfig_throws _ _ _ C).
    cbn [Resilient.completion Resilient.events]. split; [reflexivity | now left].
Qed.

(** X21.  The request of the text handlers of the AI Gateway plugin.  The
    handler makes one POST, and what it does depends on the network through
    the answer to that request alone.  The body always carries a temperature,
    a limit of tokens and the two penalties: what the caller gave, a zero
    included, and otherwise 0.7, 8192, 0.7 and 0.7.  It carries the stop
    sequences only when the caller gave at least one. *)
Theorem gateway_text_request :
  forall (fetch : Resilient.Request -> Resilient.Fetched)
         (JSON_parse : string -> option JS.JValue)
         (modelOf : Resilient.AIGatewayConfig -> string) (type : Resilient.ModelType)
         (runtime : IAgentRuntime) (process : ProcessEnv) (system : option string)
         (params : Resilient.GenerateTextParams.t) (config : Resilient.AIGatewayConfig),
    Resilient.getAIGatewayConfig runtime process = Returns config ->
    exists body : list (string * JS.JValue),
      JS.lookup "model" body = Some (JS.JStr (modelOf config)) /\
      JS.lookup "temperature" body
      = Some (JS.JNum match Resilient.GenerateTextParams.temperature params with
                      | Some given => given
                      | None => JS.Decimal false 7 (-1)
                      end) /\
      JS.lookup "max_tokens" body
      = Some (JS.JNum match Resilient.GenerateTextParams.max_tokens params with
                      | Some given => given
                      | None => JS.int 8192
                      end) /\
      JS.lookup "frequency_penalty" body
      = Some (JS.JNum match Resilient.GenerateTextParams.frequencyPenalty params with
                      | Some given => given
                      | None => JS.Decimal false 7 (-1)
                      end) /\
      JS.lookup "presence_penalty" body
      = Some (JS.JNum match Resilient.GenerateTextParams.presencePenalty params with
                      | Some given => given
                      | None => JS.Decimal false 7 (-1)
                      end) /\
      JS.lookup "stop" body
      = match Resilient.GenerateTextParams.stopSequences params with
        | Some (first :: rest) => Some (JS.JArr (map JS.JStr (first :: rest)))
        | _ => None
        end /\
      Resilient.handleText fetch JSON_parse modelOf type runtime process system params
      = Resilient.handleText
          (fun _ => fetch (requestOf config "/chat/completions" "POST"
                             (Some (JS.JObj body)) [] true))
          JSON_parse modelOf type runtime process system params.
Proof.
  intros fetch JSON_parse modelOf type runtime process system params config Hc.
  unfold Resilient.handleText. rewrite Hc. cbv zeta.
  match goal with
  | |- context [Resilient.makeOpenAIRequest _ _ _ _ (Some (JS.JObj ?b))] => exists b
  end.
  destruct params as [prompt temperature max_tokens frequency presence stop].
  cbn [Resilient.GenerateTextParams.prompt Resilient.GenerateTextParams.temperature
       Resilient.GenerateTextParams.max_tokens
       Resilient.GenerateTextParams.frequencyPenalty
       Resilient.GenerateTextParams.presencePenalty
       Resilient.GenerateTextParams.stopSequences].
  repeat split;
    try (destruct stop as [[|first rest]|]; destruct temperature, max_tokens,
           frequency, presence; reflexivity).
  unfold Resilient.makeOpenAIRequest. now rewrite !makeRequest_single.
Qed.

Lemma gateway_text_request_witness :
  Resilient.handleText
    (fun request =>
       match Resilient.request_body request with
       | Some (JS.JObj body) =>
           match JS.lookup "temperature" body, JS.lookup "stop" body with
           | Some (JS.JNum (JS.Decimal false 0 0)), None =>
               replying (json "{'choices':[{'message':{'content':'cold'}}]}")
           | _, _ => Resilient.Rejected "unexpected body"
           end
       | _ => Resilient.Rejected "no body"
       end)
    JS.JSON_parse Resilient.smallModel Resilient.TEXT_SMALL
    (settings [("AI_GATEWAY_API_KEY", "k")]) (settings []) None
    {| Resilient.GenerateTextParams.prompt := "Hi";
       Resilient.GenerateTextParams.temperature := Some (JS.int 0);
       Resilient.GenerateTextParams.max_tokens := None;
       Resilient.GenerateTextParams.frequencyPenalty := None;
       Resilient.GenerateTextParams.presencePenalty := None;
       Resilient.GenerateTextParams.stopSequences := Some [] |}
  = {| Resilient.events := []; Resilient.completion := Returns (JS.JStr "cold") |}.
Proof.
  destruct (gateway_text_request
              (fun request =>
                 match Resilient.request_body request with
                 | Some (JS.JObj body) =>
                     match JS.lookup "temperature" body, JS.lookup "stop" body with
                     | Some (JS.JNum (JS.Decimal false 0 0)), None =>
                         replying (json "{'choices':[{'message':{'content':'cold'}}]}")
                     | _, _ => Resilient.Rejected "unexpected body"
                     end
                 | _ => Resilient.Rejected "no body"
                 end)
              JS.JSON_parse Resilient.smallModel Resilient.TEXT_SMALL
              (settings [("AI_GATEWAY_API_KEY", "k")]) (settings []) None
              {| Resilient.GenerateTextParams.prompt := "Hi";
                 Resilient.GenerateTextParams.temperature := Some (JS.int 0);
                 Resilient.GenerateTextParams.max_tokens := None;
                 Resilient.GenerateTextParams.frequencyPenalty := None;
                 Resilient.GenerateTextParams.presencePenalty := None;
                 Resilient.GenerateTextParams.stopSequences := Some [] |}
              _ eq_refl)
    as [body [_ [T [_ [_ [_ [S E]]]]]]].
  rewrite E. unfold requestOf. cbn [JS.truthy_opt JS.truthy Resilient.request_body].
  cbn [Resilient.GenerateTextParams.temperature
       Resilient.GenerateTextParams.stopSequences] in T, S.
  rewrite T, S. reflexivity.
Defined.

(** ** The limit of tokens of the object handlers *)

Section TokenLimit.

Lemma isFinite_integer (negative : bool) (n : N) :
  JS.isFinite (JS.Decimal negative n 0) = (Z.of_N n <? 2 ^ 1024 - 2 ^ 970)%Z.
Proof.
  unfold JS.isFinite. change (0 <=? 0)%Z with true. cbv iota.
  now rewrite Z.pow_0_r, Z.mul_1_r.
Qed.

Lemma isFinite_8192 : JS.isFinite (JS.int 8192) = true.
Proof. vm_compute. reflexivity. Qed.

Lemma decimal_truthy (n : N) : JS.truthy_string (decimal n) = true.
Proof. destruct (decimal_head n) as [c [s [E _]]]. now rewrite E. Qed.

End TokenLimit.

(** X22.  The limit of tokens an object handler sends.  It is read from the
    runtime alone: the handler's own setting or, when that one is absent,
    DEFAULT_MAX_TOKENS.  The limit is always a finite number.  A decimal
    numeral is taken as it is, zero and negative numbers included.  A text
    without a number gives 8192, and so does an own setting that is present
    and empty, which hides DEFAULT_MAX_TOKENS. *)
Theorem object_token_limit :
  forall (runtime : IAgentRuntime) (key : string),
    let chosen := JS.nullish (runtime key) (runtime "DEFAULT_MAX_TOKENS") in
    let limit := Resilient.maxTokensSetting runtime key in
    JS.isFinite limit = true /\
    (runtime key = Some "" -> limit = JS.int 8192) /\
    (chosen = None -> limit = JS.int 8192) /\
    (forall text, chosen = Some text -> JS.parseInt text = JS.NaN ->
       limit = JS.int 8192) /\
    (forall n : N, (Z.of_N n < 2 ^ 1024 - 2 ^ 970)%Z ->
       (chosen = Some (decimal n) -> limit = JS.Decimal false n 0) /\
       (chosen = Some ("-" ++ decimal n) -> limit = JS.Decimal true n 0)).
Proof.
  intros runtime key chosen limit. subst limit. unfold Resilient.maxTokensSetting.
  fold chosen. cbv zeta.
  split; [|split; [|split; [|split; [|intros n Hn; split]]]].
  - set (parsed := match chosen with
                     | Some text =>
                         if JS.truthy_string text then JS.parseInt text else JS.NaN
                     | None => JS.NaN
                     end).
    destruct (JS.isFinite parsed) eqn:F; [exact F | exact isFinite_8192].
  - intros H. subst chosen. rewrite H. reflexivity.
  - intros H. now rewrite H.
  - intros text H P. rewrite H. destruct (JS.truthy_string text); [now rewrite P|];
      reflexivity.
  - intros H. rewrite H, decimal_truthy.
    pose proof (parseInt_decimal "" "" n eq_refl I) as P.
    cbn [append] in P. rewrite append_nil_r in P. rewrite P.
    rewrite isFinite_integer. now apply Z.ltb_lt in Hn as ->.
  - intros H. rewrite H.
    change (JS.truthy_string ("-" ++ decimal n)) with true. cbv iota.
    pose proof (parseInt_minus "" "" n eq_refl I) as P.
    cbn [append] in P. rewrite append_nil_r in P. cbn [append]. rewrite P.
    rewrite isFinite_integer. now apply Z.ltb_lt in Hn as ->.
Qed.

Example object_token_limit_samples :
  Resilient.maxTokensSetting
    (settings [("OBJECT_SMALL_MAX_TOKENS", ""); ("DEFAULT_MAX_TOKENS", "4096")])
    "OBJECT_SMALL_MAX_TOKENS" = JS.int 8192 /\
  Resilient.maxTokensSetting (settings [("DEFAULT_MAX_TOKENS", "4096")])
    "OBJECT_SMALL_MAX_TOKENS" = JS.int 4096 /\
  Resilient.maxTokensSetting (settings [("OBJECT_LARGE_MAX_TOKENS", "-1")])
    "OBJECT_LARGE_MAX_TOKENS" = JS.int (-1) /\
  Resilient.maxTokensSetting (settings [("OBJECT_LARGE_MAX_TOKENS", "0")])
    "OBJECT_LARGE_MAX_TOKENS" = JS.int 0 /\
  Resilient.maxTokensSetting (settings [("OBJECT_LARGE_MAX_TOKENS", "12.5k")])
    "OBJECT_LARGE_MAX_TOKENS" = JS.int 12 /\
  Resilient.maxTokensSetting (settings [("OBJECT_LARGE_MAX_TOKENS", "many")])
    "OBJECT_LARGE_MAX_TOKENS" = JS.int 8192.
Proof. repeat split. Qed.

(** ** Objects and image descriptions of the AI Gateway plugin *)

(** X23.  The object handlers of the AI Gateway plugin take no fence off.
    When the request succeeds and the content of the first choice is a text
    that starts with three backquotes, the handler throws
    [Failed to parse JSON from AI Gateway response] and emits no event,
    whatever the text holds between the fences. *)
Theorem gateway_object_keeps_fences :
  forall (toText : JS.JValue -> string + string)
         (modelOf : Resilient.AIGatewayConfig -> string) (limit : string)
         (type : Resilient.ModelType)
         (runtime : IAgentRuntime) (process : ProcessEnv)
         (params : Resilient.ObjectGenerationParams.t)
         (config : Resilient.AIGatewayConfig)
         (responseText content : string) (data : JS.JValue),
    Resilient.getAIGatewayConfig runtime process = Returns config ->
    JS.JSON_parse responseText = Some data ->
    Resilient.contentOf data = Some (JS.JStr content) ->
    JS.startsWith content "```" = true ->
    Resilient.handleObject (fun _ => replying responseText) JS.JSON_parse toText
      modelOf limit type runtime process params
    = {| Resilient.events := [];
         Resilient.completion :=
           Throws (Error "Failed to parse JSON from AI Gateway response") |}.
Proof.
  intros toText modelOf limit type runtime process params config responseText content
    data Hc Hp Hk Hf.
  unfold Resilient.handleObject. rewrite Hc. cbv zeta.
  unfold Resilient.makeOpenAIRequest. rewrite makeRequest_single.
  unfold replying. cbn [Resilient.text Resilient.ok]. rewrite Hp.
  assert (T : JS.truthy data = true).
  { destruct data; try discriminate Hk; reflexivity. }
  rewrite T, Hk. cbn [negb].
  assert (C : JS.truthy (JS.JStr content) = true).
  { apply startsWith_iff in Hf as [r ->]. reflexivity. }
  rewrite C. cbn [negb].
  destruct (JS.JSON_parse content) as [v|] eqn:P; [|reflexivity].
  destruct (JSON_parse_no_fence _ _ P) as [N _]. congruence.
Qed.

Lemma gateway_object_keeps_fences_witness :
  Resilient.handleObject
    (fun _ => replying (json "{'choices':[{'message':{'content':'```json\n{}\n```'}}]}"))
    JS.JSON_parse (fun _ => inl "") Resilient.smallModel "OBJECT_SMALL_MAX_TOKENS"
    Resilient.OBJECT_SMALL
    (settings [("AI_GATEWAY_API_KEY", "k")]) (settings [])
    {| Resilient.ObjectGenerationParams.prompt := "A point";
       Resilient.ObjectGenerationParams.schema := None;
       Resilient.ObjectGenerationParams.temperature := None |}
  = {| Resilient.events := [];
       Resilient.completion :=
         Throws (Error "Failed to parse JSON from AI Gateway response") |}.
Proof.
  eapply (gateway_object_keeps_fences (fun _ => inl "") Resilient.smallModel
            "OBJECT_SMALL_MAX_TOKENS" Resilient.OBJECT_SMALL
            (settings [("AI_GATEWAY_API_KEY", "k")]) (settings []) _ _
            (json "{'choices':[{'message':{'content':'```json\n{}\n```'}}]}")).
  - reflexivity.
  - reflexivity.
  - reflexivity.
  - reflexivity.
Defined.

Example gateway_object_samples :
  let answer text :=
    Resilient.completion
      (Resilient.handleObject (fun _ => replying (json text))
         JS.JSON_parse (fun _ => inl "") Resilient.smallModel "OBJECT_SMALL_MAX_TOKENS"
         Resilient.OBJECT_SMALL
         (settings [("AI_GATEWAY_API_KEY", "k")]) (settings [])
         {| Resilient.ObjectGenerationParams.prompt := "A point";
            Resilient.ObjectGenerationParams.schema := None;
            Resilient.ObjectGenerationParams.temperature := None |}) in
  answer "{'choices':[{'message':{'content':' [1] '}}]}"
  = Returns (JS.JArr [JS.JNum (JS.int 1)]) /\
  answer "{'choices':[{'message':{'content':''}}]}"
  = Throws (Error "No content in AI Gateway response") /\
  answer "{'choices':[]}" = Throws (Error "No content in AI Gateway response") /\
  answer "null" = Throws (Error "AI Gateway object generation failed: undefined") /\
  answer "<html>" = Throws (Error "AI Gateway object generation failed: Failed to parse response").
Proof. repeat split. Qed.

(** X24.  Once the configuration is read, the image description handler of
    the AI Gateway plugin does not throw for anything the network does: a
    failed request, a response without content and a content that is a text
    all give a value.  A title it returns is never empty.  The content comes
    back as it is only when the caller gave a prompt of its own, and it is
    then truthy.  The one error left is the TypeError for a content that is
    not a string, when the caller gave no prompt of its own. *)
Theorem gateway_image_description_outcomes :
  forall (fetch : Resilient.Request -> Resilient.Fetched)
         (JSON_parse : string -> option JS.JValue)
         (typeErrorMessage : string -> string)
         (runtime : IAgentRuntime) (process : ProcessEnv)
         (params : Resilient.ImageDescriptionInput)
         (config : Resilient.AIGatewayConfig),
    Resilient.getAIGatewayConfig runtime process = Returns config ->
    let custom :=
      match params with
      | Resilient.url_of_params _ (Some prompt) =>
          prompt <> "" /\ prompt <> Resilient.defaultImagePrompt
      | _ => False
      end in
    match Resilient.completion
            (Resilient.handleImageDescription fetch JSON_parse typeErrorMessage
               runtime process params) with
    | Returns (Resilient.Titled title _) => title <> ""
    | Returns (Resilient.Raw content) => JS.truthy content = true /\ custom
    | Throws e => e = Error (typeErrorMessage "match") /\ ~ custom
    end.
Proof.
  intros fetch JSON_parse typeErrorMessage runtime process params config Hc custom.
  unfold Resilient.handleImageDescription. rewrite Hc.
  set (flag := match params with
               | Resilient.url_of_string _ => false
               | Resilient.url_of_params _ None => false
               | Resilient.url_of_params _ (Some p) =>
                   JS.truthy_string p && negb (String.eqb p Resilient.defaultImagePrompt)
               end).
  assert (F : if flag then custom else ~ custom).
  { subst flag custom. destruct params as [s | u [p|]]; try (intros []).
    unfold JS.truthy_string.
    destruct (String.eqb_spec p ""); cbn [negb andb]; [intros [H _]; contradiction|].
    destruct (String.eqb_spec p Resilient.defaultImagePrompt); cbn [negb].
    - intros [_ H]. contradiction.
    - now split. }
  assert (N : forall d : string,
             "Failed to analyze image" <> "" /\
             forall o : option string, Config.default_to o "Image Analysis" <> "").
  { intros d. split; [discriminate|]. intros o. apply default_to_nonempty. discriminate. }
  fold flag.
  destruct params as [s | u p]; cbv zeta; cbv beta iota;
    (destruct (Resilient.makeOpenAIRequest _ _ _ _ _) as [data|error];
     cbn [Resilient.completion]; [|discriminate]);
    (destruct (JS.truthy data); cbn [negb Resilient.completion]; [|discriminate]);
    (destruct (Resilient.contentOf data) as [content|]; cbn [Resilient.completion];
     [|discriminate]);
    (destruct (JS.truthy content) eqn:T; cbn [negb Resilient.completion];
     [|discriminate]);
    (destruct flag; cbn [Resilient.completion]; [now split|]);
    (destruct content; cbn [Resilient.completion];
     try (split; [reflexivity | exact F]));
    (destruct (TitlePattern.exec _) as [[[before group] after]|];
     [apply default_to_nonempty|]; discriminate).
Qed.

Lemma gateway_image_description_outcomes_witness :
  match Resilient.completion
          (Resilient.handleImageDescription
             (fun _ => Resilient.Rejected "socket hang up") JS.JSON_parse (fun name => name)
             (settings [("AI_GATEWAY_API_KEY", "k")]) (settings [])
             (Resilient.url_of_params "https://example.test/cat.png" (Some "Count the cats.")))
  with
  | Returns (Resilient.Titled title _) => title <> ""
  | Returns (Resilient.Raw content) =>
      JS.truthy content = true /\
      ("Count the cats." <> "" /\ "Count the cats." <> Resilient.defaultImagePrompt)
  | Throws e =>
      e = Error "match" /\
      ~ ("Count the cats." <> "" /\ "Count the cats." <> Resilient.defaultImagePrompt)
  end.
Proof.
  exact (gateway_image_description_outcomes
           (fun _ => Resilient.Rejected "socket hang up") JS.JSON_parse (fun name => name)
           (settings [("AI_GATEWAY_API_KEY", "k")]) (settings [])
           (Resilient.url_of_params "https://example.test/cat.png" (Some "Count the cats."))
           _ eq_refl).
Defined.

Example gateway_image_description_samples :
  let describe fetched params :=
    Resilient.completion
      (Resilient.handleImageDescription (fun _ => fetched) JS.JSON_parse (fun name => name)
         (settings [("AI_GATEWAY_API_KEY", "k")]) (settings []) params) in
  describe (Resilient.Rejected "socket hang up") (Resilient.url_of_string "https://a/cat.png")
  = Returns (Resilient.Titled "Failed to analyze image" "socket hang up") /\
  describe (replying (json "{'choices':[]}")) (Resilient.url_of_string "https://a/cat.png")
  = Returns (Resilient.Titled "Failed to analyze image" "No response from API") /\
  describe (replying (json "{'choices':[{'message':{'content':'Title: Cat\nA cat.'}}]}"))
    (Resilient.url_of_string "https://a/cat.png")
  = Returns (Resilient.Titled "Cat" "A cat.") /\
  describe (replying (json "{'choices':[{'message':{'content':'title: '}}]}"))
    (Resilient.url_of_string "https://a/cat.png")
  = Returns (Resilient.Titled "Image Analysis" "") /\
  describe (replying (json "{'choices':[{'message':{'content':'Title: Cat\nA cat.'}}]}"))
    (Resilient.url_of_params "https://a/cat.png" (Some "Count the cats."))
  = Returns (Resilient.Raw (JS.JStr ("Title: Cat" ++ newline ++ "A cat."))) /\
  describe (replying (json "{'choices':[{'message':{'content':7}}]}"))
    (Resilient.url_of_string "https://a/cat.png")
  = Throws (Error "match").
Proof. repeat split. Qed.

(** ** The configuration and the connection of the AI Gateway plugin *)

(** X25.  A configuration that [getAIGatewayConfig] returns passes
    [validateConfig] unless its base URL is empty, and its base URL is empty
    only when AI_GATEWAY_BASE_URL is set to the empty string, in the runtime
    or, the runtime having none, in the environment: a setting that is
    present and empty is kept, not replaced by the default.  The check of
    the key in [validateConfig] never fails for such a configuration. *)
Theorem validateConfig_after_getAIGatewayConfig :
  forall (runtime : IAgentRuntime) (process : ProcessEnv)
         (config : Resilient.AIGatewayConfig),
    Resilient.getAIGatewayConfig runtime process = Returns config ->
    (Resilient.baseUrl config = "" <->
     Resilient.getSetting runtime process "AI_GATEWAY_BASE_URL" None = Some "") /\
    (Resilient.baseUrl config <> "" -> Resilient.validateConfig config = Returns tt) /\
    (Resilient.baseUrl config = "" ->
     Resilient.validateConfig config = Throws (Error "AI Gateway base URL is required")).
Proof.
  intros runtime process config Hc.
  destruct (getAIGatewayConfig_apiKey _ _ _ Hc) as [K B].
  unfold Resilient.validateConfig. rewrite K. cbn [negb].
  split; [|split].
  - rewrite B. unfold Resilient.getSettingOr, Resilient.getSetting, JS.nullish.
    destruct (runtime "AI_GATEWAY_BASE_URL") as [v|].
    + split; [now intros -> | now intros [= ->]].
    + destruct (process "AI_GATEWAY_BASE_URL") as [v|].
      * split; [now intros -> | now intros [= ->]].
      * split; discriminate.
  - intros H. apply String.eqb_neq in H. unfold JS.truthy_string. now rewrite H.
  - intros ->. reflexivity.
Qed.

Lemma validateConfig_after_getAIGatewayConfig_witness :
  exists config : Resilient.AIGatewayConfig,
    Resilient.getAIGatewayConfig
      (settings [("AI_GATEWAY_API_KEY", "k"); ("AI_GATEWAY_BASE_URL", "")])
      (settings [("AI_GATEWAY_BASE_URL", "https://gateway.example.test/v1")])
    = Returns config /\
    Resilient.validateConfig config = Throws (Error "AI Gateway base URL is required").
Proof.
  eexists. split; [reflexivity|].
  apply (validateConfig_after_getAIGatewayConfig
           (settings [("AI_GATEWAY_API_KEY", "k"); ("AI_GATEWAY_BASE_URL", "")])
           (settings [("AI_GATEWAY_BASE_URL", "https://gateway.example.test/v1")])
           _ eq_refl).
  reflexivity.
Defined.

(** X26.  [testConnection] never throws, and it gives [true] exactly when the
    GET of [/models] is answered with a status that is a success and a body
    that is JSON.  The request goes to the base URL, followed by the account
    and the workspace when both are set and not empty; the OpenAI-compatible
    URL, to which the handlers post, plays no part in it. *)
Theorem testConnection_true :
  forall (fetch : Resilient.Request -> Resilient.Fetched)
         (JSON_parse : string -> option JS.JValue)
         (config : Resilient.AIGatewayConfig),
    Resilient.testConnection fetch JSON_parse config = true <->
    exists (response : Resilient.Response) (body : string) (data : JS.JValue),
      fetch (requestOf config "/models" "GET" None [] false)
      = Resilient.Responded response /\
      Resilient.ok response = true /\
      Resilient.text response = inl body /\
      JSON_parse body = Some data.
Proof.
  intros fetch JSON_parse config. unfold Resilient.testConnection.
  rewrite makeRequest_single.
  destruct (fetch _) as [m|response].
  { split; [discriminate | intros [r [b [d [H _]]]]; discriminate]. }
  destruct (Resilient.text response) as [body|m] eqn:T.
  2:{ split; [discriminate | intros [r [b [d [[= <-] [_ [H _]]]]]]; congruence]. }
  destruct (Resilient.ok response) eqn:O.
  2:{ split; [discriminate | intros [r [b [d [[= <-] [H _]]]]]; congruence]. }
  destruct (JSON_parse body) as [data|] eqn:P.
  - split; [intros _ | reflexivity].
    exists response, body, data. repeat split; assumption.
  - split; [discriminate|].
    intros [r [b [d [[= <-] [_ [Hb Hd]]]]]]. congruence.
Qed.

Example testConnection_ignores_compatible_url :
  Resilient.testConnection
    (fun request =>
       if String.eqb (Resilient.request_url request) "https://base.example.test/v1/models"
       then replying "{}"
       else Resilient.Rejected "unknown host")
    JS.JSON_parse
    {| Resilient.apiKey := "k";
       Resilient.baseUrl := "https://base.example.test/v1";
       Resilient.openaiCompatibleUrl := Some "https://compatible.example.test/v1";
       Resilient.accountId := Some "acct";
       Resilient.workspace := None;
       Resilient.smallModel := "s"; Resilient.largeModel := "l";
       Resilient.embeddingModel := "e"; Resilient.imageModel := "i" |}
  = true.
Proof. reflexivity. Qed.

(** ** The cache of the list of models *)

Ltac fetched :=
  match goal with
  | |- context [?h (Provider.sent ?st) ?r] =>
      destruct (h (Provider.sent st) r) as [res|e];
      cbn [fst snd Provider.sent Provider.modelsCache]; [|now split];
      destruct res; cbn [fst snd Provider.sent Provider.modelsCache JS.member];
      try (now split);
      match goal with
      | |- context [JS.lookup "data" ?m] =>
          destruct (JS.lookup "data" m) as [found|];
          cbn [fst snd Provider.sent Provider.modelsCache]; [|now split];
          destruct (JS.truthy found) eqn:F;
          cbn [fst snd Provider.sent Provider.modelsCache]; now split
      end
  end.

Section ModelsCache.

Variable typeErrorMessage : string -> string.

Lemma listModels_outcome (http : list Provider.HttpRequest -> Provider.HttpRequest
                                 -> Completion JS.JValue)
    (this : Provider.GatewayProvider) (force : bool) (st : Provider.State) :
  let get := Provider.GET (Provider.baseURL this ++ "/models") (Provider.headers this) in
  (Provider.listModels http typeErrorMessage this force st
   = (match Provider.modelsCache st with
      | Some cache => Returns cache
      | None => Returns JS.JNull
      end, st) /\
   force = false /\
   exists cache, Provider.modelsCache st = Some cache /\ JS.truthy cache = true) \/
  (Provider.sent (snd (Provider.listModels http typeErrorMessage this force st))
   = (Provider.sent st ++ [get])%list /\
   match fst (Provider.listModels http typeErrorMessage this force st) with
   | Returns models =>
       JS.truthy models = true /\
       Provider.modelsCache (snd (Provider.listModels http typeErrorMessage this force st))
       = Some models
   | Throws _ =>
       Provider.modelsCache (snd (Provider.listModels http typeErrorMessage this force st))
       = Provider.modelsCache st
   end).
Proof.
  cbv zeta. unfold Provider.listModels.
  destruct (Provider.modelsCache st) as [cache|] eqn:C.
  - destruct (JS.truthy cache) eqn:T; cbn [andb].
    + destruct force; cbn [negb].
      * right. unfold Provider.call.
        fetched.
      * left. split; [reflexivity|]. split; [reflexivity|]. now exists cache.
    + right. unfold Provider.call.
      fetched.
  - right. unfold Provider.call.
    fetched.
Qed.

End ModelsCache.

(** X27.  Once [listModels] has returned a list, the provider asks no more:
    the list is truthy, it is the cache, and a later call that is not forced
    returns it and leaves the provider as it is, making no request, whatever
    the network would answer.  That holds as well when the gateway listed no
    models and the empty array was cached. *)
Theorem listModels_cached :
  forall (http later : list Provider.HttpRequest -> Provider.HttpRequest
                       -> Completion JS.JValue)
         (typeErrorMessage : string -> string)
         (this : Provider.GatewayProvider) (force : bool)
         (st st1 : Provider.State) (models : JS.JValue),
    Provider.listModels http typeErrorMessage this force st = (Returns models, st1) ->
    JS.truthy models = true /\
    Provider.modelsCache st1 = Some models /\
    Provider.listModels later typeErrorMessage this false st1 = (Returns models, st1).
Proof.
  intros http later typeErrorMessage this force st st1 models H.
  assert (A : JS.truthy models = true /\ Provider.modelsCache st1 = Some models).
  { destruct (listModels_outcome typeErrorMessage http this force st)
      as [[E [_ [cache [C T]]]] | [_ R]]; rewrite H in *.
    - rewrite C in E. injection E as <- <-. now split.
    - exact R. }
  destruct A as [T C]. repeat split; [exact T | exact C |].
  unfold Provider.listModels. now rewrite C, T.
Qed.

Lemma listModels_cached_witness :
  exists st1 : Provider.State,
    Provider.listModels (fun _ _ => Returns (parsed "{'object':'list'}")) (fun name => name)
      {| Provider.baseURL := "https://gateway.example.test/v1"; Provider.headers := [] |}
      false {| Provider.modelsCache := None; Provider.sent := [] |}
    = (Returns (JS.JArr []), st1) /\
    Provider.listModels (fun _ _ => Returns (parsed "{'data':[{'id':'gpt-4o'}]}"))
      (fun name => name)
      {| Provider.baseURL := "https://gateway.example.test/v1"; Provider.headers := [] |}
      false st1
    = (Returns (JS.JArr []), st1).
Proof.
  eexists. split; [reflexivity|].
  apply (listModels_cached (fun _ _ => Returns (parsed "{'object':'list'}")) _
           (fun name => name)
           {| Provider.baseURL := "https://gateway.example.test/v1"; Provider.headers := [] |}
           false {| Provider.modelsCache := None; Provider.sent := [] |}).
  reflexivity.
Defined.

(** X28.  [chat] always posts, and its outcome is the answer to that POST:
    listing the models comes first only when the parameters name a model,
    costs at most one GET, and cannot make the chat fail, whatever the
    listing does.  The POST carries the parameters as they are. *)
Theorem chat_always_posts :
  forall (http : list Provider.HttpRequest -> Provider.HttpRequest -> Completion JS.JValue)
         (typeErrorMessage : string -> string)
         (this : Provider.GatewayProvider) (params : list (string * JS.JValue))
         (st : Provider.State),
    let get := Provider.GET (Provider.baseURL this ++ "/models") (Provider.headers this) in
    let post :=
      Provider.POST (Provider.baseURL this ++ "/chat/completions") (JS.JObj params)
        (Provider.headers this) in
    exists earlier : list Provider.HttpRequest,
      (earlier = Provider.sent st \/
       (earlier = (Provider.sent st ++ [get])%list /\
        JS.truthy_opt (JS.lookup "model" params) = true)) /\
      fst (Provider.chat http typeErrorMessage this params st) = http earlier post /\
      Provider.sent (snd (Provider.chat http typeErrorMessage this params st))
      = (earlier ++ [post])%list.
Proof.
  intros http typeErrorMessage this params st get post.
  unfold Provider.chat. cbv zeta. fold post. unfold Provider.call. cbn [fst snd Provider.sent].
  destruct (JS.truthy_opt (JS.lookup "model" params)) eqn:M.
  - exists (Provider.sent (snd (Provider.listModels http typeErrorMessage this false st))).
    split; [|now split].
    destruct (listModels_outcome typeErrorMessage http this false st)
      as [[E _] | [S _]].
    + left. now rewrite E.
    + right. now split.
  - exists (Provider.sent st). split; [now left | now split].
Qed.

(** ** The handlers of the multi-provider plugin *)

Section MultiProvider.

Lemma or_number_truthy (given : option JS.number) (default : JS.number) :
  JS.truthy_number default = true ->
  JS.truthy_number (JS.or_number given default) = true /\
  (forall v, given = Some v -> JS.truthy_number v = true -> JS.or_number given default = v) /\
  (forall v, given = Some v -> JS.truthy_number v = false ->
     JS.or_number given default = default) /\
  (given = None -> JS.or_number given default = default).
Proof.
  intros D. unfold JS.or_number. destruct given as [v|].
  - destruct (JS.truthy_number v) eqn:T;
      (split; [first [exact T | exact D]|]);
      (split; [intros w [= <-] Hw; congruence|]);
      (split; [intros w [= <-] Hw; congruence | discriminate]).
  - split; [exact D|]. split; [discriminate|]. split; [discriminate | reflexivity].
Qed.

End MultiProvider.

(** X29.  The text handlers of the multi-provider plugin never pass on a
    temperature or a limit of tokens that is zero or NaN.  A value of the
    caller that is neither is passed on as it is; a zero, a NaN and a missing
    value are replaced, the temperature by 0.7 and the limit by 8192 for the
    large model and 4096 for the small one.  So a temperature of zero cannot
    be asked for. *)
Theorem gateway_text_never_zero :
  forall (ENV_KEYS : list (Gateway.ModelProviderName * string))
         (runtime : IAgentRuntime) (process : ProcessEnv)
         (customConfig : option Gateway.PartialGatewayConfig)
         (params : Gateway.TextInput),
    let large :=
      textParamsOf (Gateway.handleTextLarge ENV_KEYS runtime process customConfig params) in
    let small :=
      textParamsOf (Gateway.handleTextSmall ENV_KEYS runtime process customConfig params) in
    let passed (given : option JS.number) (default result : JS.number) :=
      JS.truthy_number result = true /\
      result = match given with
               | Some v => if JS.truthy_number v then v else default
               | None => default
               end in
    passed (Gateway.temperature params) (JS.Decimal false 7 (-1))
      (Gateway.params_temperature large) /\
    passed (Gateway.temperature params) (JS.Decimal false 7 (-1))
      (Gateway.params_temperature small) /\
    passed (Gateway.maxTokens params) (JS.int 8192) (Gateway.params_maxTokens large) /\
    passed (Gateway.maxTokens params) (JS.int 4096) (Gateway.params_maxTokens small).
Proof.
  intros ENV_KEYS runtime process customConfig params. cbv zeta.
  unfold Gateway.handleTextLarge, Gateway.handleTextSmall, Gateway.handleText.
  assert (P : forall (A : Type) (c1 c2 : bool) (a b : string) (p : Gateway.ModelProviderName)
                     (slot : string) (x : Gateway.TextParams),
             textParamsOf
               (if c1 then Gateway.generateTextWithVercelGateway a x
                else if c2 then Gateway.generateTextWithOpenRouter b x
                else Gateway.generateTextWithVercel p slot x) = x).
  { intros _ [] [] a b p slot x; reflexivity. }
  cbv zeta. rewrite !(P unit).
  cbn [Gateway.params_temperature Gateway.params_maxTokens].
  repeat split;
    try (apply or_number_truthy; reflexivity).
Qed.

Example gateway_text_zero_temperature :
  Gateway.handleTextSmall [("vercel-gateway", "AI_GATEWAY_API_KEY")]
    (settings [("AI_GATEWAY_API_KEY", "k")]) (settings []) None
    {| Gateway.prompt := "Hi"; Gateway.system := None;
       Gateway.maxTokens := Some (JS.int 0); Gateway.temperature := Some (JS.int 0);
       Gateway.stopSequences := None |}
  = Gateway.generateTextWithVercelGateway "openai/gpt-oss-120b"
      {| Gateway.params_prompt := "Hi"; Gateway.params_system := None;
         Gateway.params_maxTokens := JS.int 4096;
         Gateway.params_temperature := JS.Decimal false 7 (-1);
         Gateway.params_stopSequences := None |}.
Proof. reflexivity. Qed.


Example gateway_custom_models_sample :
  Gateway.handleTextEmbedding [("vercel-gateway", "AI_GATEWAY_API_KEY")]
    (settings [("AI_GATEWAY_API_KEY", "k")]) (settings [])
    (Some {| Gateway.customTextProvider := None;
             Gateway.customEmbeddingProvider := None;
             Gateway.customImageProvider := None;
             Gateway.customModels :=
               Some {| Gateway.textLarge := Some "anthropic/claude-sonnet-4";
                       Gateway.textSmall := None;
                       Gateway.embedding := None;
                       Gateway.image := None |} |})
    None
  = Gateway.generateEmbeddingWithVercelGateway "text-embedding-3-small" "test" /\
  Gateway.handleTextEmbedding [("vercel-gateway", "AI_GATEWAY_API_KEY")]
    (settings [("AI_GATEWAY_API_KEY", "k")]) (settings []) None (Some "")
  = Gateway.generateEmbeddingWithVercelGateway "openai/text-embedding-3-small" "test".
Proof. split; reflexivity. Qed.

(** ** The sizes the AI SDK plugin accepts *)

Section Sizes.

Lemma spanDigits_spec (s : string) :
  s = fst (JS.spanDigits s) ++ snd (JS.spanDigits s) /\
  allOf JS.isDigit (fst (JS.spanDigits s)) = true /\
  noDigitAhead (snd (JS.spanDigits s)).
Proof.
  induction s as [|c s [IH1 [IH2 IH3]]]; [now repeat split|].
  cbn [JS.spanDigits]. destruct (JS.isDigit c) eqn:D.
  - destruct (JS.spanDigits s) as [d r]. cbn [fst snd allOf append] in *.
    rewrite D, IH2. repeat split; [now f_equal | exact IH3].
  - cbn [fst snd allOf append noDigitAhead]. now repeat split.
Qed.

Lemma spanDigits_app (d r : string) :
  allOf JS.isDigit d = true -> noDigitAhead r -> JS.spanDigits (d ++ r) = (d, r).
Proof.
  induction d as [|c d IH]; intros Hd Hr.
  - destruct r as [|c r]; [reflexivity|]. cbn in Hr |- *. now rewrite Hr.
  - cbn [allOf] in Hd. apply andb_true_iff in Hd as [Hc Hd].
    cbn [append JS.spanDigits]. now rewrite Hc, (IH Hd Hr).
Qed.

Lemma sizePattern_iff (s : string) :
  AISdk.sizePattern s = true <->
  exists width height : string,
    width <> "" /\ height <> "" /\
    allOf JS.isDigit width = true /\ allOf JS.isDigit height = true /\
    s = width ++ "x" ++ height.
Proof.
  unfold AISdk.sizePattern. split.
  - destruct (spanDigits_spec s) as [E [D _]].
    destruct (JS.spanDigits s) as [width rest]. cbn [fst snd] in *.
    intros H. apply andb_true_iff in H as [Hw H].
    destruct rest as [|c rest]; [discriminate|].
    destruct c as [[] [] [] [] [] [] [] []]; try discriminate H.
    destruct (spanDigits_spec rest) as [E' [D' _]].
    destruct (JS.spanDigits rest) as [height tail]. cbn [fst snd] in *.
    apply andb_true_iff in H as [Hh Ht]. apply String.eqb_eq in Ht. subst tail.
    exists width, height. rewrite append_nil_r in E'. subst rest.
    apply negb_true_iff, String.eqb_neq in Hw, Hh. now repeat split.
  - intros [width [height [Hw [Hh [Dw [Dh ->]]]]]].
    rewrite (spanDigits_app width ("x" ++ height) Dw) by reflexivity.
    apply String.eqb_neq in Hw, Hh. rewrite Hw. cbn [negb andb append].
    pose proof (spanDigits_app height "" Dh I) as S. rewrite append_nil_r in S.
    now rewrite S, Hh.
Qed.

End Sizes.

(** X19.  Once a key is found, the image handler of the AI SDK plugin takes a
    size exactly when it is a run of decimal digits, the lower-case letter x
    and a run of decimal digits, with nothing before, between or after; the
    size is then passed on as it is.  Any other size ends in the error
    [Invalid size format], which quotes it.  Without a size the handler
    passes on 1024x1024. *)
Theorem ai_sdk_image_size :
  forall (runtime : IAgentRuntime) (process : ProcessEnv) (prompt : string)
         (n : option JS.number) (size : option string) (model : AISdk.ModelInstance),
    AISdk.instanceOf runtime process "AI_GATEWAY_IMAGE_MODEL" "openai/dall-e-3"
    = Returns model ->
    let sizeStr := match size with Some given => given | None => "1024x1024" end in
    let wellFormed :=
      exists width height : string,
        width <> "" /\ height <> "" /\
        allOf JS.isDigit width = true /\ allOf JS.isDigit height = true /\
        sizeStr = width ++ "x" ++ height in
    (wellFormed ->
     exists request,
       AISdk.handleImage runtime process prompt n size = Returns request /\
       AISdk.image_size request = sizeStr /\
       AISdk.image_model request = model) /\
    (~ wellFormed ->
     AISdk.handleImage runtime process prompt n size
     = Throws (Error ("Invalid size format: " ++ sizeStr
                      ++ ". Expected format: WIDTHxHEIGHT"))).
Proof.
  intros runtime process prompt n size model Hm sizeStr wellFormed.
  unfold AISdk.handleImage. rewrite Hm. fold sizeStr.
  pose proof (sizePattern_iff sizeStr) as P. fold wellFormed in P.
  destruct (AISdk.sizePattern sizeStr) eqn:S; cbn [negb].
  - split; [intros _; eexists; repeat split|].
    intros H. exfalso. apply H, P. reflexivity.
  - split; [|reflexivity].
    intros H. apply P in H. discriminate.
Qed.

Lemma ai_sdk_image_size_witness :
  AISdk.handleImage (settings [("OPENAI_API_KEY", "sk-1")]) (settings []) "a cat"
    None (Some "1024X1024")
  = Throws (Error "Invalid size format: 1024X1024. Expected format: WIDTHxHEIGHT").
Proof.
  apply (ai_sdk_image_size (settings [("OPENAI_API_KEY", "sk-1")]) (settings []) "a cat"
           None (Some "1024X1024") (AISdk.openaiProvider "sk-1" "dall-e-3") eq_refl).
  intros H. apply sizePattern_iff in H. discriminate H.
Defined.

Example ai_sdk_image_samples :
  let ask runtime size :=
    AISdk.handleImage (settings runtime) (settings []) "a cat" None size in
  ask [("AI_GATEWAY_API_KEY", "k"); ("OPENAI_API_KEY", "sk-1")] None
  = Returns {| AISdk.image_model := AISdk.gatewayProvider "k" "openai/dall-e-3";
               AISdk.image_prompt := "a cat";
               AISdk.image_n := JS.int 1;
               AISdk.image_size := "1024x1024" |} /\
  ask [("OPENAI_API_KEY", "sk-1")] (Some "0512x00512")
  = Returns {| AISdk.image_model := AISdk.openaiProvider "sk-1" "dall-e-3";
               AISdk.image_prompt := "a cat";
               AISdk.image_n := JS.int 1;
               AISdk.image_size := "0512x00512" |} /\
  ask [("OPENAI_API_KEY", "sk-1")] (Some " 512x512")
  = Throws (Error "Invalid size format:  512x512. Expected format: WIDTHxHEIGHT") /\
  ask [("OPENAI_API_KEY", "sk-1")] (Some "")
  = Throws (Error "Invalid size format: . Expected format: WIDTHxHEIGHT") /\
  ask [] (Some "auto")
  = Throws (Error "AI_GATEWAY_API_KEY or OPENAI_API_KEY is required").
Proof. repeat split. Qed.

(** ** Further samples *)

Example ai_sdk_provider_samples :
  AISdk.handleTextSmall
    (settings [("OPENAI_API_KEY", "sk-1"); ("AI_GATEWAY_API_KEY", "")]) (settings [])
    (Some "Be brief.") "Hi" (Some (JS.int 0))
  = Returns {| AISdk.text_model := AISdk.openaiProvider "sk-1" "gpt-4o-mini";
               AISdk.text_prompt := "system: Be brief." ++ newline ++ "user: Hi";
               AISdk.text_temperature := JS.int 0 |} /\
  AISdk.handleTextLarge
    (settings [("OPENAI_API_KEY", "sk-1")]) (settings [("AI_GATEWAY_API_KEY", "k")])
    None "Hi" None
  = Returns {| AISdk.text_model := AISdk.gatewayProvider "k" "openai/gpt-4o";
               AISdk.text_prompt := "user: Hi";
               AISdk.text_temperature := JS.Decimal false 7 (-1) |} /\
  AISdk.removeFirst "openai/" "azure/openai/openai/gpt-4o" = "azure/openai/gpt-4o" /\
  AISdk.handleTextEmbedding (settings []) (settings []) (AISdk.text_of_params (Some ""))
  = Throws (Error "Text is required for embeddings") /\
  AISdk.handleTextEmbedding (settings []) (settings []) (AISdk.text_of_string "text")
  = Throws (Error "AI_GATEWAY_API_KEY or OPENAI_API_KEY is required").
Proof. repeat split. Qed.

Example gateway_image_generation_samples :
  let generate fetched n size :=
    Resilient.handleImageGeneration
      (fun request =>
         match Resilient.request_body request with
         | Some (JS.JObj body) =>
             match JS.lookup "n" body, JS.lookup "size" body with
             | Some (JS.JNum (JS.Decimal false 1 0)), Some (JS.JStr "1024x1024") => fetched
             | _, _ => Resilient.Rejected "other body"
             end
         | _ => Resilient.Rejected "no body"
         end)
      JS.JSON_parse (settings [("AI_GATEWAY_API_KEY", "k")]) (settings []) "a cat" n size in
  generate (replying (json "{'data':[{'url':'https://a'}]}")) (Some (JS.int 0)) (Some "")
  = Returns [parsed "{'url':'https://a'}"] /\
  generate (replying (json "{'data':{'url':'https://a'}}")) None None
  = Throws (Error "Invalid image generation response format") /\
  generate (replying "0") None None
  = Throws (Error "AI Gateway image generation failed: undefined") /\
  generate (Resilient.Rejected "socket hang up") None None
  = Throws (Error "AI Gateway image generation failed: socket hang up").
Proof. repeat split. Qed.

Example generateObject_samples :
  let ask content :=
    Models.handleObjectSmall
      (fun call =>
         match GatewayClient.call_body call with
         | JS.JObj body =>
             match JS.lookup "model" body, JS.lookup "temperature" body with
             | Some (JS.JStr "gpt-4o-mini"), Some (JS.JNum (JS.Decimal false 0 0)) =>
                 answering
                   (JS.JObj [("choices",
                              JS.JArr [JS.JObj [("message", JS.JObj [("content", content)])]])])
                   call
             | _, _ => GatewayClient.Rejected GatewayClient.NotAnError
             end
         | _ => GatewayClient.Rejected GatewayClient.NotAnError
         end)
      JS.JSON_parse (fun _ => inl "") (fun name => "no " ++ name)
      (settings [("AI_GATEWAY_API_KEY", "k"); ("SMALL_MODEL", "gpt-4o-mini")]) None
      "A point" (Some (JS.int 0)) in
  ask (JS.JStr (fenced "json" (json "{'x':1}")))
  = Returns (JS.JObj [("x", JS.JNum (JS.int 1))]) /\
  ask (JS.JStr "Here you are: {}")
  = Throws (GatewayError "Failed to parse JSON response: Here you are: {}" None) /\
  ask (JS.JNum (JS.int 7)) = Throws (Error "no trim") /\
  ask JS.JNull = Throws (GatewayError "API returned empty content" None).
Proof. repeat split. Qed.
